(** * qtt: the deprecated tunnel-barrier fit and the Keysight M3202A stub

    A shallow embedding of

    - [src/qtt/deprecated/tunnelbarrier.py]: [ueV2Hz], [barrierModel],
      [barrierScore] and [fitBarrierModel]; the plotting helpers
      [extent2fullextent] and [plotBarrierFit], the head of
      [preprocessPAT], and the top-level statements of the module
      ([module_body]);
    - [src/qtt/instrument_drivers/virtual_awg/awgs/KeysightM3202A.py]:
      the constructor of [KeysightM3202A_AWG];
    - [src/docs/conf.py]: [get_version] ([conf]).

    Conventions of the embedding.

    - Python exceptions are the constructors of [exn]; a call that may
      raise returns a [result].
    - A numpy float is a real number or [NaN] ([npfloat]).  Arithmetic on
      the finite values is exact: rounding and overflow of binary64 are
      not represented, and neither are the infinities (the only division
      of the pipeline that could produce one is never observed, see
      [barrierScore]).
    - Arrays are one-dimensional: [list npfloat].
    - Python objects that can be aliased or written to (arrays, the
      result dictionary [dd]) live in a store indexed by locations; the
      driver [fitBarrierModel] runs in a monad threading the store and
      a trace of the calls into scipy and of what is printed.
    - The routines of scipy ([curve_fit], [brute], [minimize]) and the
      helper [robustCost] of [qtt.pgeometry] are not part of the
      sources: they are the variables of the section [Pipeline].
    - The decorators [deprecated]/[rdeprecated] of [qtt.utilities.tools]
      wrap a call with a warning and are not represented: the functions
      are modelled as the bodies that the file defines.  The module-level
      [raise] that stops the import of [tunnelbarrier.py] is the subject
      of [module_body]. *)

From Stdlib Require Import Reals Lra Lia FunctionalExtensionality.
From stdpp Require Import gmap strings list.

Open Scope R_scope.

(** ** Python: exceptions and results *)

Inductive exn : Type :=
| TypeError
| ValueError
| IndexError
| ZeroDivisionError
| AttributeError
| NotImplementedError
| RuntimeError
| AwgCommonError.

Inductive result (A : Type) : Type :=
| Ok (a : A)
| Raise (e : exn).

Arguments Ok {A} a.
Arguments Raise {A} e.

Definition rbind {A B : Type} (r : result A) (k : A -> result B) : result B :=
  match r with
  | Ok a => k a
  | Raise e => Raise e
  end.

Definition rmap {A B : Type} (f : A -> B) (r : result A) : result B :=
  match r with
  | Ok a => Ok (f a)
  | Raise e => Raise e
  end.

Declare Scope res_scope.
Delimit Scope res_scope with res.
Notation "'let!' x := c 'in' k" := (rbind c (fun x => k))
  (at level 10, x name, c at level 100, k at level 200) : res_scope.

Definition returns {A : Type} (r : result A) : Prop := exists a, r = Ok a.
Definition raises {A : Type} (r : result A) : Prop := exists e, r = Raise e.

(** ** numpy floats *)

Inductive npfloat : Type :=
| Fin (r : R)
| NaN.

Definition nf_lift1 (f : R -> R) (a : npfloat) : npfloat :=
  match a with
  | Fin x => Fin (f x)
  | NaN => NaN
  end.

Definition nf_lift2 (f : R -> R -> R) (a b : npfloat) : npfloat :=
  match a, b with
  | Fin x, Fin y => Fin (f x y)
  | _, _ => NaN
  end.

Definition nf_add : npfloat -> npfloat -> npfloat := nf_lift2 Rplus.
Definition nf_sub : npfloat -> npfloat -> npfloat := nf_lift2 Rminus.
Definition nf_mul : npfloat -> npfloat -> npfloat := nf_lift2 Rmult.
Definition nf_abs : npfloat -> npfloat := nf_lift1 Rabs.
Definition nf_pow (a : npfloat) (n : nat) : npfloat := nf_lift1 (fun x => x ^ n) a.

(** [np.sqrt] of a negative number is nan (with a warning, no exception). *)
Definition nf_sqrt (a : npfloat) : npfloat :=
  match a with
  | Fin x => if Rlt_dec x 0 then NaN else Fin (sqrt x)
  | NaN => NaN
  end.

(** Multiplication and division by a finite scalar. *)
Definition nf_scale (c : R) (a : npfloat) : npfloat := nf_lift1 (fun x => x * c) a.
Definition nf_over (d : R) (a : npfloat) : npfloat := nf_lift1 (fun x => x / d) a.

Definition nf_finite (a : npfloat) : Prop := exists r, a = Fin r.

(** [0 <= a] as Python decides it: a comparison with nan is false. *)
Definition nf_nonneg (a : npfloat) : Prop :=
  match a with
  | Fin x => 0 <= x
  | NaN => False
  end.

Declare Scope npfloat_scope.
Delimit Scope npfloat_scope with nf.
Bind Scope npfloat_scope with npfloat.
Infix "+" := nf_add : npfloat_scope.
Infix "-" := nf_sub : npfloat_scope.
Infix "*" := nf_mul : npfloat_scope.
Infix "^" := nf_pow : npfloat_scope.

(** ** The fragment of numpy the module uses *)

Module np.

Definition ndarray : Type := list npfloat.

Definition of_reals (l : list R) : ndarray := map Fin l.

(** Broadcasting of two one-dimensional operands: equal lengths pair up,
    a length-one operand is repeated, anything else is the error
    "operands could not be broadcast together". *)
Definition broadcast (f : npfloat -> npfloat -> npfloat) (a b : ndarray)
  : result ndarray :=
  if (length a =? length b)%nat then Ok (zip_with f a b)
  else match a, b with
       | [a0], _ => Ok (map (f a0) b)
       | _, [b0] => Ok (map (fun x => f x b0) a)
       | _, _ => Raise ValueError
       end.

Definition subtract : ndarray -> ndarray -> result ndarray := broadcast nf_sub.
Definition multiply : ndarray -> ndarray -> result ndarray := broadcast nf_mul.

(** Array against scalar. *)
Definition sub_scalar (a : ndarray) (s : npfloat) : ndarray := map (fun x => nf_sub x s) a.
Definition mul_scalar (a : ndarray) (s : npfloat) : ndarray := map (fun x => nf_mul x s) a.
Definition add_scalar (a : ndarray) (s : npfloat) : ndarray := map (fun x => nf_add x s) a.
Definition power (a : ndarray) (n : nat) : ndarray := map (fun x => nf_pow x n) a.
Definition sqrt (a : ndarray) : ndarray := map nf_sqrt a.
Definition abs (a : ndarray) : ndarray := map nf_abs a.

(** Array against a Python float. *)
Definition scale (a : ndarray) (c : R) : ndarray := map (nf_scale c) a.
Definition over (a : ndarray) (d : R) : ndarray := map (nf_over d) a.

(** [add.reduce]: the sum, from the left, starting at 0. *)
Definition add_reduce (a : ndarray) : npfloat := fold_left nf_add a (Fin 0).

(** [x ** 0.25] at a total that is never negative (a sum of fourth
    powers of absolute values): the fourth root. *)
Definition root4 (r : R) : R := R_sqrt.sqrt (R_sqrt.sqrt r).

(** [np.linalg.norm(x, ord=4)] on a one-dimensional array:
    [absx = abs(x); absx **= ord; ret = add.reduce(absx);
     ret **= reciprocal(ord)]. *)
Definition linalg_norm4 (a : ndarray) : npfloat :=
  nf_lift1 root4 (add_reduce (power (abs a) 4)).

(** A numpy scalar divided by [a.size]: [0.0 / 0] is nan, and the norm
    of an empty array is 0. *)
Definition div_size (v : npfloat) (n : nat) : npfloat :=
  match n with
  | O => NaN
  | S _ => nf_over (INR n) v
  end.

End np.

(** Indexing a sequence with a literal non-negative index. *)
Definition getitem {A : Type} (p : list A) (i : nat) : result A :=
  match p !! i with
  | Some v => Ok v
  | None => Raise IndexError
  end.

(** ** [scipy.constants]

    CODATA 2018 (exact SI) values of the elementary charge and the
    Planck constant, as scipy provides them. *)
Module scipy_constants.
Definition e : R := 1.602176634e-19.
Definition h : R := 6.62607015e-34.
End scipy_constants.

(** ** tunnelbarrier.py, line 65 *)
Definition ueV2Hz : R := scipy_constants.e / scipy_constants.h * 1e-6.

(** ** [barrierModel], lines 69-96

    Line 95:
    [np.sqrt(np.power((x - xoffset) * leverarm, 2) + 4 * t**2) * ueV2Hz]. *)
Definition line95 (x : np.ndarray) (xoffset leverarm t : npfloat) : np.ndarray :=
  np.scale
    (np.sqrt
       (np.add_scalar
          (np.power (np.mul_scalar (np.sub_scalar x xoffset) leverarm) 2)
          (nf_scale 4 (t ^ 2))))
    ueV2Hz.

(** [def barrierModel(x, *p)]: the parameters arrive either as three
    positional scalars or packed in one sequence. *)
Inductive pargs : Type :=
| Positional (ps : list npfloat)
| Sequence (pp : list npfloat).

Definition barrierModel (x : np.ndarray) (p : pargs) : result np.ndarray :=
  (let! p := match p with
              | Sequence pp => Ok pp               (* len(p) == 1: p = p[0] *)
              | Positional [_] => Raise TypeError  (* p = p[0] is a float; p[0] fails *)
              | Positional ps => Ok ps
              end in
   let! xoffset := getitem p 0 in
   let! leverarm := getitem p 1 in
   let! t := getitem p 2 in
   Ok (line95 x xoffset leverarm t))%res.


(** ** KeysightM3202A.py *)

Module KeysightM3202A.

(** Arguments of a call. *)
Inductive pyarg : Type :=
| PStr (s : string)
| PList (l : list Z)
| PType (name : string).

(** The builtin [super]: it accepts no keyword argument, and a first
    positional argument must be a type. *)
Definition py_super (args : list pyarg) (kwargs : list (string * pyarg)) : result unit :=
  match kwargs with
  | _ :: _ => Raise TypeError
  | [] => match args with
          | [] | PType _ :: _ => Ok tt
          | _ => Raise TypeError
          end
  end.

(** Modelled from the spec: [Setting] of [virtual_awg.setting], which is
    not among the sources; the spec describes it as a "value plus min/max
    plus unit".  [Setting(unit, default_value, minimum, maximum)] is the
    record of its four arguments. *)
Record Setting : Type :=
  { unit_name : string; default_value : R; minimum : R; maximum : R }.

(** The argument [awg]: the constructor reads [type(awg).__name__]. *)
Record awg_object : Type := { type_name : string }.

(** The attributes of [self].  [_awg_name] is set by
    [AwgCommon.__init__] (not among the sources) when that runs. *)
Record instance : Type :=
  { _awg_name : option string;
    __settings : option (gmap string Setting);
    __awg : option awg_object }.

Definition S (A : Type) : Type := instance -> result A * instance.

(** Lines 44-45 *)
Definition update_settings : S unit :=
  fun self => (Raise NotImplementedError, self).

(** Lines 13-18 *)
Definition default_settings : gmap string Setting :=
  <["sampling_rate" := {| unit_name := "GS/s"; default_value := 1.0e9; minimum := 1.0e7; maximum := 1.2e9 |}]>
  (<["marker_delay" := {| unit_name := "ns"; default_value := 0.0; minimum := 0.0; maximum := 1.0 |}]>
  (<["marker_low" := {| unit_name := "V"; default_value := 0.0; minimum := -1.0; maximum := 2.6 |}]>
  (<["marker_high" := {| unit_name := "V"; default_value := 1.0; minimum := -0.9; maximum := 2.7 |}]>
  (<["amplitudes" := {| unit_name := "V"; default_value := 1.0; minimum := 0.02; maximum := 4.5 |}]>
  (<["offset" := {| unit_name := "V"; default_value := 0; minimum := -2.25; maximum := 2.25 |}]>
   ∅))))).

(** Lines 11-20.  [is_] is the identity test of two [str] objects. *)
Definition init_from_line11 (is_ : string -> string -> bool) (awg : awg_object) : S unit :=
  fun self =>
    match _awg_name self with
    | None => (Raise AttributeError, self)
    | Some name =>
        if negb (is_ (type_name awg) name)
        then (Raise AwgCommonError, self)
        else
          let self1 := {| _awg_name := _awg_name self;
                          __settings := Some default_settings;
                          __awg := __awg self |} in
          let self2 := {| _awg_name := _awg_name self1;
                          __settings := __settings self1;
                          __awg := Some awg |} in
          update_settings self2
    end.

(** Lines 9-20 *)
Definition init (is_ : string -> string -> bool) (awg : awg_object) : S unit :=
  fun self =>
    match py_super [PStr "M3202A"]
            [("channels", PList [1; 2; 3; 4]%Z); ("markers", PList [1]%Z)] with
    | Ok _ => init_from_line11 is_ awg self
    | Raise e => (Raise e, self)
    end.

(** [KeysightM3202A_AWG(awg)]: [__init__] runs on a fresh instance, which
    is the value of the call when [__init__] returns. *)
Definition KeysightM3202A_AWG (is_ : string -> string -> bool) (awg : awg_object)
    (fresh : instance) : result instance :=
  match init is_ awg fresh with
  | (Ok _, self) => Ok self
  | (Raise e, _) => Raise e
  end.

End KeysightM3202A.

(** ** [robustCost] of [qtt.pgeometry]

    [from qtt.pgeometry import robustCost] (line 126): the module is not
    among the sources.  The general results take the transform as a
    variable; the instance below serves at concrete inputs. *)

(** Modelled from the spec: [qtt.pgeometry.robustCost] with the method
    ['BZ0'].  The spec calls it a robust loss transform of the residuals,
    "a redescending M-estimator family, selectable by a named variant",
    and leaves the formula of "BZ0" open.  The instance is the
    Blake-Zisserman cost shifted to vanish at a zero residual:
    [-log(exp(-x*x) + eps) + log(1 + eps)] with [eps = exp(-thr*thr)]. *)
Definition bz0 (thr x : R) : R :=
  - ln (exp (- (x * x)) + exp (- (thr * thr))) + ln (1 + exp (- (thr * thr))).

(** Modelled from the spec: [robustCost(x, thr, 'BZ0')] on an array, the
    transform applied elementwise (nan stays nan). *)
Definition robustCost_BZ0 (x : np.ndarray) (thr : R) (method : string) : np.ndarray :=
  map (nf_lift1 (bz0 thr)) x.

(** [a / b] on Python floats. *)
Definition py_truediv (a b : R) : result R :=
  if Req_dec_T b 0 then Raise ZeroDivisionError else Ok (a / b).

(** The default of the keyword [thr] of [barrierScore]. *)
Definition thr_default : R := 3e9.

(** ** The store *)

Definition loc : Type := nat.

Inductive pyval : Type :=
| VNone
| VRef (l : loc).

Inductive pyobj : Type :=
| OArray (a : np.ndarray)
| ODict (d : gmap string pyval).

(** Calls into scipy, with the arguments that are data. *)
Inductive libcall : Type :=
| CallCurveFit (xdata ydata p0 : np.ndarray)
| CallBrute (lo hi : npfloat) (Ns : nat) (disp : bool)
| CallMinimize (x0 : np.ndarray) (method : string) (disp : bool).

(** The two [print] statements of [fitBarrierModel]. *)
Inductive report : Type :=
| StageReport (ppx : np.ndarray) (sc0 sc : npfloat)   (* lines 218 and 228 *)
| FinalReport (sc0 sc : npfloat).                     (* line 252 *)

Inductive event : Type :=
| Called (c : libcall)      (* control enters a scipy routine *)
| Displayed (c : libcall)   (* the routine prints its own convergence report *)
| Printed (r : report).     (* a print statement of the module *)

Record world : Type := World { heap : list pyobj; trace : list event }.

(** What reaches the terminal. *)
Definition is_output (e : event) : bool :=
  match e with
  | Called _ => false
  | Displayed _ | Printed _ => true
  end.

Definition is_call (e : event) : bool :=
  match e with
  | Called _ => true
  | _ => false
  end.

Definition terminal (w : world) : list event := List.filter is_output (trace w).
Definition calls (w : world) : list event := List.filter is_call (trace w).

(** ** The monad of the driver: store, trace and exceptions *)

Definition M (A : Type) : Type := world -> result A * world.

Definition mret {A : Type} (a : A) : M A := fun w => (Ok a, w).

Definition mbind {A B : Type} (m : M A) (k : A -> M B) : M B :=
  fun w => match m w with
           | (Ok a, w') => k a w'
           | (Raise e, w') => (Raise e, w')
           end.

Declare Scope m_scope.
Delimit Scope m_scope with M.
Notation "'do!' x := c 'in' k" := (mbind c (fun x => k))
  (at level 10, x name, c at level 100, k at level 200) : m_scope.
Notation "c ;;; k" := (mbind c (fun _ => k))
  (at level 100, k at level 200, right associativity) : m_scope.

Definition lift {A : Type} (r : result A) : M A := fun w => (r, w).

Definition emit (e : event) : M unit :=
  fun w => (Ok tt, World (heap w) (trace w ++ [e])).

Definition alloc (o : pyobj) : M loc :=
  fun w => (Ok (length (heap w)), World (heap w ++ [o]) (trace w)).

Definition read_array (l : loc) : M np.ndarray :=
  fun w => match heap w !! l with
           | Some (OArray a) => (Ok a, w)
           | _ => (Raise TypeError, w)
           end.

(** [a.copy()] *)
Definition copy (l : loc) : M loc :=
  (do! a := read_array l in alloc (OArray a))%M.

(** [a[i] = v] on an array *)
Definition setitem (l : loc) (i : nat) (v : npfloat) : M unit :=
  fun w => match heap w !! l with
           | Some (OArray a) =>
               if (i <? length a)%nat
               then (Ok tt, World (<[l := OArray (<[i := v]> a)]> (heap w)) (trace w))
               else (Raise IndexError, w)
           | _ => (Raise TypeError, w)
           end.

(** [d[k] = v] on a dictionary *)
Definition setitem_dict (l : loc) (k : string) (v : pyval) : M unit :=
  fun w => match heap w !! l with
           | Some (ODict d) =>
               (Ok tt, World (<[l := ODict (<[k := v]> d)]> (heap w)) (trace w))
           | _ => (Raise TypeError, w)
           end.

(** The optional argument [weights]. *)
Definition read_optional (v : pyval) : M (option np.ndarray) :=
  match v with
  | VNone => mret None
  | VRef l => (do! a := read_array l in mret (Some a))%M
  end.

(** The value a Python callable returns when scipy calls it in world [w].
    The objectives of the driver read the store and allocate temporaries
    that die with the call (see [frame_barrierScore_obj]); only the
    returned value, or the exception, reaches the optimizer. *)
Definition apply_in {A B : Type} (w : world) (f : A -> M B) : A -> result B :=
  fun a => fst (f a w).

(** [res['x']] and the convergence status of an [OptimizeResult]. *)
Record OptimizeResult : Type :=
  { res_x : np.ndarray; res_success : bool; res_message : string }.

(** ** A sample call

    Concrete data at which the general results are instantiated: three
    samples lying on the model curve of parameters [(1, 40, 400)], the
    initial guess [(0, 40, 400)] of the docstring of [barrierModel], unit
    weights and an empty result dictionary; and stand-ins for the
    routines of scipy: a curve fit that moves [x_offset] to that of the
    data, a grid search that returns the lower end of its range, and a
    minimizer that reports success at its starting point. *)
Module Sample.

Definition xd : np.ndarray := np.of_reals [1; 2; 3].

Definition yd : np.ndarray :=
  match barrierModel xd (Positional [Fin 1; Fin 40; Fin 400]) with
  | Ok y => y
  | Raise _ => []
  end.

Definition pp0 : np.ndarray := [Fin 0; Fin 40; Fin 400].

Definition weights : np.ndarray := np.of_reals [1; 1; 1].

(** The caller's objects: [pp0] at 0, [xd] at 1, [yd] at 2, the weights
    at 3 and the dictionary [dd] at 4. *)
Definition store : list pyobj :=
  [OArray pp0; OArray xd; OArray yd; OArray weights; ODict ∅].

Definition start : world := World store [].

Definition curve_fit (f : np.ndarray -> list npfloat -> result np.ndarray)
    (xdata ydata p0 : np.ndarray) : result np.ndarray :=
  Ok (<[0%nat := Fin 1]> p0).

Definition brute (f : npfloat -> result npfloat) (range : npfloat * npfloat)
    (Ns : nat) (disp : bool) : result npfloat :=
  Ok (fst range).

Definition minimize (f : np.ndarray -> result npfloat) (x0 : np.ndarray)
    (method : string) (disp : bool) : result OptimizeResult :=
  Ok {| res_x := x0; res_success := true;
        res_message := "Optimization terminated successfully." |}.

(** A minimizer that stops at the same point and reports failure. *)
Definition minimize_failing (f : np.ndarray -> result npfloat) (x0 : np.ndarray)
    (method : string) (disp : bool) : result OptimizeResult :=
  Ok {| res_x := x0; res_success := false;
        res_message := "Maximum number of function evaluations has been exceeded." |}.

(** What the stand-ins return in the sample call: the first element of
    the vector of stage (a), and the result of both minimizations. *)
Definition x_offset_a (curvefit : bool) : npfloat := if curvefit then Fin 1 else Fin 0.

Definition optimum (curvefit : bool) : OptimizeResult :=
  {| res_x := [(x_offset_a curvefit - Fin 2)%nf; Fin 40; Fin 0];
     res_success := true;
     res_message := "Optimization terminated successfully." |}.

(** Observations lying exactly on the model curve of [(0, 40, 400)]. *)
Definition exact_yd : list R :=
  map (fun xi => sqrt (((xi - 0) * 40) ^ 2 + 4 * 400 ^ 2) * ueV2Hz) [1; 2; 3].

End Sample.


(** ** The plotting helpers of tunnelbarrier.py *)

(** A two-dimensional numpy array: its [shape] and its pixels in
    row-major order. *)
Record image : Type := { im_shape : list nat; im_pixels : list npfloat }.

(** [l[i] = v] on a Python list. *)
Definition list_setitem {A : Type} (l : list A) (i : nat) (v : A) : result (list A) :=
  if (i <? length l)%nat then Ok (<[i := v]> l) else Raise IndexError.

(** *** [extent2fullextent], lines 50-61

    [extent0] is a Python list of Python numbers (the [extent] of
    matplotlib, [[left, right, bottom, top]]), so that the two divisions
    are Python's and raise on a zero divisor; [im] is read through its
    shape only.  [extent] is the shallow copy of line 56: the function
    writes to the copy and returns it. *)
Definition extent2fullextent (extent0 : list R) (im : image) : result (list R) :=
  (let! nx := getitem (im_shape im) 1 in
   let! ny := getitem (im_shape im) 0 in
   let! e1 := getitem extent0 1 in
   let! e0 := getitem extent0 0 in
   let! dx := py_truediv (e1 - e0) (IZR (Z.of_nat nx - 1)) in
   let! e3 := getitem extent0 3 in
   let! e2 := getitem extent0 2 in
   let! dy := py_truediv (e3 - e2) (IZR (Z.of_nat ny - 1)) in
   let extent := extent0 in
   let! v := getitem extent 0 in
   let! extent := list_setitem extent 0 (v - dx / 2) in
   let! v := getitem extent 1 in
   let! extent := list_setitem extent 1 (v + dx / 2) in
   let! v := getitem extent 2 in
   let! extent := list_setitem extent 2 (v - dy / 2) in
   let! v := getitem extent 3 in
   let! extent := list_setitem extent 3 (v + dy / 2) in
   Ok extent)%res.

(** [np.linspace(start, stop, num)] for [num > 1]: [num] samples,
    [(stop - start) / (num - 1)] apart, from [start] to [stop]. *)
Definition linspace (start stop : R) (num : nat) : np.ndarray :=
  map (fun i => Fin (INR i * ((stop - start) / INR (num - 1)) + start)) (seq 0 num).

(** *** Calls into matplotlib

    [plotBarrierFit] draws through [pmatlab.cfigure] and [plt]; the
    calls are recorded in order, with the arguments the module passes. *)
Inductive plot_cmd : Type :=
| Cfigure (fig : Z)
| Clf
| Imshow (im : image) (extent : list R) (interpolation : string)
| Axis (mode : string)
| Title (s : string)
| Ylabel (s : string)
| Plot (x y : np.ndarray) (fmt : string) (label : option string).

(** The monad of the plotting code: the commands issued so far, and
    exceptions. *)
Definition G (A : Type) : Type := list plot_cmd -> result A * list plot_cmd.

Definition gret {A : Type} (a : A) : G A := fun cs => (Ok a, cs).

Definition gbind {A B : Type} (m : G A) (k : A -> G B) : G B :=
  fun cs => match m cs with
            | (Ok a, cs') => k a cs'
            | (Raise e, cs') => (Raise e, cs')
            end.

Definition glift {A : Type} (r : result A) : G A := fun cs => (r, cs).

Definition draw (c : plot_cmd) : G unit := fun cs => (Ok tt, cs ++ [c]).

Declare Scope plt_scope.
Delimit Scope plt_scope with plt.
Notation "'do!' x := c 'in' k" := (gbind c (fun x => k))
  (at level 10, x name, c at level 100, k at level 200) : plt_scope.
Notation "c ;;; k" := (gbind c (fun _ => k))
  (at level 100, k at level 200, right associativity) : plt_scope.

(** *** [plotBarrierFit], lines 102-120

    [pp] is the sequence of fitted parameters; [ppx] is its deep copy
    (line 117), whose third element is set to 0. *)
Definition plotBarrierFit (imq : image) (imextent : list R) (pp : list npfloat)
    (fig : Z) (title : string) : G unit :=
  (draw (Cfigure fig) ;;;
   draw Clf ;;;
   do! extent := glift (extent2fullextent imextent imq) in
   draw (Imshow imq extent "nearest") ;;;
   draw (Axis "tight") ;;;
   draw (Title title) ;;;
   draw (Ylabel "Frequency") ;;;
   draw (Ylabel "Frequency / [mV]") ;;;
   draw (Axis "tight") ;;;
   do! a := glift (getitem imextent 0) in
   do! b := glift (getitem imextent 1) in
   let x0 := linspace a b 1000 in
   do! yfit := glift (barrierModel x0 (Sequence pp)) in
   draw (Plot x0 yfit "-g" (Some "Model")) ;;;
   let ppx := pp in
   do! ppx := glift (list_setitem ppx 2 (Fin 0)) in
   do! yfit := glift (barrierModel x0 (Sequence ppx)) in
   draw (Plot x0 yfit "--g" None))%plt.

(** The curves among the commands. *)
Definition is_curve (c : plot_cmd) : bool :=
  match c with
  | Plot _ _ _ _ => true
  | _ => false
  end.

(** *** [preprocessPAT], lines 146-189 *)

(** A Python number: [15] is an [int], [15.] a [float]. *)
Inductive pynumber : Type :=
| PyInt (n : Z)
| PyFloat (x : R).

(** One dimension of a shape handed to numpy: an integer that is not
    negative.  A float is refused ("'float' object cannot be interpreted
    as an integer"; numpy 1.12 and later). *)
Definition as_dimension (d : pynumber) : result nat :=
  match d with
  | PyInt n => if (n <? 0)%Z then Raise ValueError else Ok (Z.to_nat n)
  | PyFloat _ => Raise TypeError
  end.

Fixpoint as_shape (ds : list pynumber) : result (list nat) :=
  match ds with
  | [] => Ok []
  | d :: ds' =>
      (let! n := as_dimension d in
       let! ns := as_shape ds' in
       Ok (n :: ns))%res
  end.

(** [np.ones(shape)] *)
Definition np_ones (shape : list pynumber) : result image :=
  (let! dims := as_shape shape in
   Ok {| im_shape := dims; im_pixels := replicate (foldr Nat.mul 1%nat dims) (Fin 1) |})%res.

(** [a / ks] for an array and a Python float. *)
Definition image_over (a : image) (ks : R) : image :=
  {| im_shape := im_shape a; im_pixels := np.over (im_pixels a) ks |}.

Section PAT.

(** [qtt.algorithms.generic.smoothImage], not among the sources. *)
Variable smoothImage : image -> result image.

(** Lines 151-189, from the first convolution on, as a function of the
    kernel [kk] of line 150 and of the arguments: they use
    [scipy.ndimage], [np.percentile] and matplotlib, which are not among
    the sources. *)
Variable lines_151_189 :
  image -> list R -> image -> image -> option Z -> result (image * image * image).

(** Lines 146-150, then the rest. *)
Definition preprocessPAT (imextent : list R) (im0 im : image) (fig : option Z)
  : result (image * image * image) :=
  (let! im0s := smoothImage im0 in
   let ks := PyFloat 15 in
   let! ones := np_ones [PyInt 1; ks] in
   let kk := image_over ones 15 in
   lines_151_189 kk imextent im0 im fig)%res.

End PAT.

(** ** The body of the module tunnelbarrier.py

    What [import qtt.deprecated.tunnelbarrier] executes: the top-level
    statements in order, each binding names in the namespace of the
    module or raising. *)
Module module_body.

Inductive raised : Type :=
| Exception (msg : string)
| ImportError (target : string)
| NameError (name : string).

#[warnings="-register-all"] Inductive stmt : Type :=
| FromFutureImport (feature : string)          (* from __future__ import feature *)
| RaiseException (msg : string)                (* raise Exception(msg) *)
| Import (target : string) (binds : string)    (* import / from .. import .. [as ..] *)
| TryExcept (body handler : list stmt)         (* try: body  except: handler *)
| Expr (reads : list string)                   (* an expression statement *)
| Assign (name : string) (reads : list string) (* name = expression *)
| Def (name : string) (reads : list string).   (* @decorator  def name(...): ... *)

Definition namespace : Type := gset string.

(** The first name of [reads] that is not bound. *)
Fixpoint unbound (ns : namespace) (reads : list string) : option string :=
  match reads with
  | [] => None
  | n :: reads' => if decide (n ∈ ns) then unbound ns reads' else Some n
  end.

Definition bind (name : string) (ns : namespace) : namespace := {[ name ]} ∪ ns.

Section Exec.

(** Whether the target of an import statement can be imported. *)
Variable importable : string -> bool.

Fixpoint exec (s : stmt) (ns : namespace) : option raised * namespace :=
  let block :=
    fix block (ss : list stmt) (ns : namespace) : option raised * namespace :=
      match ss with
      | [] => (None, ns)
      | s :: ss' =>
          match exec s ns with
          | (None, ns') => block ss' ns'
          | (Some e, ns') => (Some e, ns')
          end
      end in
  match s with
  | FromFutureImport feature => (None, bind feature ns)
  | RaiseException msg => (Some (Exception msg), ns)
  | Import target binds =>
      if importable target then (None, bind binds ns) else (Some (ImportError target), ns)
  | TryExcept body handler =>
      match block body ns with
      | (None, ns') => (None, ns')
      | (Some _, ns') => block handler ns'
      end
  | Expr reads =>
      match unbound ns reads with
      | None => (None, ns)
      | Some n => (Some (NameError n), ns)
      end
  | Assign name reads | Def name reads =>
      match unbound ns reads with
      | None => (None, bind name ns)
      | Some n => (Some (NameError n), ns)
      end
  end.

(** A sequence of statements stops at the first that raises. *)
Fixpoint exec_block (ss : list stmt) (ns : namespace) : option raised * namespace :=
  match ss with
  | [] => (None, ns)
  | s :: ss' =>
      match exec s ns with
      | (None, ns') => exec_block ss' ns'
      | (Some e, ns') => (Some e, ns')
      end
  end.

End Exec.

(** Lines 10-14 of tunnelbarrier.py. *)
Definition lines_10_14 : list stmt :=
  [ FromFutureImport "division";
    FromFutureImport "print_function";
    FromFutureImport "unicode_literals";
    RaiseException "no not use this module any more!" ].

(** Lines 16-257. *)
Definition lines_16_257 : list stmt :=
  [ Import "numpy" "np";
    Import "math" "math";
    Import "scipy.signal" "scipy";
    Import "scipy.ndimage" "scipy";
    Import "scipy.optimize" "scipy";
    Import "scipy.constants" "scipy";
    Import "scipy.optimize" "scipy";
    Import "warnings" "warnings";
    Import "copy" "copy";
    Import "qtt" "qtt";
    Import "qtt.utilities.tools" "qtt";
    TryExcept [ Import "matplotlib.pyplot" "plt"; Import "matplotlib" "matplotlib" ]
              [ Expr ["warnings"]; Assign "plt" []; Assign "matplotlib" [] ];
    TryExcept [ Import "cv2" "cv2" ] [ Expr ["warnings"] ];
    Expr ["warnings"];
    Import "qtt.pgeometry" "pmatlab";
    Def "extent2fullextent" ["qtt"];
    Assign "ueV2Hz" ["scipy"];
    Def "barrierModel" ["qtt"];
    Def "plotBarrierFit" ["qtt"];
    Import "scipy.optimize" "scipy";
    Import "qtt.pgeometry.robustCost" "robustCost";
    Def "barrierScore" ["qtt"];
    Def "preprocessPAT" ["qtt"];
    Def "detectVshape" ["qtt"];
    Def "fitBarrierModel" ["qtt"] ].

Definition tunnelbarrier : list stmt := lines_10_14 ++ lines_16_257.

(** The names the module would define. *)
Definition defined_names : list string :=
  [ "extent2fullextent"; "ueV2Hz"; "barrierModel"; "plotBarrierFit"; "barrierScore";
    "preprocessPAT"; "detectVshape"; "fitBarrierModel" ].

End module_body.

(** ** docs/conf.py: [get_version], lines 102-111 *)
Module conf.

Import Stdlib.Strings.Ascii.

Definition newline : Ascii.ascii := "010"%char.
Definition space : Ascii.ascii := " "%char.
Definition quote : Ascii.ascii := "'"%char.

(** *** The fragment of [re] the pattern uses

    [.] is any character but a newline, [r*] is greedy and backtracks,
    [(r)] records the text it matched.  A match is searched in
    continuation-passing style: [rmatch r s gs k] matches [r] at the
    head of [s] and hands the rest of the text and the groups recorded
    so far to [k], trying the alternatives in the order of [re] until
    [k] accepts. *)
Inductive regex : Type :=
| Any
| Chr (c : Ascii.ascii)
| Star (r : regex)
| Cat (r1 r2 : regex)
| Group (r : regex).

Section Match.

Context {T : Type}.

Definition cont : Type := string -> list string -> option T.

(** [r*] with [m] matching [r]: as many repetitions as possible first;
    a repetition that consumes nothing ends the loop. *)
Fixpoint star (m : string -> list string -> cont -> option T) (k : cont) (fuel : nat)
    (s : string) (gs : list string) : option T :=
  match fuel with
  | O => k s gs
  | S fuel' =>
      match m s gs (fun s' gs' =>
                      if (String.length s' <? String.length s)%nat
                      then star m k fuel' s' gs'
                      else None) with
      | Some x => Some x
      | None => k s gs
      end
  end.

Fixpoint rmatch (r : regex) (s : string) (gs : list string) (k : cont) : option T :=
  match r with
  | Any =>
      match s with
      | String c s' => if Ascii.eqb c newline then None else k s' gs
      | EmptyString => None
      end
  | Chr c =>
      match s with
      | String c' s' => if Ascii.eqb c' c then k s' gs else None
      | EmptyString => None
      end
  | Star r' => star (rmatch r') k (String.length s) s gs
  | Cat r1 r2 => rmatch r1 s gs (fun s' gs' => rmatch r2 s' gs' k)
  | Group r' =>
      rmatch r' s gs
        (fun s' gs' =>
           k s' (gs' ++ [String.substring 0 (String.length s - String.length s') s]))
  end.

End Match.

(** [re.search(pattern, s)]: the first position of [s] at which the
    pattern matches; the value is the list of the groups of the match. *)
Fixpoint search (r : regex) (s : string) : option (list string) :=
  match rmatch r s [] (fun _ gs => Some gs) with
  | Some gs => Some gs
  | None =>
      match s with
      | String _ s' => search r s'
      | EmptyString => None
      end
  end.

(** [f.readline()] on the text of a file: up to and including the first
    newline. *)
Fixpoint readline (s : string) : string :=
  match s with
  | String c s' => if Ascii.eqb c newline then String c EmptyString else String c (readline s')
  | EmptyString => EmptyString
  end.

(** [s.lstrip(c)], [s.rstrip(c)] and [s.strip(c)] for one character. *)
Fixpoint lstrip (c : Ascii.ascii) (s : string) : string :=
  match s with
  | String c' s' => if Ascii.eqb c' c then lstrip c s' else s
  | EmptyString => EmptyString
  end.

Fixpoint rstrip (c : Ascii.ascii) (s : string) : string :=
  match s with
  | String c' s' =>
      match rstrip c s' with
      | EmptyString => if Ascii.eqb c' c then EmptyString else String c' EmptyString
      | t => String c' t
      end
  | EmptyString => EmptyString
  end.

Definition strip (c : Ascii.ascii) (s : string) : string := rstrip c (lstrip c s).

(** What [get_version] raises. *)
Inductive error : Type :=
| FileNotFoundError     (* open(filename, 'r') *)
| AttributeError.       (* m.group on None *)

(** The pattern of line 107.  The argument of [re.search] is three
    adjacent string literals, which Python concatenates: any text, a
    space, and a group holding any text. *)
Definition pattern : regex := Cat (Star Any) (Cat (Chr space) (Group (Star Any))).

(** [get_version(verbose, filename)], lines 102-111, on a file system
    that maps a path to the text of the file.  The value is the outcome
    with the lines printed. *)
Definition get_version (fs : gmap string string) (verbose : Z) (filename : string)
  : (error + string) * list string :=
  match fs !! filename with
  | None => (inl FileNotFoundError, [])
  | Some text =>
      let ln := readline text in
      match search pattern ln with
      | None => (inl AttributeError, [])
      | Some gs =>
          match gs !! 0%nat with
          | None => (inl AttributeError, [])
          | Some g =>
              let version := strip quote g in
              (inr version,
               if (verbose =? 0)%Z then [] else [String.append "get_version: " version])
          end
      end
  end.

(** Whether a character occurs in a text. *)
Fixpoint occurs (c : Ascii.ascii) (s : string) : bool :=
  match s with
  | String c' s' => Ascii.eqb c' c || occurs c s'
  | EmptyString => false
  end.

End conf.
Section Pipeline.

(** *** What the module imports *)

(** [qtt.pgeometry.robustCost(x, thr, method)] *)
Variable robustCost : np.ndarray -> R -> string -> np.ndarray.

(** [popt, pcov = scipy.optimize.curve_fit(f, xdata, ydata, p0)]: the
    model is called as [f(xdata, *params)]; the routine raises when the
    least-squares iteration fails. *)
Variable curve_fit :
  (np.ndarray -> list npfloat -> result np.ndarray) ->
  np.ndarray -> np.ndarray -> np.ndarray -> result np.ndarray.

(** [scipy.optimize.brute(func, ranges=[(lo, hi)], Ns=.., disp=..)] with
    one range. *)
Variable brute :
  (npfloat -> result npfloat) -> npfloat * npfloat -> nat -> bool -> result npfloat.

(** [scipy.optimize.minimize(fun, x0, method=.., options={'disp': ..})] *)
Variable minimize :
  (np.ndarray -> result npfloat) -> np.ndarray -> string -> bool -> result OptimizeResult.

(** *** [barrierScore], lines 130-142, on values

    Line 138 evaluates [sc / scalefac] on arrays and then
    [thr / scalefac] on Python floats.  For [thr = 0] the first gives
    inf/nan with a warning and the second raises [ZeroDivisionError], so
    the array quotient is only ever used for a non-zero divisor: the
    embedding tests the divisor first. *)
Definition barrierScore (xd yd pp : np.ndarray) (weights : option np.ndarray) (thr : R)
  : result npfloat :=
  (let ppq := pp in                                      (* ppq = pp.copy() *)
   let! ydatax := barrierModel xd (Sequence ppq) in
   let! d := np.subtract ydatax yd in
   let sc := np.abs d in
   let scalefac := thr in
   let! thr1 := py_truediv thr scalefac in
   let sc := np.scale (np.sqrt (robustCost (np.over sc scalefac) thr1 "BZ0")) scalefac in
   let! sc := match weights with
              | Some w => np.multiply sc w
              | None => Ok sc
              end in
   Ok (np.div_size (np.linalg_norm4 sc) (length sc)))%res.

(** *** [barrierScore] on stored objects: the copy of line 132 is made in
    the store, the arithmetic is [barrierScore] on the contents. *)
Definition barrierScore_obj (xd yd pp : loc) (weights : pyval) (thr : R) : M npfloat :=
  (do! ppq := copy pp in
   do! x := read_array xd in
   do! p := read_array ppq in
   do! y := read_array yd in
   do! w := read_optional weights in
   lift (barrierScore x y p w thr))%M.

(** *** Calls into scipy *)

Definition call_curve_fit (xdata ydata p0 : np.ndarray) : M np.ndarray :=
  (emit (Called (CallCurveFit xdata ydata p0)) ;;;
   lift (curve_fit (fun x ps => barrierModel x (Positional ps)) xdata ydata p0))%M.

(** [disp] makes the routine print its convergence report before it
    returns. *)
Definition call_brute (ff : npfloat -> M npfloat) (lo hi : npfloat) (Ns : nat) (disp : bool)
  : M npfloat :=
  (emit (Called (CallBrute lo hi Ns disp)) ;;;
   do! r := (fun w => (brute (apply_in w ff) (lo, hi) Ns disp, w)) in
   (if disp then emit (Displayed (CallBrute lo hi Ns disp)) else mret tt) ;;;
   mret r)%M.

Definition call_minimize (ff : loc -> M npfloat) (x0 : loc) (method : string) (disp : bool)
  : M OptimizeResult :=
  (do! v0 := read_array x0 in
   emit (Called (CallMinimize v0 method disp)) ;;;
   do! r := (fun w =>
               (minimize (apply_in w (fun v => do! x := alloc (OArray v) in ff x)) v0 method disp,
                w)) in
   (if disp then emit (Displayed (CallMinimize v0 method disp)) else mret tt) ;;;
   mret r)%M.

(** *** [fitBarrierModel], lines 201-257 *)

(** [lambda x: barrierScore(xd, yd, [pp[0], pp[1], x], weights=weights)] *)
Definition ff_tunnel (xd yd : loc) (weights : pyval) (pp : loc) (x : npfloat) : M npfloat :=
  (do! p := read_array pp in
   do! p0 := lift (getitem p 0) in
   do! p1 := lift (getitem p 1) in
   do! l := alloc (OArray [p0; p1; x]) in
   barrierScore_obj xd yd l weights thr_default)%M.

(** [lambda x: barrierScore(xd, yd, [x, pp[1], ppx[2]], weights=weights)] *)
Definition ff_offset (xd yd : loc) (weights : pyval) (pp ppx : loc) (x : npfloat) : M npfloat :=
  (do! p := read_array pp in
   do! p1 := lift (getitem p 1) in
   do! q := read_array ppx in
   do! q2 := lift (getitem q 2) in
   do! l := alloc (OArray [x; p1; q2]) in
   barrierScore_obj xd yd l weights thr_default)%M.

(** [lambda x: barrierScore(xd, yd, x, weights=weights)] *)
Definition ff_full (xd yd : loc) (weights : pyval) (x : loc) : M npfloat :=
  barrierScore_obj xd yd x weights thr_default.

(** [if verbose >= 2: print(...)], lines 217-218 and 227-228 *)
Definition stage_report (verbose : Z) (ppx : loc) (sc0 sc : npfloat) : M unit :=
  if (2 <=? verbose)%Z
  then (do! v := read_array ppx in emit (Printed (StageReport v sc0 sc)))%M
  else mret tt.

Definition fitBarrierModel (pp0 xd yd : loc) (weights : pyval) (verbose : Z)
    (curvefit : bool) (dd : pyval) : M loc :=
  (do! pp := (if curvefit
              then (do! x := read_array xd in           (* xd.flatten() *)
                    do! y := read_array yd in           (* yd.flatten() *)
                    do! p0 := read_array pp0 in
                    do! popt := call_curve_fit x y p0 in
                    alloc (OArray popt))
              else copy pp0) in
   do! ppx := copy pp in
   (* lines 211-218 *)
   do! r := call_brute (ff_tunnel xd yd weights pp) (Fin 0) (Fin 100) 20 false in
   setitem ppx 2 r ;;;
   do! sc0 := barrierScore_obj xd yd pp weights thr_default in
   do! sc := barrierScore_obj xd yd ppx weights thr_default in
   stage_report verbose ppx sc0 sc ;;;
   (* lines 221-228 *)
   do! p := read_array pp in
   do! p0 := lift (getitem p 0) in
   do! r := call_brute (ff_offset xd yd weights pp ppx) (p0 - Fin 2)%nf (p0 + Fin 2)%nf 20 false in
   setitem ppx 0 r ;;;
   do! sc0 := barrierScore_obj xd yd pp weights thr_default in
   do! sc := barrierScore_obj xd yd ppx weights thr_default in
   stage_report verbose ppx sc0 sc ;;;
   (* lines 239-247 *)
   do! r := call_minimize (ff_full xd yd weights) ppx "Powell" true in
   do! ppx := alloc (OArray (res_x r)) in
   do! r := call_minimize (ff_full xd yd weights) ppx "Powell" true in
   do! ppx := alloc (OArray (res_x r)) in
   (* lines 249-252 *)
   do! sc0 := barrierScore_obj xd yd pp weights thr_default in
   do! sc := barrierScore_obj xd yd ppx weights thr_default in
   (if (verbose =? 0)%Z then mret tt else emit (Printed (FinalReport sc0 sc))) ;;;
   (* lines 254-257 *)
   match dd with
   | VNone => mret tt
   | VRef d => setitem_dict d "pp" (VRef pp) ;;; setitem_dict d "weights" weights
   end ;;;
   mret ppx)%M.


(** *** Vocabulary of the results on the scorer *)

(** The weights of the claim: the supplied ones, or all ones. *)
Definition weights_or_ones (n : nat) (weights : option np.ndarray) : np.ndarray :=
  match weights with
  | Some w => w
  | None => replicate n (Fin 1)
  end.

(** The scaled residuals handed to the robust transform. *)
Definition scaled_residuals (model yd : np.ndarray) (thr : R) : np.ndarray :=
  zip_with (fun m y => nf_over thr (nf_abs (m - y))) model yd.

(** The vector [s] whose L4 norm the scorer returns. *)
Definition score_terms (model yd : np.ndarray) (weights : option np.ndarray) (thr : R)
  : np.ndarray :=
  zip_with (fun wi ri => (wi * nf_scale thr (nf_sqrt ri))%nf)
    (weights_or_ones (length model) weights)
    (robustCost (scaled_residuals model yd thr) 1 "BZ0").

(** Supplied weights have the length of the data. *)
Definition weights_fit (n : nat) (weights : option np.ndarray) : Prop :=
  match weights with
  | Some w => length w = n
  | None => True
  end.

(** [c * weights] for a Python float [c]. *)
Definition times (c : R) (a : np.ndarray) : np.ndarray := map (nf_lift1 (Rmult c)) a.

(** The optional weights of a caller who holds real numbers. *)
Definition weights_of_reals (weights : option (list R)) : option np.ndarray :=
  match weights with
  | Some w => Some (np.of_reals w)
  | None => None
  end.

(** The value-level objective the three lambdas compute. *)
Definition objective (vx vy : np.ndarray) (vw : option np.ndarray) (v : np.ndarray)
  : result npfloat :=
  barrierScore vx vy v vw thr_default.

(** *** Vocabulary of the results on the driver *)

(** Every event a computation adds to the trace satisfies [P]. *)
Definition emits_only {A : Type} (P : event -> Prop) (m : M A) : Prop :=
  forall w, exists es, trace (snd (m w)) = trace w ++ es /\ Forall P es.

(** A computation that adds no event. *)
Definition silent {A : Type} (m : M A) : Prop :=
  forall w, trace (snd (m w)) = trace w.

(** [frame n keep Q m]: run from a store with at least [n] objects, [m]
    removes none, leaves the objects below [n] that [keep] selects as
    they are, and returns values satisfying [Q]. *)
Definition frame {A : Type} (n : nat) (keep : loc -> Prop) (Q : A -> Prop) (m : M A) : Prop :=
  forall w, (n <= length (heap w))%nat ->
    (length (heap w) <= length (heap (snd (m w))))%nat
    /\ (forall l, (l < n)%nat -> keep l -> heap (snd (m w)) !! l = heap w !! l)
    /\ (forall a, fst (m w) = Ok a -> Q a).

Definition anything {A : Type} : A -> Prop := fun _ => True.
Definition fresh_from (n : nat) : loc -> Prop := fun l => (n <= l)%nat.

(** The events of a run of [fitBarrierModel] at verbosity [verbose]:
    stage reports only from level 2, the final report only at a level
    other than 0; both grid searches with [Ns=20] and [disp=False]; both
    minimizations by Powell's method with [disp=True], whose report the
    routine prints whatever [verbose] is. *)
Definition allowed_event (verbose : Z) (e : event) : Prop :=
  match e with
  | Printed (StageReport _ _ _) => (2 <= verbose)%Z
  | Printed (FinalReport _ _) => verbose <> 0%Z
  | Called (CallCurveFit _ _ _) => True
  | Called (CallBrute _ _ Ns disp) => Ns = 20%nat /\ disp = false
  | Called (CallMinimize _ method disp) => method = "Powell" /\ disp = true
  | Displayed (CallMinimize _ method disp) => method = "Powell" /\ disp = true
  | Displayed _ => False
  end.

(** The [print] statements of the module. *)
Definition is_print (e : event) : Prop :=
  match e with
  | Printed _ => True
  | _ => False
  end.

(** The grid searches of a trace: range, number of samples, [disp]. *)
Fixpoint brute_calls (tr : list event) : list (npfloat * npfloat * nat * bool) :=
  match tr with
  | [] => []
  | Called (CallBrute lo hi Ns disp) :: tr' => (lo, hi, Ns, disp) :: brute_calls tr'
  | _ :: tr' => brute_calls tr'
  end.

(** The optional weights among the caller's objects. *)
Definition weights_at (h : list pyobj) (weights : pyval) (vw : option np.ndarray) : Prop :=
  match weights with
  | VNone => vw = None
  | VRef lw => exists a, h !! lw = Some (OArray a) /\ vw = Some a
  end.

(** The optional dictionary [dd] among the caller's objects. *)
Definition dict_at (h : list pyobj) (dd : pyval) : Prop :=
  match dd with
  | VNone => True
  | VRef d => exists m, h !! d = Some (ODict m)
  end.

(** The caller's objects after lines 254-256. *)
Definition dd_written (h : list pyobj) (dd : pyval) (pp : loc) (weights : pyval) : list pyobj :=
  match dd with
  | VNone => h
  | VRef d =>
      match h !! d with
      | Some (ODict m) =>
          <[d := ODict (<["weights" := weights]> (<["pp" := VRef pp]> m))]> h
      | _ => h
      end
  end.

(** *** The stages as the spec lists them, on values

    "Fixed multi-stage strategy (must be reproduced in order, each stage
    operating on the best vector so far)". *)

(** Stage (a): "(Optional) unconstrained least-squares curve-fit of Model
    against data seeded with the initial guess". *)
Definition stage_a (curvefit : bool) (vx vy vp0 : np.ndarray) : result np.ndarray :=
  if curvefit
  then curve_fit (fun x ps => barrierModel x (Positional ps)) vx vy vp0
  else Ok vp0.

(** Stage (b): grid search over [tunnel_coupling] alone, on [0, 100] with
    20 samples; [x_offset] and [lever_arm] are those of the vector [v]. *)
Definition stage_b (vx vy : np.ndarray) (vw : option np.ndarray) (v : np.ndarray)
  : result np.ndarray :=
  (let! x0 := getitem v 0 in
   let! la := getitem v 1 in
   let! t := brute (fun t => objective vx vy vw [x0; la; t]) (Fin 0, Fin 100) 20 false in
   Ok (<[2%nat := t]> v))%res.

(** Stage (c): grid search over [x_offset] alone, two units either side of
    the [x_offset] of [v], 20 samples; [lever_arm] and [tunnel_coupling]
    are those of [v]. *)
Definition stage_c (vx vy : np.ndarray) (vw : option np.ndarray) (v : np.ndarray)
  : result np.ndarray :=
  (let! x0 := getitem v 0 in
   let! la := getitem v 1 in
   let! t := getitem v 2 in
   let! x := brute (fun x => objective vx vy vw [x; la; t])
               ((x0 - Fin 2)%nf, (x0 + Fin 2)%nf) 20 false in
   Ok (<[0%nat := x]> v))%res.

(** Stage (d): two Powell minimizations over the whole vector, the second
    from the result of the first. *)
Definition stage_d (vx vy : np.ndarray) (vw : option np.ndarray) (v : np.ndarray)
  : result np.ndarray :=
  (let! r1 := minimize (objective vx vy vw) v "Powell" true in
   let! r2 := minimize (objective vx vy vw) (res_x r1) "Powell" true in
   Ok (res_x r2))%res.

(** The four stages in sequence, each on the vector of the previous. *)
Definition fit_stages (curvefit : bool) (vx vy : np.ndarray) (vw : option np.ndarray)
    (vp0 : np.ndarray) : result np.ndarray :=
  (let! va := stage_a curvefit vx vy vp0 in
   let! vb := stage_b vx vy vw va in
   let! vc := stage_c vx vy vw vb in
   stage_d vx vy vw vc)%res.

(** *** The events of a run in which scipy returns *)

(** The call of [curve_fit], when stage (a) makes one. *)
Definition stage_a_events (curvefit : bool) (vx vy vp0 : np.ndarray) : list event :=
  if curvefit then [Called (CallCurveFit vx vy vp0)] else [].

(** The stage report, from verbosity 2. *)
Definition stage_events (verbose : Z) (v : np.ndarray) (sc0 sc : npfloat) : list event :=
  if (2 <=? verbose)%Z then [Printed (StageReport v sc0 sc)] else [].

(** The final report, unless the verbosity is 0. *)
Definition final_events (verbose : Z) (sc0 sc : npfloat) : list event :=
  if (verbose =? 0)%Z then [] else [Printed (FinalReport sc0 sc)].

(** The events of a run in which every stage returns. *)
Definition run_events (verbose : Z) (curvefit : bool) (vx vy vp0 : np.ndarray)
    (px pl pt : npfloat) (rest : list npfloat) (rb rc : npfloat) (r1 : OptimizeResult)
    (s0 sb sc sf : npfloat) : list event :=
  stage_a_events curvefit vx vy vp0
  ++ [Called (CallBrute (Fin 0) (Fin 100) 20 false)]
  ++ stage_events verbose (px :: pl :: rb :: rest) s0 sb
  ++ [Called (CallBrute (px - Fin 2)%nf (px + Fin 2)%nf 20 false)]
  ++ stage_events verbose (rc :: pl :: rb :: rest) s0 sc
  ++ [Called (CallMinimize (rc :: pl :: rb :: rest) "Powell" true);
      Displayed (CallMinimize (rc :: pl :: rb :: rest) "Powell" true);
      Called (CallMinimize (res_x r1) "Powell" true);
      Displayed (CallMinimize (res_x r1) "Powell" true)]
  ++ final_events verbose s0 sf.

(** A call in which every routine of scipy returns, with what each
    returns: [px :: pl :: pt :: rest] from stage (a), [rb] and [rc] from
    the grid searches, [r1] and [r2] from the minimizer. *)
Definition returning_run (h : list pyobj) (pp0 xd yd : loc) (weights dd : pyval)
    (curvefit : bool) (vp0 vx vy : np.ndarray) (vw : option np.ndarray)
    (px pl pt : npfloat) (rest : list npfloat) (rb rc : npfloat)
    (r1 r2 : OptimizeResult) : Prop :=
  h !! pp0 = Some (OArray vp0)
  /\ h !! xd = Some (OArray vx)
  /\ h !! yd = Some (OArray vy)
  /\ weights_at h weights vw
  /\ dict_at h dd
  /\ length vx = length vy
  /\ weights_fit (length vx) vw
  /\ stage_a curvefit vx vy vp0 = Ok (px :: pl :: pt :: rest)
  /\ brute (fun x => objective vx vy vw [px; pl; x]) (Fin 0, Fin 100) 20 false = Ok rb
  /\ brute (fun x => objective vx vy vw [x; pl; rb])
       ((px - Fin 2)%nf, (px + Fin 2)%nf) 20 false = Ok rc
  /\ minimize (objective vx vy vw) (rc :: pl :: rb :: rest) "Powell" true = Ok r1
  /\ (3 <= length (res_x r1))%nat
  /\ minimize (objective vx vy vw) (res_x r1) "Powell" true = Ok r2
  /\ (3 <= length (res_x r2))%nat.

(** *** Magnitudes

    The embedding computes on real numbers, where binary64 overflows
    beyond about 1.8e308.  What is said of the sign of a result, or of a
    call returning, is said for inputs of moderate magnitude, at which
    no intermediate result of lines 95 and 135-141 can reach that
    range: with coordinates, responses, parameters and weights of at
    most 1e25, a threshold between 1e-25 and 1e25 in magnitude, at most
    1e6 samples and a robust transform of at most 1e25, line 95 stays
    below 5e58, [sc / scalefac] below 5e83, the weighted terms below
    4e62, their fourth powers below 2e250 and the sum below 2e256. *)
Definition moderate_bound : R := 1e25.

Definition moderate (v : R) : Prop := Rabs v <= moderate_bound.

Definition nf_moderate (a : npfloat) : Prop :=
  match a with
  | Fin r => moderate r
  | NaN => False
  end.

(** The inputs of [barrierScore] at moderate magnitudes. *)
Definition moderate_inputs (xd yd : list R) (x0 leverarm t : R) (weights : option (list R))
    (thr : R) : Prop :=
  Forall moderate xd
  /\ Forall moderate yd
  /\ moderate x0 /\ moderate leverarm /\ moderate t
  /\ match weights with
     | Some w => Forall moderate w
     | None => True
     end
  /\ / moderate_bound <= Rabs thr <= moderate_bound
  /\ INR (length xd) <= 1e6.

(** A tunnel coupling whose square is in the range of binary64:
    [t**2] on a Python float raises [OverflowError] beyond it. *)
Definition square_fits (t : npfloat) : Prop :=
  match t with
  | Fin r => Rabs r <= 1e150
  | NaN => True
  end.

(** The same of the third element of a parameter vector, where there is
    one: [barrierScore] hands the vector to [barrierModel] (line 133). *)
Definition coupling_fits (pp : list npfloat) : Prop :=
  match pp !! 2%nat with
  | Some t => square_fits t
  | None => True
  end.

(** *** Vocabulary of the further results on the driver *)

Definition is_printed (e : event) : bool :=
  match e with
  | Printed _ => true
  | _ => false
  end.

(** The trace without the [print] statements of the module: the calls
    into scipy and what scipy displays. *)
Definition unprinted (w : world) : list event :=
  List.filter (fun e => negb (is_printed e)) (trace w).

(** Two worlds with the same store that differ at most in what the
    module printed. *)
Definition same_but_prints (w1 w2 : world) : Prop :=
  heap w1 = heap w2 /\ unprinted w1 = unprinted w2.

(** The object at [l] is an array. *)
Definition array_at (l : loc) (h : list pyobj) : Prop :=
  exists a, h !! l = Some (OArray a).

(** A property of the store that allocations and writes to arrays keep. *)
Definition stable (P : list pyobj -> Prop) : Prop :=
  (forall h o, P h -> P (h ++ [o]))
  /\ (forall h l a, P h -> P (<[l := OArray a]> h)).

(** [sim P Q m1 m2]: from worlds that differ in prints only, with a
    store satisfying [P], the two computations have the same outcome
    and end in worlds that differ in prints only; after a return the
    store satisfies [Q]. *)
Definition sim {A : Type} (P Q : list pyobj -> Prop) (m1 m2 : M A) : Prop :=
  forall w1 w2, same_but_prints w1 w2 -> P (heap w1) ->
    fst (m1 w1) = fst (m2 w2)
    /\ same_but_prints (snd (m1 w1)) (snd (m2 w2))
    /\ (forall a, fst (m1 w1) = Ok a -> Q (heap (snd (m1 w1)))).

Definition any_store : list pyobj -> Prop := fun _ => True.
(** * Results

    ** The model *)

Lemma nf_sqrt_Fin (x : R) : 0 <= x -> nf_sqrt (Fin x) = Fin (sqrt x).
Proof.
  intros Hx. unfold nf_sqrt. destruct (Rlt_dec x 0) as [Hneg | _]; [lra | reflexivity].
Qed.

Lemma radicand_nonneg (a t : R) : 0 <= a ^ 2 + 4 * t ^ 2.
Proof.
  pose proof (pow2_ge_0 a). pose proof (pow2_ge_0 t). lra.
Qed.

(** The array expression of line 95 on finite data. *)
Lemma barrierModel_line95 (x : list R) (x0 leverarm t : R) :
  line95 (np.of_reals x) (Fin x0) (Fin leverarm) (Fin t)
  = map (fun xi => Fin (sqrt (((xi - x0) * leverarm) ^ 2 + 4 * t ^ 2) * ueV2Hz)) x.
Proof.
  unfold line95, np.scale, np.sqrt, np.add_scalar, np.power, np.mul_scalar, np.sub_scalar, np.of_reals.
  rewrite !map_map. apply map_ext. intros xi.
  cbn [nf_sub nf_mul nf_add nf_pow nf_scale nf_lift1 nf_lift2].
  replace (t ^ 2 * 4) with (4 * t ^ 2) by ring.
  rewrite nf_sqrt_Fin by apply radicand_nonneg.
  reflexivity.
Qed.

(** C1. [barrierModel(x, x0, leverarm, t)], and [barrierModel(x, pp)] with
    the same three numbers packed, is elementwise
    [sqrt(((x - x0) * leverarm)^2 + 4*t^2) * ueV2Hz], where [ueV2Hz] is
    [e / h * 1e-6]; for [x = [1,2,3]] and [(0, 40, 400)] this is
    [sqrt((x*40)^2 + 4*400^2) * ueV2Hz]. *)
Theorem barrierModel_formula :
  (forall (x : list R) (x0 leverarm t : R),
      let y := map (fun xi => Fin (sqrt (((xi - x0) * leverarm) ^ 2 + 4 * t ^ 2) * ueV2Hz)) x in
      barrierModel (np.of_reals x) (Positional [Fin x0; Fin leverarm; Fin t]) = Ok y
      /\ barrierModel (np.of_reals x) (Sequence [Fin x0; Fin leverarm; Fin t]) = Ok y)
  /\ ueV2Hz = scipy_constants.e / scipy_constants.h * 1e-6
  /\ barrierModel (np.of_reals [1; 2; 3]) (Positional [Fin 0; Fin 40; Fin 400])
     = Ok (map (fun xi => Fin (sqrt ((xi * 40) ^ 2 + 4 * 400 ^ 2) * ueV2Hz)) [1; 2; 3]).
Proof.
  split; [| split].
  - intros x x0 l t y. subst y.
    split; cbn [barrierModel rbind getitem lookup list_lookup]; rewrite barrierModel_line95; reflexivity.
  - reflexivity.
  - cbn [barrierModel rbind getitem lookup list_lookup]. rewrite barrierModel_line95.
    apply f_equal. apply map_ext. intros xi. do 3 f_equal. ring.
Qed.

(** ** The scorer on values *)

Lemma rbind_Ok {A B : Type} (a : A) (k : A -> result B) : rbind (Ok a) k = k a.
Proof. reflexivity. Qed.

Lemma broadcast_same f (a b : np.ndarray) :
  length a = length b -> np.broadcast f a b = Ok (zip_with f a b).
Proof.
  intros Hlen. unfold np.broadcast. rewrite Hlen, Nat.eqb_refl. reflexivity.
Qed.

(** Three different lengths, none of them 1, do not broadcast. *)
Lemma broadcast_mismatch f (a b : np.ndarray) :
  length a <> length b -> length a <> 1%nat -> length b <> 1%nat ->
  np.broadcast f a b = Raise ValueError.
Proof.
  intros Hne Ha Hb. unfold np.broadcast.
  destruct (Nat.eqb_spec (length a) (length b)) as [Heq | _]; [contradiction |].
  destruct a as [| a0 [| a1 a]]; destruct b as [| b0 [| b1 b]];
    simpl in *; try reflexivity; congruence.
Qed.

Lemma zip_with_map_l {A B C D : Type} (f : B -> C -> D) (g : A -> B) (a : list A) (c : list C) :
  zip_with f (map g a) c = zip_with (fun x y => f (g x) y) a c.
Proof.
  revert c. induction a as [| x a IH]; intros [| y c]; simpl; try reflexivity.
  rewrite IH. reflexivity.
Qed.

Lemma map_zip_with {A B C D : Type} (g : C -> D) (f : A -> B -> C) (a : list A) (b : list B) :
  map g (zip_with f a b) = zip_with (fun x y => g (f x y)) a b.
Proof.
  revert b. induction a as [| x a IH]; intros [| y b]; simpl; try reflexivity.
  rewrite IH. reflexivity.
Qed.

Lemma zip_with_swap {A B C : Type} (f : A -> B -> C) (a : list A) (b : list B) :
  zip_with f a b = zip_with (fun y x => f x y) b a.
Proof.
  revert b. induction a as [| x a IH]; intros [| y b]; simpl; try reflexivity.
  rewrite IH. reflexivity.
Qed.

Lemma zip_with_replicate_l {A B C : Type} (f : A -> B -> C) (x : A) (b : list B) :
  zip_with f (replicate (length b) x) b = map (f x) b.
Proof.
  induction b as [| y b IH]; simpl; [reflexivity |]. rewrite IH. reflexivity.
Qed.

Lemma zip_with_length_same {A B C : Type} (f : A -> B -> C) (a : list A) (b : list B) :
  length a = length b -> length (zip_with f a b) = length a.
Proof.
  revert b. induction a as [| x a IH]; intros [| y b]; simpl; intros H; try congruence.
  f_equal. apply IH. congruence.
Qed.

Lemma nf_mul_comm (a b : npfloat) : nf_mul a b = nf_mul b a.
Proof.
  destruct a, b; simpl; try reflexivity. f_equal. apply Rmult_comm.
Qed.

Lemma nf_mul_1_l (a : npfloat) : nf_mul (Fin 1) a = a.
Proof.
  destruct a; simpl; [| reflexivity]. f_equal. apply Rmult_1_l.
Qed.

Lemma line95_length x a b c : length (line95 x a b c) = length x.
Proof.
  unfold line95, np.scale, np.sqrt, np.add_scalar, np.power, np.mul_scalar, np.sub_scalar.
  rewrite !length_map. reflexivity.
Qed.

Lemma barrierModel_packed (x : np.ndarray) (a b c : npfloat) (rest : list npfloat) :
  barrierModel x (Sequence (a :: b :: c :: rest)) = Ok (line95 x a b c).
Proof. reflexivity. Qed.

Lemma params3_inv (pp : list npfloat) :
  (3 <= length pp)%nat -> exists a b c rest, pp = a :: b :: c :: rest.
Proof.
  destruct pp as [| a [| b [| c rest]]]; simpl; intros H; try lia. eauto.
Qed.

Lemma barrierModel_returns (x pp : np.ndarray) :
  (3 <= length pp)%nat ->
  exists y, barrierModel x (Sequence pp) = Ok y /\ length y = length x.
Proof.
  intros H. destruct (params3_inv pp H) as (a & b & c & rest & ->).
  exists (line95 x a b c). split; [reflexivity | apply line95_length].
Qed.

Lemma py_truediv_self (thr : R) : thr <> 0 -> py_truediv thr thr = Ok 1.
Proof.
  intros H. unfold py_truediv. destruct (Req_dec_T thr 0) as [E | _]; [contradiction |].
  f_equal. field. exact H.
Qed.

Lemma py_truediv_zero (a : R) : py_truediv a 0 = Raise ZeroDivisionError.
Proof.
  unfold py_truediv. destruct (Req_dec_T 0 0) as [_ | N]; [reflexivity | contradiction].
Qed.

(** The scorer, unfolded on well-shaped arguments. *)
Lemma barrierScore_unfold
    (robustCost_shape : forall x thr m, length (robustCost x thr m) = length x)
    (xd yd pp : np.ndarray) (weights : option np.ndarray) (thr : R) :
  length xd = length yd ->
  (3 <= length pp)%nat ->
  weights_fit (length xd) weights ->
  thr <> 0 ->
  exists model,
    barrierModel xd (Sequence pp) = Ok model
    /\ length model = length xd
    /\ barrierScore xd yd pp weights thr
       = Ok (np.div_size (np.linalg_norm4 (score_terms model yd weights thr)) (length xd)).
Proof.
  intros Hxy Hpp Hw Hthr.
  destruct (barrierModel_returns xd pp) as (model & Hm & Hlen); [lia |].
  exists model. split; [exact Hm |]. split; [exact Hlen |].
  unfold barrierScore. rewrite Hm, rbind_Ok.
  unfold np.subtract. rewrite broadcast_same by congruence. rewrite rbind_Ok.
  rewrite py_truediv_self by exact Hthr. rewrite rbind_Ok.
  assert (Hres : np.over (np.abs (zip_with nf_sub model yd)) thr = scaled_residuals model yd thr).
  { unfold np.over, np.abs, scaled_residuals. rewrite map_map, map_zip_with. reflexivity. }
  rewrite Hres.
  set (r := robustCost (scaled_residuals model yd thr) 1 "BZ0").
  assert (Hr : length r = length xd).
  { unfold r. rewrite robustCost_shape. unfold scaled_residuals.
    rewrite zip_with_length_same by congruence. exact Hlen. }
  assert (Hs : forall w, length w = length xd ->
                 zip_with nf_mul (np.scale (np.sqrt r) thr) w
                 = zip_with (fun wi ri => (wi * nf_scale thr (nf_sqrt ri))%nf) w r).
  { intros w _. unfold np.scale, np.sqrt. rewrite map_map, zip_with_map_l.
    rewrite zip_with_swap. apply zip_with_ext; try reflexivity.
    intros wi ri. apply nf_mul_comm. }
  unfold score_terms. fold r.
  destruct weights as [w |]; simpl in Hw; simpl weights_or_ones.
  - unfold np.multiply. rewrite broadcast_same.
    2:{ unfold np.scale, np.sqrt. rewrite !length_map. congruence. }
    rewrite rbind_Ok, Hs by exact Hw.
    rewrite zip_with_length_same by congruence. rewrite Hw. reflexivity.
  - rewrite rbind_Ok.
    replace (length model) with (length r) by congruence.
    rewrite zip_with_replicate_l.
    assert (E : np.scale (np.sqrt r) thr = map (nf_mul (Fin 1)) (map (fun ri => nf_scale thr (nf_sqrt ri)) r)).
    { unfold np.scale, np.sqrt. rewrite !map_map. apply map_ext. intros ri.
      rewrite nf_mul_1_l. reflexivity. }
    rewrite E, map_map, !length_map, Hr. reflexivity.
Qed.

Lemma barrierScore_returns
    (robustCost_shape : forall x thr m, length (robustCost x thr m) = length x)
    (xd yd pp : np.ndarray) (weights : option np.ndarray) (thr : R) :
  length xd = length yd ->
  (3 <= length pp)%nat ->
  weights_fit (length xd) weights ->
  thr <> 0 ->
  exists v, barrierScore xd yd pp weights thr = Ok v.
Proof.
  intros Hxy Hpp Hw Hthr.
  destruct (barrierScore_unfold robustCost_shape xd yd pp weights thr Hxy Hpp Hw Hthr)
    as (model & _ & _ & E).
  eexists. exact E.
Qed.

(** C2, as the code has it.  For equal-length [xd], [yd], a three-element
    [pp], optional weights of the same length and a threshold other than
    zero, [barrierScore] is the L4
    norm of [s] over the number of samples, with
    [s_i = w_i * thr * sqrt(robustCost(|model_i - yd_i| / thr, 1, 'BZ0')_i)]
    and [w_i = 1] without weights.  [robustCost] is any transform that
    keeps the shape of its argument. *)
Theorem barrierScore_formula
    (robustCost_shape : forall x thr m, length (robustCost x thr m) = length x)
    (xd yd pp : np.ndarray) (weights : option np.ndarray) (thr : R) :
  length xd = length yd ->
  length pp = 3%nat ->
  weights_fit (length xd) weights ->
  thr <> 0 ->
  exists model,
    barrierModel xd (Sequence pp) = Ok model
    /\ length model = length xd
    /\ barrierScore xd yd pp weights thr
       = Ok (np.div_size (np.linalg_norm4 (score_terms model yd weights thr)) (length xd)).
Proof.
  intros Hxy Hpp Hw Hthr.
  apply (barrierScore_unfold robustCost_shape); [exact Hxy | lia | exact Hw | exact Hthr].
Qed.


(** *** The L4 norm *)

Lemma add_reduce_from (f : R -> R) (l : np.ndarray) (acc : npfloat) :
  (forall x y, f (x + y) = f x + f y) ->
  fold_left nf_add (map (nf_lift1 f) l) (nf_lift1 f acc)
  = nf_lift1 f (fold_left nf_add l acc).
Proof.
  intros Hadd. revert acc. induction l as [| a l IH]; intros acc; simpl; [reflexivity |].
  replace (nf_add (nf_lift1 f acc) (nf_lift1 f a)) with (nf_lift1 f (nf_add acc a)).
  - apply IH.
  - destruct acc, a; simpl; try reflexivity. f_equal. apply Hadd.
Qed.

Lemma root4_scale (c s : R) : np.root4 (c ^ 4 * s) = Rabs c * np.root4 s.
Proof.
  unfold np.root4.
  assert (H2 : 0 <= c ^ 2) by apply pow2_ge_0.
  replace (c ^ 4) with (c ^ 2 * c ^ 2) by ring.
  rewrite sqrt_mult_alt by nra.
  rewrite sqrt_square by exact H2.
  rewrite sqrt_mult_alt by exact H2.
  f_equal. replace (c ^ 2) with (Rsqr c) by (unfold Rsqr; ring).
  apply sqrt_Rsqr_abs.
Qed.

Lemma linalg_norm4_times (c : R) (s : np.ndarray) :
  np.linalg_norm4 (times c s) = nf_scale (Rabs c) (np.linalg_norm4 s).
Proof.
  unfold np.linalg_norm4, np.add_reduce, np.power, np.abs, times.
  rewrite !map_map.
  assert (E : map (fun x => nf_pow (nf_abs (nf_lift1 (Rmult c) x)) 4) s
              = map (nf_lift1 (Rmult (c ^ 4))) (map (fun x => nf_pow (nf_abs x) 4) s)).
  { rewrite map_map. apply map_ext. intros [x |]; simpl; [| reflexivity].
    f_equal. rewrite Rabs_mult.
    replace (Rabs c * Rabs x * (Rabs c * Rabs x * (Rabs c * Rabs x * (Rabs c * Rabs x * 1))))
      with ((Rabs c * Rabs c) * (Rabs c * Rabs c) * (Rabs x * (Rabs x * (Rabs x * (Rabs x * 1)))))
      by ring.
    replace (Rabs c * Rabs c) with (c * c); [ring |].
    rewrite <- Rabs_mult. symmetry. apply Rabs_pos_eq. nra. }
  rewrite E.
  replace (Fin 0) with (nf_lift1 (Rmult (c ^ 4)) (Fin 0)) at 1 by (simpl; f_equal; ring).
  rewrite add_reduce_from by (intros; ring).
  destruct (fold_left nf_add (map (fun x => nf_pow (nf_abs x) 4) s) (Fin 0)) as [t |];
    cbn [nf_lift1 nf_scale]; [| reflexivity].
  f_equal. rewrite root4_scale. ring.
Qed.

Lemma div_size_scale (c : R) (v : npfloat) (n : nat) :
  np.div_size (nf_scale c v) n = nf_scale c (np.div_size v n).
Proof.
  destruct n as [| n]; [reflexivity |]. destruct v as [x |]; [| reflexivity].
  unfold np.div_size, nf_over, nf_scale, nf_lift1. f_equal. unfold Rdiv. ring.
Qed.

Lemma multiply_times (c : R) (a w : np.ndarray) :
  np.multiply a (times c w) = rmap (times c) (np.multiply a w).
Proof.
  assert (E : forall x y, nf_mul x (nf_lift1 (Rmult c) y) = nf_lift1 (Rmult c) (nf_mul x y)).
  { intros [x |] [y |]; simpl; try reflexivity. f_equal. ring. }
  unfold np.multiply, np.broadcast, times. rewrite length_map.
  destruct (length a =? length w)%nat.
  - simpl. f_equal. rewrite map_zip_with, zip_with_swap, zip_with_map_l, zip_with_swap.
    apply zip_with_ext; try reflexivity. intros x y. apply E.
  - destruct a as [| a0 [| a1 a]]; destruct w as [| w0 [| w1 w]]; simpl; try reflexivity;
      rewrite ?E, ?map_map; try reflexivity;
      (erewrite map_ext; [reflexivity | intros; apply E]).
Qed.

Lemma barrierScore_weights_abs
    (c : R) (xd yd pp w : np.ndarray) (thr : R) :
  barrierScore xd yd pp (Some (times c w)) thr
  = rmap (nf_scale (Rabs c)) (barrierScore xd yd pp (Some w) thr).
Proof.
  unfold barrierScore.
  destruct (barrierModel xd (Sequence pp)) as [model | e]; [| reflexivity].
  cbn [rbind].
  destruct (np.subtract model yd) as [d | e]; [| reflexivity].
  cbn [rbind].
  destruct (py_truediv thr thr) as [thr1 | e]; [| reflexivity].
  cbn [rbind]. rewrite multiply_times.
  destruct (np.multiply _ w) as [s | e]; [| reflexivity].
  cbn [rbind rmap]. f_equal. rewrite linalg_norm4_times, div_size_scale.
  unfold times. rewrite length_map. reflexivity.
Qed.

(** C6, as the code has it: multiplying the weights by [c] multiplies the
    score by [|c|], which is [c] for a non-negative factor.  The equation
    is between outcomes: a call that raises does so with both weight
    arrays, and nan stays nan. *)
Theorem barrierScore_weights_scaled
    (c : R) (xd yd pp w : np.ndarray) (thr : R) :
  barrierScore xd yd pp (Some (times c w)) thr
  = rmap (nf_scale (Rabs c)) (barrierScore xd yd pp (Some w) thr)
  /\ (0 <= c ->
      barrierScore xd yd pp (Some (times c w)) thr
      = rmap (nf_scale c) (barrierScore xd yd pp (Some w) thr)).
Proof.
  split; [apply barrierScore_weights_abs |].
  intros Hc. rewrite barrierScore_weights_abs, Rabs_pos_eq by exact Hc. reflexivity.
Qed.


(** *** Sign and zero of the score *)

Lemma Forall_of_reals (l : list R) : Forall nf_finite (np.of_reals l).
Proof.
  unfold np.of_reals. induction l as [| x l IH]; simpl; constructor; [exists x; reflexivity | exact IH].
Qed.

Lemma Forall_zip_with_2 {A B C : Type} (P : A -> Prop) (Q : B -> Prop) (T : C -> Prop)
    (f : A -> B -> C) (a : list A) (b : list B) :
  (forall x y, P x -> Q y -> T (f x y)) ->
  Forall P a -> Forall Q b -> Forall T (zip_with f a b).
Proof.
  intros Hf Ha. revert b. induction Ha as [| x a Hx Ha IH]; intros b Hb; simpl.
  - constructor.
  - destruct Hb as [| y b Hy Hb]; constructor; [apply Hf; assumption | apply IH; exact Hb].
Qed.

Lemma Forall_replicate_eq {A : Type} (x : A) (n : nat) : Forall (eq x) (replicate n x).
Proof. induction n; simpl; constructor; [reflexivity | assumption]. Qed.

Lemma sum4_finite (s : np.ndarray) (acc : R) :
  Forall nf_finite s -> 0 <= acc ->
  exists t, fold_left nf_add (np.power (np.abs s) 4) (Fin acc) = Fin t /\ 0 <= t.
Proof.
  intros Hs. revert acc. induction Hs as [| a s [x ->] _ IH]; intros acc Hacc; simpl.
  - exists acc. split; [reflexivity | exact Hacc].
  - apply IH. pose proof (Rabs_pos x) as Hx.
    assert (0 <= Rabs x * Rabs x) by nra. nra.
Qed.

Lemma linalg_norm4_nonneg (s : np.ndarray) :
  Forall nf_finite s -> exists v, np.linalg_norm4 s = Fin v /\ 0 <= v.
Proof.
  intros Hs. destruct (sum4_finite s 0 Hs) as (t & Ht & Hpos); [lra |].
  unfold np.linalg_norm4, np.add_reduce. rewrite Ht.
  exists (np.root4 t). split; [reflexivity |]. unfold np.root4. apply sqrt_pos.
Qed.

Lemma sum4_zero (s : np.ndarray) :
  Forall (eq (Fin 0)) s -> fold_left nf_add (np.power (np.abs s) 4) (Fin 0) = Fin 0.
Proof.
  induction 1 as [| a s <- _ IH]; simpl; [reflexivity |].
  rewrite Rabs_R0. replace (0 + 0 * (0 * (0 * (0 * 1)))) with 0 by ring. exact IH.
Qed.

Lemma linalg_norm4_zero (s : np.ndarray) :
  Forall (eq (Fin 0)) s -> np.linalg_norm4 s = Fin 0.
Proof.
  intros Hs. unfold np.linalg_norm4, np.add_reduce. rewrite sum4_zero by exact Hs.
  simpl. unfold np.root4. rewrite !sqrt_0. reflexivity.
Qed.

Lemma div_size_nonneg (v : R) (n : nat) :
  0 <= v -> (0 < n)%nat -> exists q, np.div_size (Fin v) n = Fin q /\ 0 <= q.
Proof.
  intros Hv Hn. destruct n as [| n]; [lia |].
  exists (v / INR (S n)). split; [reflexivity |].
  apply Rmult_le_pos; [exact Hv |]. apply Rlt_le, Rinv_0_lt_compat, lt_0_INR. lia.
Qed.

Lemma div_size_zero (n : nat) : (0 < n)%nat -> np.div_size (Fin 0) n = Fin 0.
Proof.
  intros Hn. destruct n as [| n]; [lia |]. simpl. f_equal. unfold Rdiv. ring.
Qed.

Lemma model_of_reals (xd : list R) (x0 leverarm t : R) :
  barrierModel (np.of_reals xd) (Sequence (np.of_reals [x0; leverarm; t]))
  = Ok (np.of_reals
          (map (fun xi => sqrt (((xi - x0) * leverarm) ^ 2 + 4 * t ^ 2) * ueV2Hz) xd)).
Proof.
  simpl np.of_reals at 2. rewrite barrierModel_packed.
  rewrite barrierModel_line95. unfold np.of_reals. rewrite map_map. reflexivity.
Qed.

Lemma weights_or_ones_finite (n : nat) (weights : option (list R)) :
  Forall nf_finite (weights_or_ones n (weights_of_reals weights)).
Proof.
  destruct weights as [w |]; simpl.
  - apply Forall_of_reals.
  - induction n; simpl; constructor; [exists 1; reflexivity | assumption].
Qed.

Lemma moderate_threshold_nonzero (thr : R) :
  / moderate_bound <= Rabs thr <= moderate_bound -> thr <> 0.
Proof.
  intros [Hlo _] ->. rewrite Rabs_R0 in Hlo.
  assert (0 < / moderate_bound) by (apply Rinv_0_lt_compat; unfold moderate_bound; lra).
  lra.
Qed.

(** C5, as the code has it.  On data of equal, non-zero length and of
    moderate magnitude (see [moderate_inputs]: no intermediate result
    can then leave the range of binary64), with a three-element
    parameter vector, optional weights of that length and a threshold
    that is neither zero nor extreme, the score is a finite number that
    is not negative, whenever the robust transform keeps the shape of
    its argument and maps finite residuals to non-negative numbers of
    moderate magnitude; and it is exactly 0 when the model reproduces
    the observations and the transform vanishes on zero residuals,
    whatever the threshold in that range. *)
Theorem barrierScore_nonneg_zero
    (robustCost_shape : forall x thr m, length (robustCost x thr m) = length x)
    (robustCost_nonneg :
       forall x thr m, Forall nf_finite x -> Forall nf_nonneg (robustCost x thr m))
    (robustCost_moderate :
       forall x m, Forall nf_finite x -> Forall nf_moderate (robustCost x 1 m))
    (xd yd : list R) (x0 leverarm t : R) (weights : option (list R)) (thr : R) :
  length xd = length yd ->
  xd <> [] ->
  weights_fit (length xd) (weights_of_reals weights) ->
  moderate_inputs xd yd x0 leverarm t weights thr ->
  let score :=
    barrierScore (np.of_reals xd) (np.of_reals yd) (np.of_reals [x0; leverarm; t])
      (weights_of_reals weights) thr in
  (exists v, score = Ok (Fin v) /\ 0 <= v)
  /\ ((forall n, robustCost (replicate n (Fin 0)) 1 "BZ0" = replicate n (Fin 0)) ->
      barrierModel (np.of_reals xd) (Sequence (np.of_reals [x0; leverarm; t]))
      = Ok (np.of_reals yd) ->
      score = Ok (Fin 0)).
Proof.
  intros Hxy Hne Hw Hmod score.
  assert (Hthr : thr <> 0).
  { destruct Hmod as (_ & _ & _ & _ & _ & _ & Ht & _).
    exact (moderate_threshold_nonzero thr Ht). }
  assert (Hn : (0 < length xd)%nat) by (destruct xd; simpl; [congruence | lia]).
  assert (Hlx : length (np.of_reals xd) = length xd) by apply length_map.
  assert (Hly : length (np.of_reals yd) = length yd) by apply length_map.
  destruct (barrierScore_unfold robustCost_shape (np.of_reals xd) (np.of_reals yd)
              (np.of_reals [x0; leverarm; t]) (weights_of_reals weights) thr)
    as (model & Hm & Hlen & Hscore);
    [congruence | simpl; lia | rewrite Hlx; exact Hw | exact Hthr |].
  rewrite Hlx in Hscore, Hlen. fold score in Hscore.
  split.
  - assert (Hmf : Forall nf_finite model).
    { rewrite model_of_reals in Hm. injection Hm as <-. apply Forall_of_reals. }
    assert (Hfin : Forall nf_finite
                     (score_terms model (np.of_reals yd) (weights_of_reals weights) thr)).
    { unfold score_terms.
      apply Forall_zip_with_2 with (P := nf_finite) (Q := nf_nonneg).
      - intros [wi |] [ri |]; simpl; try contradiction; intros Hwi Hri.
        + destruct (Rlt_dec ri 0); [lra |]. eexists. reflexivity.
        + destruct Hwi as [? Hwi]. discriminate Hwi.
      - apply weights_or_ones_finite.
      - apply robustCost_nonneg. unfold scaled_residuals.
        apply Forall_zip_with_2 with (P := nf_finite) (Q := nf_finite);
          [| exact Hmf | apply Forall_of_reals].
        intros a b [x ->] [y ->]. eexists. reflexivity. }
    destruct (linalg_norm4_nonneg _ Hfin) as (v & Hv & Hpos).
    destruct (div_size_nonneg v (length xd) Hpos Hn) as (q & Hq & Hqpos).
    exists q. rewrite Hscore, Hv, Hq. split; [reflexivity | exact Hqpos].
  - intros Hzero Hexact. rewrite Hexact in Hm.
    assert (Hmodel : model = np.of_reals yd) by congruence.
    subst model. rewrite Hscore.
    assert (Hres : scaled_residuals (np.of_reals yd) (np.of_reals yd) thr
                   = replicate (length yd) (Fin 0)).
    { unfold scaled_residuals, np.of_reals. clear. induction yd as [| y l IH]; simpl; [reflexivity |].
      rewrite IH. f_equal. f_equal. unfold Rminus. rewrite Rplus_opp_r, Rabs_R0.
      unfold Rdiv. ring. }
    assert (Hterms : Forall (eq (Fin 0))
                       (score_terms (np.of_reals yd) (np.of_reals yd) (weights_of_reals weights) thr)).
    { unfold score_terms. rewrite Hres, Hzero.
      apply Forall_zip_with_2 with (P := nf_finite) (Q := eq (Fin 0)).
      - intros wi ri [x ->] <-. simpl.
        destruct (Rlt_dec 0 0); [lra |]. simpl. f_equal. rewrite sqrt_0. ring.
      - apply weights_or_ones_finite.
      - apply Forall_replicate_eq. }
    rewrite linalg_norm4_zero by exact Hterms.
    rewrite div_size_zero by exact Hn. reflexivity.
Qed.


(** ** The driver: what every run does *)

Lemma mbind_Ok {A B : Type} (m : M A) (k : A -> M B) (w w' : world) (a : A) :
  m w = (Ok a, w') -> mbind m k w = k a w'.
Proof. intros E. unfold mbind. rewrite E. reflexivity. Qed.

Lemma mbind_Raise {A B : Type} (m : M A) (k : A -> M B) (w w' : world) (e : exn) :
  m w = (Raise e, w') -> mbind m k w = (Raise e, w').
Proof. intros E. unfold mbind. rewrite E. reflexivity. Qed.

(** *** Events a computation can add to the trace *)

Lemma emits_only_silent {A : Type} (P : event -> Prop) (m : M A) :
  silent m -> emits_only P m.
Proof.
  intros Hs w. exists []. rewrite app_nil_r. split; [apply Hs | constructor].
Qed.

Lemma emits_only_bind {A B : Type} (P : event -> Prop) (m : M A) (k : A -> M B) :
  emits_only P m -> (forall a, emits_only P (k a)) -> emits_only P (mbind m k).
Proof.
  intros Hm Hk w. unfold mbind. destruct (Hm w) as (es & E & HP).
  destruct (m w) as [[a | e] w']; simpl in E.
  - destruct (Hk a w') as (es' & E' & HP'). exists (es ++ es').
    rewrite E', E, app_assoc. split; [reflexivity | apply Forall_app; split; assumption].
  - exists es. split; assumption.
Qed.

Lemma emits_only_emit (P : event -> Prop) (e : event) : P e -> emits_only P (emit e).
Proof.
  intros He w. exists [e]. split; [reflexivity | repeat constructor; exact He].
Qed.

Lemma silent_mret {A : Type} (a : A) : silent (mret a).
Proof. intros w. reflexivity. Qed.

Lemma silent_lift {A : Type} (r : result A) : silent (lift r).
Proof. intros w. reflexivity. Qed.

Lemma silent_alloc (o : pyobj) : silent (alloc o).
Proof. intros w. reflexivity. Qed.

Lemma silent_read_array (l : loc) : silent (read_array l).
Proof. intros w. unfold read_array. destruct (heap w !! l) as [[a | d] |]; reflexivity. Qed.

Lemma silent_setitem (l : loc) (i : nat) (v : npfloat) : silent (setitem l i v).
Proof.
  intros w. unfold setitem. destruct (heap w !! l) as [[a | d] |]; try reflexivity.
  destruct (i <? length a)%nat; reflexivity.
Qed.

Lemma silent_setitem_dict (l : loc) (k : string) (v : pyval) : silent (setitem_dict l k v).
Proof. intros w. unfold setitem_dict. destruct (heap w !! l) as [[a | d] |]; reflexivity. Qed.

Lemma silent_oracle {A : Type} (f : world -> result A) : silent (fun w => (f w, w)).
Proof. intros w. reflexivity. Qed.

(** *** What a computation leaves in place *)

Lemma frame_bind {A B : Type} n keep (Q : A -> Prop) (Q' : B -> Prop) (m : M A) (k : A -> M B) :
  frame n keep Q m -> (forall a, Q a -> frame n keep Q' (k a)) ->
  frame n keep Q' (mbind m k).
Proof.
  intros Hm Hk w Hn. destruct (Hm w Hn) as (Hlen & Hkeep & HQ).
  unfold mbind. destruct (m w) as [[a | e] w']; simpl in Hlen, Hkeep, HQ.
  - destruct (Hk a (HQ a eq_refl) w') as (Hlen' & Hkeep' & HQ'); [lia |].
    split; [lia |]. split; [| exact HQ'].
    intros l Hl Hkl. rewrite Hkeep', Hkeep by assumption. reflexivity.
  - simpl. split; [exact Hlen |]. split; [exact Hkeep |]. intros a Ha. discriminate Ha.
Qed.

Lemma frame_same_heap {A : Type} n keep (m : M A) :
  (forall w, heap (snd (m w)) = heap w) -> frame n keep anything m.
Proof.
  intros Hh w _. rewrite Hh. split; [lia |]. split; [reflexivity |]. intros; exact I.
Qed.

Lemma frame_mret {A : Type} n keep (a : A) : frame n keep anything (mret a).
Proof. apply frame_same_heap. reflexivity. Qed.

Lemma frame_lift {A : Type} n keep (r : result A) : frame n keep anything (lift r).
Proof. apply frame_same_heap. reflexivity. Qed.

Lemma frame_emit n keep (e : event) : frame n keep anything (emit e).
Proof. apply frame_same_heap. reflexivity. Qed.

Lemma frame_oracle {A : Type} n keep (f : world -> result A) :
  frame n keep anything (fun w => (f w, w)).
Proof. apply frame_same_heap. reflexivity. Qed.

Lemma frame_read_array n keep (l : loc) : frame n keep anything (read_array l).
Proof.
  apply frame_same_heap. intros w. unfold read_array.
  destruct (heap w !! l) as [[a | d] |]; reflexivity.
Qed.

Lemma frame_alloc n keep (o : pyobj) : frame n keep (fresh_from n) (alloc o).
Proof.
  intros w Hn. simpl. rewrite length_app. simpl. split; [lia |]. split.
  - intros l Hl _. apply lookup_app_l. lia.
  - intros a Ha. injection Ha as <-. exact Hn.
Qed.

Lemma frame_setitem n keep (l : loc) (i : nat) (v : npfloat) :
  fresh_from n l -> frame n keep anything (setitem l i v).
Proof.
  intros Hfresh w Hn. unfold setitem, fresh_from in *.
  destruct (heap w !! l) as [[a | d] |]; simpl;
    try (split; [lia |]; split; [reflexivity | intros; exact I]).
  destruct (i <? length a)%nat; simpl.
  - rewrite length_insert. split; [lia |]. split; [| intros; exact I].
    intros l' Hl' _. apply list_lookup_insert_ne. lia.
  - split; [lia |]. split; [reflexivity | intros; exact I].
Qed.

Lemma frame_setitem_dict n (keep : loc -> Prop) (d : loc) (k : string) (v : pyval) :
  (forall l, keep l -> l <> d) -> frame n keep anything (setitem_dict d k v).
Proof.
  intros Hkeep w Hn. unfold setitem_dict.
  destruct (heap w !! d) as [[a | m] |]; simpl;
    try (split; [lia |]; split; [reflexivity | intros; exact I]).
  rewrite length_insert. split; [lia |]. split; [| intros; exact I].
  intros l Hl Hk. apply list_lookup_insert_ne. intros ->. exact (Hkeep _ Hk eq_refl).
Qed.


Ltac emits_steps :=
  repeat first
    [ match goal with
      | |- emits_only _ (mbind _ _) => apply emits_only_bind; [| intros ?]
      end
    | apply emits_only_silent;
      first [ apply silent_mret | apply silent_lift | apply silent_alloc
            | apply silent_read_array | apply silent_setitem
            | apply silent_setitem_dict | apply silent_oracle ] ].

Ltac frame_steps :=
  repeat first
    [ match goal with
      | |- frame _ _ _ (mbind _ _) => eapply frame_bind; [| intros ? ?]
      end
    | apply frame_mret | apply frame_lift | apply frame_emit | apply frame_oracle
    | apply frame_read_array | apply frame_alloc
    | apply frame_setitem; assumption ].

Lemma emits_only_copy P (l : loc) : emits_only P (copy l).
Proof. unfold copy. emits_steps. Qed.

Lemma emits_only_read_optional P (v : pyval) : emits_only P (read_optional v).
Proof. destruct v; simpl; emits_steps. Qed.

Lemma emits_only_barrierScore_obj P (xd yd pp : loc) (weights : pyval) (thr : R) :
  emits_only P (barrierScore_obj xd yd pp weights thr).
Proof.
  unfold barrierScore_obj. emits_steps;
    first [apply emits_only_copy | apply emits_only_read_optional].
Qed.

Lemma emits_only_call_curve_fit (P : event -> Prop) (x y p0 : np.ndarray) :
  P (Called (CallCurveFit x y p0)) -> emits_only P (call_curve_fit x y p0).
Proof.
  intros HP. unfold call_curve_fit. emits_steps. apply emits_only_emit, HP.
Qed.

Lemma emits_only_call_brute (P : event -> Prop) ff lo hi Ns disp :
  P (Called (CallBrute lo hi Ns disp)) ->
  (disp = true -> P (Displayed (CallBrute lo hi Ns disp))) ->
  emits_only P (call_brute ff lo hi Ns disp).
Proof.
  intros HC HD. unfold call_brute. emits_steps.
  - apply emits_only_emit, HC.
  - destruct disp; emits_steps. apply emits_only_emit, HD. reflexivity.
Qed.

Lemma emits_only_call_minimize (P : event -> Prop) ff x0 method disp :
  (forall v0, P (Called (CallMinimize v0 method disp))) ->
  (forall v0, disp = true -> P (Displayed (CallMinimize v0 method disp))) ->
  emits_only P (call_minimize ff x0 method disp).
Proof.
  intros HC HD. unfold call_minimize. emits_steps.
  - apply emits_only_emit, HC.
  - destruct disp; emits_steps. apply emits_only_emit, HD. reflexivity.
Qed.

Lemma emits_only_stage_report (P : event -> Prop) verbose ppx sc0 sc :
  ((2 <= verbose)%Z -> forall v, P (Printed (StageReport v sc0 sc))) ->
  emits_only P (stage_report verbose ppx sc0 sc).
Proof.
  intros HP. unfold stage_report. destruct (Z.leb_spec 2 verbose) as [Hv | Hv]; emits_steps.
  apply emits_only_emit, HP, Hv.
Qed.

Lemma fitBarrierModel_emits (pp0 xd yd : loc) (weights : pyval) (verbose : Z)
    (curvefit : bool) (dd : pyval) :
  emits_only (allowed_event verbose)
    (fitBarrierModel pp0 xd yd weights verbose curvefit dd).
Proof.
  unfold fitBarrierModel.
  repeat first
    [ apply emits_only_copy
    | apply emits_only_barrierScore_obj
    | apply emits_only_call_brute; simpl; [split; reflexivity | discriminate]
    | apply emits_only_call_minimize; intros; simpl; split; reflexivity
    | apply emits_only_stage_report; intros Hv v; exact Hv
    | apply emits_only_call_curve_fit; exact I
    | match goal with
      | |- emits_only _ (if ?b then _ else _) => destruct b eqn:?
      | |- emits_only _ (match ?d with VNone => _ | VRef _ => _ end) => destruct d
      end
    | apply emits_only_bind; [| intros ?]
    | apply emits_only_silent;
      first [ apply silent_mret | apply silent_lift | apply silent_alloc
            | apply silent_read_array | apply silent_setitem
            | apply silent_setitem_dict | apply silent_oracle ] ].
  apply emits_only_emit. simpl. intros Hv. subst verbose. discriminate.
Qed.

(** *** Frames *)

Lemma frame_copy n keep (l : loc) : frame n keep (fresh_from n) (copy l).
Proof. unfold copy. frame_steps. Qed.

Lemma frame_read_optional n keep (v : pyval) : frame n keep anything (read_optional v).
Proof. destruct v; simpl; frame_steps. Qed.

Lemma frame_barrierScore_obj n keep (xd yd pp : loc) (weights : pyval) (thr : R) :
  frame n keep anything (barrierScore_obj xd yd pp weights thr).
Proof.
  unfold barrierScore_obj. frame_steps;
    first [apply frame_copy | apply frame_read_optional].
Qed.

Lemma frame_call_curve_fit n keep (x y p0 : np.ndarray) :
  frame n keep anything (call_curve_fit x y p0).
Proof. unfold call_curve_fit. frame_steps. Qed.

Lemma frame_call_brute n keep ff lo hi Ns disp :
  frame n keep anything (call_brute ff lo hi Ns disp).
Proof. unfold call_brute. frame_steps. destruct disp; frame_steps. Qed.

Lemma frame_call_minimize n keep ff x0 method disp :
  frame n keep anything (call_minimize ff x0 method disp).
Proof. unfold call_minimize. frame_steps. destruct disp; frame_steps. Qed.

Lemma frame_stage_report n keep verbose ppx sc0 sc :
  frame n keep anything (stage_report verbose ppx sc0 sc).
Proof. unfold stage_report. destruct (2 <=? verbose)%Z; frame_steps. Qed.

Lemma frame_fitBarrierModel n (pp0 xd yd : loc) (weights : pyval) (verbose : Z)
    (curvefit : bool) (dd : pyval) :
  frame n (fun l => dd <> VRef l) anything
    (fitBarrierModel pp0 xd yd weights verbose curvefit dd).
Proof.
  unfold fitBarrierModel.
  repeat first
    [ apply frame_copy
    | apply frame_barrierScore_obj
    | apply frame_call_brute
    | apply frame_call_minimize
    | apply frame_stage_report
    | apply frame_call_curve_fit
    | apply frame_setitem_dict; intros kept Hkept ->; apply Hkept; reflexivity
    | match goal with
      | |- frame _ _ _ (if ?b then _ else _) => destruct b
      | |- frame _ _ _ (match ?d with VNone => _ | VRef _ => _ end) => destruct d
      end
    | eapply frame_bind; [| intros ? ?]
    | apply frame_mret | apply frame_lift | apply frame_emit | apply frame_oracle
    | apply frame_read_array | apply frame_alloc
    | apply frame_setitem; assumption ].
Qed.


(** ** The driver: a run in which scipy returns

    The store of such a run is [h ++ l]: the caller's objects [h] and the
    objects [l] the call has allocated so far. *)

Lemma lookup_local (h l : list pyobj) (k : nat) : (h ++ l) !! (length h + k)%nat = l !! k.
Proof. rewrite lookup_app_r by lia. f_equal. lia. Qed.

Lemma lookup_last (l : list pyobj) (o : pyobj) : (l ++ [o]) !! length l = Some o.
Proof. rewrite lookup_app_r by lia. rewrite Nat.sub_diag. reflexivity. Qed.

Lemma read_caller (h l : list pyobj) (tr : list event) (x : loc) (a : np.ndarray) :
  h !! x = Some (OArray a) ->
  read_array x (World (h ++ l) tr) = (Ok a, World (h ++ l) tr).
Proof.
  intros H. unfold read_array. simpl. rewrite (lookup_app_l_Some _ _ _ _ H). reflexivity.
Qed.

Lemma read_local (h l : list pyobj) (tr : list event) (k : nat) (a : np.ndarray) :
  l !! k = Some (OArray a) ->
  read_array (length h + k)%nat (World (h ++ l) tr) = (Ok a, World (h ++ l) tr).
Proof.
  intros H. unfold read_array. simpl. rewrite lookup_local, H. reflexivity.
Qed.

Lemma alloc_local (h l : list pyobj) (tr : list event) (o : pyobj) :
  alloc o (World (h ++ l) tr) = (Ok (length h + length l)%nat, World (h ++ (l ++ [o])) tr).
Proof. unfold alloc. simpl. rewrite length_app, app_assoc. reflexivity. Qed.

Lemma copy_caller (h l : list pyobj) (tr : list event) (x : loc) (a : np.ndarray) :
  h !! x = Some (OArray a) ->
  copy x (World (h ++ l) tr)
  = (Ok (length h + length l)%nat, World (h ++ (l ++ [OArray a])) tr).
Proof.
  intros H. unfold copy. rewrite (mbind_Ok _ _ _ _ _ (read_caller h l tr x a H)).
  apply alloc_local.
Qed.

Lemma copy_local (h l : list pyobj) (tr : list event) (k : nat) (a : np.ndarray) :
  l !! k = Some (OArray a) ->
  copy (length h + k)%nat (World (h ++ l) tr)
  = (Ok (length h + length l)%nat, World (h ++ (l ++ [OArray a])) tr).
Proof.
  intros H. unfold copy. rewrite (mbind_Ok _ _ _ _ _ (read_local h l tr k a H)).
  apply alloc_local.
Qed.

Lemma setitem_local (h l l' : list pyobj) (tr : list event) (k : nat) (a : np.ndarray)
    (i : nat) (v : npfloat) :
  l !! k = Some (OArray a) ->
  (i < length a)%nat ->
  l' = <[k := OArray (<[i := v]> a)]> l ->
  setitem (length h + k)%nat i v (World (h ++ l) tr) = (Ok tt, World (h ++ l') tr).
Proof.
  intros H Hi ->. unfold setitem. simpl. rewrite lookup_local, H.
  destruct (Nat.ltb_spec i (length a)) as [_ | Hge]; [| lia].
  rewrite insert_app_r. reflexivity.
Qed.

Lemma setitem_dict_caller (h l : list pyobj) (tr : list event) (d : loc)
    (m : gmap string pyval) (k : string) (v : pyval) :
  h !! d = Some (ODict m) ->
  setitem_dict d k v (World (h ++ l) tr)
  = (Ok tt, World (<[d := ODict (<[k := v]> m)]> h ++ l) tr).
Proof.
  intros H. unfold setitem_dict. simpl. rewrite (lookup_app_l_Some _ _ _ _ H).
  rewrite insert_app_l by (eapply lookup_lt_Some; exact H). reflexivity.
Qed.

Lemma read_optional_caller (h l : list pyobj) (tr : list event) (weights : pyval)
    (vw : option np.ndarray) :
  weights_at h weights vw ->
  read_optional weights (World (h ++ l) tr) = (Ok vw, World (h ++ l) tr).
Proof.
  destruct weights as [| lw]; simpl.
  - intros ->. reflexivity.
  - intros (a & Ha & ->). rewrite (mbind_Ok _ _ _ _ _ (read_caller h l tr lw a Ha)). reflexivity.
Qed.

Lemma barrierScore_obj_local (h l : list pyobj) (tr : list event) (k : nat)
    (xd yd : loc) (weights : pyval) (thr : R) (vx vy vp : np.ndarray)
    (vw : option np.ndarray) :
  h !! xd = Some (OArray vx) ->
  h !! yd = Some (OArray vy) ->
  weights_at h weights vw ->
  l !! k = Some (OArray vp) ->
  barrierScore_obj xd yd (length h + k)%nat weights thr (World (h ++ l) tr)
  = (barrierScore vx vy vp vw thr, World (h ++ (l ++ [OArray vp])) tr).
Proof.
  intros Hx Hy Hw Hp. unfold barrierScore_obj.
  rewrite (mbind_Ok _ _ _ _ _ (copy_local h l tr k vp Hp)).
  rewrite (mbind_Ok _ _ _ _ _ (read_caller h _ tr xd vx Hx)).
  rewrite (mbind_Ok _ _ _ _ _ (read_local h _ tr (length l) vp (lookup_last l _))).
  rewrite (mbind_Ok _ _ _ _ _ (read_caller h _ tr yd vy Hy)).
  rewrite (mbind_Ok _ _ _ _ _ (read_optional_caller h _ tr weights vw Hw)).
  reflexivity.
Qed.

Lemma barrierScore_obj_ok (h l : list pyobj) (tr : list event) (k : nat) (xd yd : loc)
    (weights : pyval) (thr : R) (vx vy vp : np.ndarray) (vw : option np.ndarray)
    (sc : npfloat) :
  h !! xd = Some (OArray vx) ->
  h !! yd = Some (OArray vy) ->
  weights_at h weights vw ->
  l !! k = Some (OArray vp) ->
  barrierScore vx vy vp vw thr = Ok sc ->
  barrierScore_obj xd yd (length h + k)%nat weights thr (World (h ++ l) tr)
  = (Ok sc, World (h ++ (l ++ [OArray vp])) tr).
Proof.
  intros Hx Hy Hw Hp Hsc.
  rewrite (barrierScore_obj_local h l tr k xd yd weights thr vx vy vp vw Hx Hy Hw Hp), Hsc.
  reflexivity.
Qed.

Lemma apply_in_ff_tunnel (h l : list pyobj) (tr : list event) (k : nat) (xd yd : loc)
    (weights : pyval) (vx vy : np.ndarray) (vw : option np.ndarray) (p0 p1 : npfloat)
    (rest : list npfloat) :
  h !! xd = Some (OArray vx) ->
  h !! yd = Some (OArray vy) ->
  weights_at h weights vw ->
  l !! k = Some (OArray (p0 :: p1 :: rest)) ->
  apply_in (World (h ++ l) tr) (ff_tunnel xd yd weights (length h + k)%nat)
  = fun x => objective vx vy vw [p0; p1; x].
Proof.
  intros Hx Hy Hw Hp. apply functional_extensionality. intros x.
  unfold apply_in, ff_tunnel.
  rewrite (mbind_Ok _ _ _ _ _ (read_local h l tr k _ Hp)).
  erewrite mbind_Ok by reflexivity. erewrite mbind_Ok by reflexivity.
  rewrite (mbind_Ok _ _ _ _ _ (alloc_local h l tr _)).
  rewrite (barrierScore_obj_local h _ tr (length l) xd yd weights thr_default vx vy _ vw
             Hx Hy Hw (lookup_last l _)).
  reflexivity.
Qed.

Lemma apply_in_ff_offset (h l : list pyobj) (tr : list event) (k k' : nat) (xd yd : loc)
    (weights : pyval) (vx vy : np.ndarray) (vw : option np.ndarray) (p0 p1 : npfloat)
    (rest : list npfloat) (q0 q1 q2 : npfloat) (rest' : list npfloat) :
  h !! xd = Some (OArray vx) ->
  h !! yd = Some (OArray vy) ->
  weights_at h weights vw ->
  l !! k = Some (OArray (p0 :: p1 :: rest)) ->
  l !! k' = Some (OArray (q0 :: q1 :: q2 :: rest')) ->
  apply_in (World (h ++ l) tr) (ff_offset xd yd weights (length h + k)%nat (length h + k')%nat)
  = fun x => objective vx vy vw [x; p1; q2].
Proof.
  intros Hx Hy Hw Hp Hq. apply functional_extensionality. intros x.
  unfold apply_in, ff_offset.
  rewrite (mbind_Ok _ _ _ _ _ (read_local h l tr k _ Hp)).
  erewrite mbind_Ok by reflexivity.
  rewrite (mbind_Ok _ _ _ _ _ (read_local h l tr k' _ Hq)).
  erewrite mbind_Ok by reflexivity.
  rewrite (mbind_Ok _ _ _ _ _ (alloc_local h l tr _)).
  rewrite (barrierScore_obj_local h _ tr (length l) xd yd weights thr_default vx vy _ vw
             Hx Hy Hw (lookup_last l _)).
  reflexivity.
Qed.

Lemma apply_in_ff_full (h l : list pyobj) (tr : list event) (xd yd : loc)
    (weights : pyval) (vx vy : np.ndarray) (vw : option np.ndarray) :
  h !! xd = Some (OArray vx) ->
  h !! yd = Some (OArray vy) ->
  weights_at h weights vw ->
  apply_in (World (h ++ l) tr)
    (fun v => (do! x := alloc (OArray v) in ff_full xd yd weights x)%M)
  = objective vx vy vw.
Proof.
  intros Hx Hy Hw. apply functional_extensionality. intros v.
  unfold apply_in, ff_full.
  rewrite (mbind_Ok _ _ _ _ _ (alloc_local h l tr _)).
  rewrite (barrierScore_obj_local h _ tr (length l) xd yd weights thr_default vx vy _ vw
             Hx Hy Hw (lookup_last l _)).
  reflexivity.
Qed.

Lemma call_brute_run ff F (lo hi : npfloat) (Ns : nat) (hp : list pyobj)
    (tr : list event) r :
  apply_in (World hp (tr ++ [Called (CallBrute lo hi Ns false)])) ff = F ->
  brute F (lo, hi) Ns false = Ok r ->
  call_brute ff lo hi Ns false (World hp tr)
  = (Ok r, World hp (tr ++ [Called (CallBrute lo hi Ns false)])).
Proof.
  intros HF Hr. unfold call_brute.
  erewrite mbind_Ok by reflexivity.
  erewrite mbind_Ok by (cbv beta; simpl heap; simpl trace; rewrite HF, Hr; reflexivity).
  reflexivity.
Qed.

Lemma call_brute_raise ff F (lo hi : npfloat) (Ns : nat) (hp : list pyobj)
    (tr : list event) (e : exn) :
  apply_in (World hp (tr ++ [Called (CallBrute lo hi Ns false)])) ff = F ->
  brute F (lo, hi) Ns false = Raise e ->
  call_brute ff lo hi Ns false (World hp tr)
  = (Raise e, World hp (tr ++ [Called (CallBrute lo hi Ns false)])).
Proof.
  intros HF Hb. unfold call_brute. erewrite mbind_Ok by reflexivity.
  erewrite mbind_Raise; [reflexivity |].
  cbv beta. cbn [heap trace]. rewrite HF, Hb. reflexivity.
Qed.

Lemma call_minimize_run ff F (h l : list pyobj) (tr : list event) (k : nat)
    (v0 : np.ndarray) (method : string) r :
  l !! k = Some (OArray v0) ->
  apply_in (World (h ++ l) (tr ++ [Called (CallMinimize v0 method true)]))
    (fun v => (do! x := alloc (OArray v) in ff x)%M) = F ->
  minimize F v0 method true = Ok r ->
  call_minimize ff (length h + k)%nat method true (World (h ++ l) tr)
  = (Ok r, World (h ++ l)
             ((tr ++ [Called (CallMinimize v0 method true)])
                ++ [Displayed (CallMinimize v0 method true)])).
Proof.
  intros Hk HF Hr. unfold call_minimize.
  rewrite (mbind_Ok _ _ _ _ _ (read_local h l tr k v0 Hk)).
  erewrite mbind_Ok by reflexivity.
  erewrite mbind_Ok by (cbv beta; simpl heap; simpl trace; rewrite HF, Hr; reflexivity).
  reflexivity.
Qed.

Lemma stage_report_run (h l : list pyobj) (tr : list event) (k : nat) (v : np.ndarray)
    (verbose : Z) (sc0 sc : npfloat) :
  l !! k = Some (OArray v) ->
  stage_report verbose (length h + k)%nat sc0 sc (World (h ++ l) tr)
  = (Ok tt, World (h ++ l) (tr ++ stage_events verbose v sc0 sc)).
Proof.
  intros Hk. unfold stage_report, stage_events. destruct (2 <=? verbose)%Z.
  - rewrite (mbind_Ok _ _ _ _ _ (read_local h l tr k v Hk)). reflexivity.
  - rewrite app_nil_r. reflexivity.
Qed.

Lemma final_report_run (hp : list pyobj) (tr : list event) (verbose : Z)
    (sc0 sc : npfloat) :
  (if (verbose =? 0)%Z then mret tt else emit (Printed (FinalReport sc0 sc))) (World hp tr)
  = (Ok tt, World hp (tr ++ final_events verbose sc0 sc)).
Proof.
  unfold final_events. destruct (verbose =? 0)%Z; [rewrite app_nil_r |]; reflexivity.
Qed.

Lemma initial_block_run (h l : list pyobj) (tr : list event) (pp0 xd yd : loc)
    (curvefit : bool) (vp0 vx vy vp : np.ndarray) :
  h !! pp0 = Some (OArray vp0) ->
  h !! xd = Some (OArray vx) ->
  h !! yd = Some (OArray vy) ->
  stage_a curvefit vx vy vp0 = Ok vp ->
  (if curvefit
   then (do! x := read_array xd in
         do! y := read_array yd in
         do! p0 := read_array pp0 in
         do! popt := call_curve_fit x y p0 in
         alloc (OArray popt))%M
   else copy pp0) (World (h ++ l) tr)
  = (Ok (length h + length l)%nat,
     World (h ++ (l ++ [OArray vp])) (tr ++ stage_a_events curvefit vx vy vp0)).
Proof.
  intros Hp Hx Hy Ha. unfold stage_a, stage_a_events in *. destruct curvefit.
  - rewrite (mbind_Ok _ _ _ _ _ (read_caller h l tr xd vx Hx)).
    rewrite (mbind_Ok _ _ _ _ _ (read_caller h l tr yd vy Hy)).
    rewrite (mbind_Ok _ _ _ _ _ (read_caller h l tr pp0 vp0 Hp)).
    unfold call_curve_fit.
    erewrite mbind_Ok.
    2:{ erewrite mbind_Ok by reflexivity. unfold lift. rewrite Ha. reflexivity. }
    apply alloc_local.
  - injection Ha as <-. rewrite app_nil_r. apply copy_caller, Hp.
Qed.

Lemma dd_block_run (h l : list pyobj) (tr : list event) (dd : pyval) (pp : loc)
    (weights : pyval) :
  dict_at h dd ->
  match dd with
  | VNone => mret tt
  | VRef d => (setitem_dict d "pp" (VRef pp) ;;; setitem_dict d "weights" weights)%M
  end (World (h ++ l) tr)
  = (Ok tt, World (dd_written h dd pp weights ++ l) tr).
Proof.
  unfold dict_at, dd_written. destruct dd as [| d]; [reflexivity |].
  intros (m & Hd). rewrite Hd.
  rewrite (mbind_Ok _ _ _ _ _ (setitem_dict_caller h l tr d m "pp" (VRef pp) Hd)).
  erewrite setitem_dict_caller.
  2:{ apply list_lookup_insert_eq. eapply lookup_lt_Some. exact Hd. }
  rewrite list_insert_insert_eq. reflexivity.
Qed.

Lemma thr_default_nonzero : thr_default <> 0.
Proof. unfold thr_default. lra. Qed.

Ltac run_step tac := erewrite mbind_Ok by tac; cbv beta; cbn [length app Nat.add].

Lemma fitBarrierModel_run
    (robustCost_shape : forall x thr m, length (robustCost x thr m) = length x)
    (h : list pyobj) (t : list event) (pp0 xd yd : loc) (weights : pyval) (verbose : Z)
    (curvefit : bool) (dd : pyval) (vp0 vx vy : np.ndarray) (vw : option np.ndarray)
    (px pl pt : npfloat) (rest : list npfloat) (rb rc : npfloat) (r1 r2 : OptimizeResult) :
  h !! pp0 = Some (OArray vp0) ->
  h !! xd = Some (OArray vx) ->
  h !! yd = Some (OArray vy) ->
  weights_at h weights vw ->
  dict_at h dd ->
  length vx = length vy ->
  weights_fit (length vx) vw ->
  stage_a curvefit vx vy vp0 = Ok (px :: pl :: pt :: rest) ->
  brute (fun x => objective vx vy vw [px; pl; x]) (Fin 0, Fin 100) 20 false = Ok rb ->
  brute (fun x => objective vx vy vw [x; pl; rb]) ((px - Fin 2)%nf, (px + Fin 2)%nf) 20 false
  = Ok rc ->
  minimize (objective vx vy vw) (rc :: pl :: rb :: rest) "Powell" true = Ok r1 ->
  (3 <= length (res_x r1))%nat ->
  minimize (objective vx vy vw) (res_x r1) "Powell" true = Ok r2 ->
  (3 <= length (res_x r2))%nat ->
  exists (l : list pyobj) (es : list event) (s0 sb sc sf : npfloat),
    fitBarrierModel pp0 xd yd weights verbose curvefit dd (World h t)
    = (Ok (length h + 7)%nat,
       World (dd_written h dd (length h + 0)%nat weights ++ l) (t ++ es))
    /\ es = run_events verbose curvefit vx vy vp0 px pl pt rest rb rc r1 s0 sb sc sf
    /\ l !! 0%nat = Some (OArray (px :: pl :: pt :: rest))
    /\ l !! 7%nat = Some (OArray (res_x r2))
    /\ objective vx vy vw (px :: pl :: pt :: rest) = Ok s0
    /\ objective vx vy vw (px :: pl :: rb :: rest) = Ok sb
    /\ objective vx vy vw (rc :: pl :: rb :: rest) = Ok sc
    /\ objective vx vy vw (res_x r2) = Ok sf.
Proof.
  intros Hp Hx Hy Hw Hd Hxy Hwf Ha Hb Hc H1 Hl1 H2 Hl2.
  destruct (barrierScore_returns robustCost_shape vx vy (px :: pl :: pt :: rest) vw thr_default)
    as [s0 Hs0]; [exact Hxy | simpl; lia | exact Hwf | exact thr_default_nonzero |].
  destruct (barrierScore_returns robustCost_shape vx vy (px :: pl :: rb :: rest) vw thr_default)
    as [sb Hsb]; [exact Hxy | simpl; lia | exact Hwf | exact thr_default_nonzero |].
  destruct (barrierScore_returns robustCost_shape vx vy (rc :: pl :: rb :: rest) vw thr_default)
    as [sc Hsc]; [exact Hxy | simpl; lia | exact Hwf | exact thr_default_nonzero |].
  destruct (barrierScore_returns robustCost_shape vx vy (res_x r2) vw thr_default)
    as [sf Hsf]; [exact Hxy | exact Hl2 | exact Hwf | exact thr_default_nonzero |].
  eexists _, _, s0, sb, sc, sf.
  split.
  - replace (World h t) with (World (h ++ []) t) by (rewrite app_nil_r; reflexivity).
    unfold fitBarrierModel.
    run_step ltac:(eapply initial_block_run; eassumption).
    run_step ltac:(apply copy_local; reflexivity).
    run_step ltac:(eapply call_brute_run;
                   [eapply apply_in_ff_tunnel; [eassumption | eassumption | eassumption | reflexivity]
                   | eassumption]).
    run_step ltac:(eapply setitem_local; [reflexivity | simpl; lia | cbn; reflexivity]).
    run_step ltac:(eapply barrierScore_obj_ok;
                   [eassumption | eassumption | eassumption | reflexivity | eassumption]).
    run_step ltac:(eapply barrierScore_obj_ok;
                   [eassumption | eassumption | eassumption | reflexivity | eassumption]).
    run_step ltac:(eapply stage_report_run; reflexivity).
    run_step ltac:(apply read_local; reflexivity).
    run_step ltac:(reflexivity).
    run_step ltac:(eapply call_brute_run;
                   [eapply apply_in_ff_offset;
                    [eassumption | eassumption | eassumption | reflexivity | reflexivity]
                   | eassumption]).
    run_step ltac:(eapply setitem_local; [reflexivity | simpl; lia | cbn; reflexivity]).
    run_step ltac:(eapply barrierScore_obj_ok;
                   [eassumption | eassumption | eassumption | reflexivity | eassumption]).
    run_step ltac:(eapply barrierScore_obj_ok;
                   [eassumption | eassumption | eassumption | reflexivity | eassumption]).
    run_step ltac:(eapply stage_report_run; reflexivity).
    run_step ltac:(eapply call_minimize_run;
                   [reflexivity | eapply apply_in_ff_full; eassumption | eassumption]).
    run_step ltac:(apply alloc_local).
    run_step ltac:(eapply call_minimize_run;
                   [reflexivity | eapply apply_in_ff_full; eassumption | eassumption]).
    run_step ltac:(apply alloc_local).
    run_step ltac:(eapply barrierScore_obj_ok;
                   [eassumption | eassumption | eassumption | reflexivity | eassumption]).
    run_step ltac:(eapply barrierScore_obj_ok;
                   [eassumption | eassumption | eassumption | reflexivity | eassumption]).
    run_step ltac:(apply final_report_run).
    run_step ltac:(apply dd_block_run; assumption).
    unfold mret. rewrite <- !app_assoc. reflexivity.
  - repeat split; try assumption; reflexivity.
Qed.


(** ** The stages of the fit *)

Lemma filter_stage_events_call verbose v s0 s1 :
  List.filter is_call (stage_events verbose v s0 s1) = [].
Proof. unfold stage_events. destruct (2 <=? verbose)%Z; reflexivity. Qed.

Lemma filter_final_events_call verbose s0 s1 :
  List.filter is_call (final_events verbose s0 s1) = [].
Proof. unfold final_events. destruct (verbose =? 0)%Z; reflexivity. Qed.

Lemma filter_stage_a_events_call curvefit vx vy vp0 :
  List.filter is_call (stage_a_events curvefit vx vy vp0) = stage_a_events curvefit vx vy vp0.
Proof. destruct curvefit; reflexivity. Qed.

Lemma filter_stage_a_events_output curvefit vx vy vp0 :
  List.filter is_output (stage_a_events curvefit vx vy vp0) = [].
Proof. destruct curvefit; reflexivity. Qed.

Lemma calls_run_events verbose curvefit vx vy vp0 px pl pt rest rb rc r1 s0 sb sc sf :
  List.filter is_call
    (run_events verbose curvefit vx vy vp0 px pl pt rest rb rc r1 s0 sb sc sf)
  = stage_a_events curvefit vx vy vp0
    ++ [Called (CallBrute (Fin 0) (Fin 100) 20 false);
        Called (CallBrute (px - Fin 2)%nf (px + Fin 2)%nf 20 false);
        Called (CallMinimize (rc :: pl :: rb :: rest) "Powell" true);
        Called (CallMinimize (res_x r1) "Powell" true)].
Proof.
  unfold run_events.
  rewrite !List.filter_app, !filter_stage_events_call, filter_final_events_call,
    filter_stage_a_events_call.
  reflexivity.
Qed.

Lemma terminal_run_events_quiet curvefit vx vy vp0 px pl pt rest rb rc r1 s0 sb sc sf :
  List.filter is_output
    (run_events 0 curvefit vx vy vp0 px pl pt rest rb rc r1 s0 sb sc sf)
  = [Displayed (CallMinimize (rc :: pl :: rb :: rest) "Powell" true);
     Displayed (CallMinimize (res_x r1) "Powell" true)].
Proof.
  unfold run_events. rewrite !List.filter_app, filter_stage_a_events_output. reflexivity.
Qed.

(** C3. The driver runs stage (a) (the curve fit when enabled, else the
    initial guess unchanged), (b) the grid search over [tunnel_coupling] on
    [0, 100] with 20 samples, (c) the grid search over [x_offset], (d) two
    Powell minimizations, each stage on the vector the previous one left,
    and returns the vector of the last minimization; the calls into scipy
    are these, in this order.  The routines of scipy are assumed to return
    vectors of the length of their starting point. *)
Theorem fitBarrierModel_stages
    (robustCost_shape : forall x thr m, length (robustCost x thr m) = length x)
    (curve_fit_arity : forall f x y p0 r, curve_fit f x y p0 = Ok r -> length r = length p0)
    (minimize_arity :
       forall f x0 m d r, minimize f x0 m d = Ok r -> length (res_x r) = length x0)
    (h : list pyobj) (t : list event) (pp0 xd yd : loc) (weights : pyval) (verbose : Z)
    (curvefit : bool) (dd : pyval) (vp0 vx vy : np.ndarray) (vw : option np.ndarray)
    (v : np.ndarray) :
  h !! pp0 = Some (OArray vp0) ->
  h !! xd = Some (OArray vx) ->
  h !! yd = Some (OArray vy) ->
  weights_at h weights vw ->
  dict_at h dd ->
  length vx = length vy ->
  weights_fit (length vx) vw ->
  (3 <= length vp0)%nat ->
  fit_stages curvefit vx vy vw vp0 = Ok v ->
  exists (va vb vc : np.ndarray) (r1 r2 : OptimizeResult) (x0 : npfloat),
    stage_a curvefit vx vy vp0 = Ok va
    /\ stage_b vx vy vw va = Ok vb
    /\ stage_c vx vy vw vb = Ok vc
    /\ minimize (objective vx vy vw) vc "Powell" true = Ok r1
    /\ minimize (objective vx vy vw) (res_x r1) "Powell" true = Ok r2
    /\ res_x r2 = v
    /\ getitem vb 0 = Ok x0
    /\ exists (l : loc) (w' : world),
         fitBarrierModel pp0 xd yd weights verbose curvefit dd (World h t) = (Ok l, w')
         /\ heap w' !! l = Some (OArray v)
         /\ calls w'
            = calls (World h t)
              ++ stage_a_events curvefit vx vy vp0
              ++ [Called (CallBrute (Fin 0) (Fin 100) 20 false);
                  Called (CallBrute (x0 - Fin 2)%nf (x0 + Fin 2)%nf 20 false);
                  Called (CallMinimize vc "Powell" true);
                  Called (CallMinimize (res_x r1) "Powell" true)].
Proof.
  intros Hp Hx Hy Hw Hd Hxy Hwf Hlen Hfit.
  unfold fit_stages in Hfit.
  destruct (stage_a curvefit vx vy vp0) as [va |] eqn:Ea; [| discriminate].
  assert (Hva : (3 <= length va)%nat).
  { unfold stage_a in Ea. destruct curvefit.
    - rewrite (curve_fit_arity _ _ _ _ _ Ea). exact Hlen.
    - injection Ea as <-. exact Hlen. }
  destruct (params3_inv va Hva) as (px & pl & pt & rest & ->).
  cbn [rbind] in Hfit. unfold stage_b in Hfit at 1. cbn [getitem lookup list_lookup rbind] in Hfit.
  destruct (brute (fun t0 => objective vx vy vw [px; pl; t0]) (Fin 0, Fin 100) 20 false)
    as [rb |] eqn:Eb; [| discriminate].
  cbn [rbind insert list_insert] in Hfit. unfold stage_c in Hfit at 1.
  cbn [getitem lookup list_lookup rbind] in Hfit.
  destruct (brute (fun x => objective vx vy vw [x; pl; rb])
              ((px - Fin 2)%nf, (px + Fin 2)%nf) 20 false) as [rc |] eqn:Ec; [| discriminate].
  cbn [rbind insert list_insert] in Hfit. unfold stage_d in Hfit.
  destruct (minimize (objective vx vy vw) (rc :: pl :: rb :: rest) "Powell" true)
    as [r1 |] eqn:E1; [| discriminate].
  cbn [rbind] in Hfit.
  destruct (minimize (objective vx vy vw) (res_x r1) "Powell" true)
    as [r2 |] eqn:E2; [| discriminate].
  cbn [rbind] in Hfit. injection Hfit as Hv.
  assert (Hl1 : (3 <= length (res_x r1))%nat).
  { rewrite (minimize_arity _ _ _ _ _ E1). simpl. lia. }
  assert (Hl2 : (3 <= length (res_x r2))%nat).
  { rewrite (minimize_arity _ _ _ _ _ E2). exact Hl1. }
  destruct (fitBarrierModel_run robustCost_shape h t pp0 xd yd weights verbose curvefit dd
              vp0 vx vy vw px pl pt rest rb rc r1 r2 Hp Hx Hy Hw Hd Hxy Hwf Ea Eb Ec E1 Hl1 E2 Hl2)
    as (l & es & s0 & sb & sc & sf & Hrun & Hes & Hl0 & Hl7 & _).
  exists (px :: pl :: pt :: rest), (px :: pl :: rb :: rest), (rc :: pl :: rb :: rest), r1, r2, px.
  split; [reflexivity |].
  split; [unfold stage_b; cbn [getitem lookup list_lookup rbind]; rewrite Eb; reflexivity |].
  split; [unfold stage_c; cbn [getitem lookup list_lookup rbind]; rewrite Ec; reflexivity |].
  split; [exact E1 |]. split; [exact E2 |]. split; [exact Hv |]. split; [reflexivity |].
  eexists _, _. split; [exact Hrun |]. split.
  - cbn [heap]. rewrite lookup_app_r.
    + replace (length h + 7 - length (dd_written h dd (length h + 0) weights))%nat with 7%nat.
      * rewrite <- Hv. exact Hl7.
      * unfold dd_written. destruct dd as [| d]; [lia |].
        destruct (h !! d) as [[a | m] |]; rewrite ?length_insert; lia.
    + unfold dd_written. destruct dd as [| d]; [lia |].
      destruct (h !! d) as [[a | m] |]; rewrite ?length_insert; lia.
  - unfold calls. cbn [trace]. rewrite List.filter_app, Hes, calls_run_events. reflexivity.
Qed.


(** ** The grid search over [x_offset] *)

Lemma brute_calls_app (tr1 tr2 : list event) :
  brute_calls (tr1 ++ tr2) = brute_calls tr1 ++ brute_calls tr2.
Proof.
  induction tr1 as [| e tr1 IH]; simpl; [reflexivity |].
  destruct e as [[? ? ? | lo hi Ns disp | ? ? ?] | c | r]; simpl; rewrite IH; reflexivity.
Qed.

Lemma brute_calls_run_events verbose curvefit vx vy vp0 px pl pt rest rb rc r1 s0 sb sc sf :
  brute_calls (run_events verbose curvefit vx vy vp0 px pl pt rest rb rc r1 s0 sb sc sf)
  = [(Fin 0, Fin 100, 20%nat, false); ((px - Fin 2)%nf, (px + Fin 2)%nf, 20%nat, false)].
Proof.
  unfold run_events, stage_a_events, stage_events, final_events.
  destruct curvefit, (2 <=? verbose)%Z, (verbose =? 0)%Z; reflexivity.
Qed.

Lemma returning_run_runs
    (robustCost_shape : forall x thr m, length (robustCost x thr m) = length x)
    h t pp0 xd yd weights verbose dd curvefit vp0 vx vy vw px pl pt rest rb rc r1 r2 :
  returning_run h pp0 xd yd weights dd curvefit vp0 vx vy vw px pl pt rest rb rc r1 r2 ->
  exists (l : list pyobj) (s0 sb sc sf : npfloat),
    fitBarrierModel pp0 xd yd weights verbose curvefit dd (World h t)
    = (Ok (length h + 7)%nat,
       World (dd_written h dd (length h + 0)%nat weights ++ l)
         (t ++ run_events verbose curvefit vx vy vp0 px pl pt rest rb rc r1 s0 sb sc sf))
    /\ l !! 0%nat = Some (OArray (px :: pl :: pt :: rest))
    /\ l !! 7%nat = Some (OArray (res_x r2)).
Proof.
  intros (Hp & Hx & Hy & Hw & Hd & Hxy & Hwf & Ha & Hb & Hc & H1 & Hl1 & H2 & Hl2).
  destruct (fitBarrierModel_run robustCost_shape h t pp0 xd yd weights verbose curvefit dd
              vp0 vx vy vw px pl pt rest rb rc r1 r2 Hp Hx Hy Hw Hd Hxy Hwf Ha Hb Hc H1 Hl1 H2 Hl2)
    as (l & es & s0 & sb & sc & sf & Hrun & -> & Hl0 & Hl7 & _).
  exists l, s0, sb, sc, sf. repeat split; assumption.
Qed.

Lemma dd_written_length (h : list pyobj) (dd : pyval) (pp : loc) (weights : pyval) :
  length (dd_written h dd pp weights) = length h.
Proof.
  unfold dd_written. destruct dd as [| d]; [reflexivity |].
  destruct (h !! d) as [[a | m] |]; rewrite ?length_insert; reflexivity.
Qed.

Lemma brute_calls_stage_a_events curvefit vx vy vp0 :
  brute_calls (stage_a_events curvefit vx vy vp0) = [].
Proof. destruct curvefit; reflexivity. Qed.

Lemma brute_calls_stage_events verbose v s0 s1 :
  brute_calls (stage_events verbose v s0 s1) = [].
Proof. unfold stage_events. destruct (2 <=? verbose)%Z; reflexivity. Qed.

(** The run up to a grid search over [x_offset] that raises. *)
Lemma fitBarrierModel_offset_search_raises
    (robustCost_shape : forall x thr m, length (robustCost x thr m) = length x)
    (h : list pyobj) (t : list event) (pp0 xd yd : loc) (weights : pyval) (verbose : Z)
    (curvefit : bool) (dd : pyval) (vp0 vx vy : np.ndarray) (vw : option np.ndarray)
    (px pl pt : npfloat) (rest : list npfloat) (rb : npfloat) (e : exn) :
  h !! pp0 = Some (OArray vp0) ->
  h !! xd = Some (OArray vx) ->
  h !! yd = Some (OArray vy) ->
  weights_at h weights vw ->
  length vx = length vy ->
  weights_fit (length vx) vw ->
  stage_a curvefit vx vy vp0 = Ok (px :: pl :: pt :: rest) ->
  brute (fun x => objective vx vy vw [px; pl; x]) (Fin 0, Fin 100) 20 false = Ok rb ->
  brute (fun x => objective vx vy vw [x; pl; rb]) ((px - Fin 2)%nf, (px + Fin 2)%nf) 20 false
  = Raise e ->
  exists (l : list pyobj) (es : list event) (s0 sb : npfloat),
    fitBarrierModel pp0 xd yd weights verbose curvefit dd (World h t)
    = (Raise e, World (h ++ l) (t ++ es))
    /\ es = stage_a_events curvefit vx vy vp0
            ++ [Called (CallBrute (Fin 0) (Fin 100) 20 false)]
            ++ stage_events verbose (px :: pl :: rb :: rest) s0 sb
            ++ [Called (CallBrute (px - Fin 2)%nf (px + Fin 2)%nf 20 false)].
Proof.
  intros Hp Hx Hy Hw Hxy Hwf Ha Hb Hc.
  destruct (barrierScore_returns robustCost_shape vx vy (px :: pl :: pt :: rest) vw thr_default)
    as [s0 Hs0]; [exact Hxy | simpl; lia | exact Hwf | exact thr_default_nonzero |].
  destruct (barrierScore_returns robustCost_shape vx vy (px :: pl :: rb :: rest) vw thr_default)
    as [sb Hsb]; [exact Hxy | simpl; lia | exact Hwf | exact thr_default_nonzero |].
  eexists _, _, s0, sb.
  split.
  - replace (World h t) with (World (h ++ []) t) by (rewrite app_nil_r; reflexivity).
    unfold fitBarrierModel.
    run_step ltac:(eapply initial_block_run; eassumption).
    run_step ltac:(apply copy_local; reflexivity).
    run_step ltac:(eapply call_brute_run;
                   [eapply apply_in_ff_tunnel; [eassumption | eassumption | eassumption | reflexivity]
                   | eassumption]).
    run_step ltac:(eapply setitem_local; [reflexivity | simpl; lia | cbn; reflexivity]).
    run_step ltac:(eapply barrierScore_obj_ok;
                   [eassumption | eassumption | eassumption | reflexivity | eassumption]).
    run_step ltac:(eapply barrierScore_obj_ok;
                   [eassumption | eassumption | eassumption | reflexivity | eassumption]).
    run_step ltac:(eapply stage_report_run; reflexivity).
    run_step ltac:(apply read_local; reflexivity).
    run_step ltac:(reflexivity).
    erewrite mbind_Raise.
    2:{ eapply call_brute_raise;
          [eapply apply_in_ff_offset;
           [eassumption | eassumption | eassumption | reflexivity | reflexivity]
          | eassumption]. }
    rewrite <- !app_assoc. reflexivity.
  - reflexivity.
Qed.

(** C4, as the code has it.  After stage (a) left the vector
    [(px, pl, pt, ...)] (the initial guess when the curve fit is
    disabled, the result of the curve fit when it is enabled) and the
    first grid search returned [rb], the grid search over [x_offset] is
    the call of [brute] on the objective
    [x |-> barrierScore(xd, yd, [x, pl, rb])], over [[px - 2, px + 2]],
    with 20 samples and [disp=False]: the lever arm is that of the
    vector of stage (a) and the tunnel coupling the refined one.  This
    holds whatever [brute] does: when that call raises, so does
    [fitBarrierModel], with the two grid searches as its last calls
    into scipy; when it returns [rc], the first minimization starts from
    [(rc, pl, rb, ...)]. *)
Theorem x_offset_search_range
    (robustCost_shape : forall x thr m, length (robustCost x thr m) = length x)
    (h : list pyobj) (t : list event) (pp0 xd yd : loc) (weights : pyval) (verbose : Z)
    (dd : pyval) (curvefit : bool) (vp0 vx vy : np.ndarray) (vw : option np.ndarray)
    (px pl pt : npfloat) (rest : list npfloat) (rb : npfloat) :
  h !! pp0 = Some (OArray vp0) ->
  h !! xd = Some (OArray vx) ->
  h !! yd = Some (OArray vy) ->
  weights_at h weights vw ->
  dict_at h dd ->
  length vx = length vy ->
  weights_fit (length vx) vw ->
  (if curvefit
   then curve_fit (fun x ps => barrierModel x (Positional ps)) vx vy vp0
   else Ok vp0) = Ok (px :: pl :: pt :: rest) ->
  brute (fun x => objective vx vy vw [px; pl; x]) (Fin 0, Fin 100) 20 false = Ok rb ->
  let run := fitBarrierModel pp0 xd yd weights verbose curvefit dd (World h t) in
  let search :=
    brute (fun x => objective vx vy vw [x; pl; rb])
      ((px - Fin 2)%nf, (px + Fin 2)%nf) 20 false in
  let searches :=
    [(Fin 0, Fin 100, 20%nat, false); ((px - Fin 2)%nf, (px + Fin 2)%nf, 20%nat, false)] in
  let search_calls :=
    [Called (CallBrute (Fin 0) (Fin 100) 20 false);
     Called (CallBrute (px - Fin 2)%nf (px + Fin 2)%nf 20 false)] in
  (forall e, search = Raise e ->
     fst run = Raise e
     /\ brute_calls (trace (snd run)) = brute_calls t ++ searches
     /\ calls (snd run)
        = calls (World h t) ++ stage_a_events curvefit vx vy vp0 ++ search_calls)
  /\ (forall rc r1 r2, search = Ok rc ->
        minimize (objective vx vy vw) (rc :: pl :: rb :: rest) "Powell" true = Ok r1 ->
        (3 <= length (res_x r1))%nat ->
        minimize (objective vx vy vw) (res_x r1) "Powell" true = Ok r2 ->
        (3 <= length (res_x r2))%nat ->
        (exists ret, fst run = Ok ret /\ heap (snd run) !! ret = Some (OArray (res_x r2)))
        /\ brute_calls (trace (snd run)) = brute_calls t ++ searches
        /\ calls (snd run)
           = calls (World h t) ++ stage_a_events curvefit vx vy vp0 ++ search_calls
             ++ [Called (CallMinimize (rc :: pl :: rb :: rest) "Powell" true);
                 Called (CallMinimize (res_x r1) "Powell" true)]).
Proof.
  intros Hp Hx Hy Hw Hd Hxy Hwf Ha Hb run search searches search_calls.
  change (stage_a curvefit vx vy vp0 = Ok (px :: pl :: pt :: rest)) in Ha.
  split.
  - intros e He.
    destruct (fitBarrierModel_offset_search_raises robustCost_shape h t pp0 xd yd weights
                verbose curvefit dd vp0 vx vy vw px pl pt rest rb e
                Hp Hx Hy Hw Hxy Hwf Ha Hb He) as (l & es & s0 & sb & Hrun & Hes).
    unfold run. rewrite Hrun. cbn [fst snd trace]. split; [reflexivity |].
    unfold calls. cbn [trace]. subst es.
    rewrite !brute_calls_app, !List.filter_app, brute_calls_stage_a_events,
      brute_calls_stage_events, filter_stage_a_events_call, filter_stage_events_call.
    split; reflexivity.
  - intros rc r1 r2 Hc H1 Hl1 H2 Hl2.
    destruct (fitBarrierModel_run robustCost_shape h t pp0 xd yd weights verbose curvefit dd
                vp0 vx vy vw px pl pt rest rb rc r1 r2
                Hp Hx Hy Hw Hd Hxy Hwf Ha Hb Hc H1 Hl1 H2 Hl2)
      as (l & es & s0 & sb & sc & sf & Hrun & Hes & _ & Hl & _).
    unfold run. rewrite Hrun. cbn [fst snd trace heap]. split; [| split].
    + eexists. split; [reflexivity |].
      rewrite lookup_app_r by (rewrite dd_written_length; lia).
      rewrite dd_written_length.
      replace (length h + 7 - length h)%nat with 7%nat by lia. exact Hl.
    + rewrite brute_calls_app, Hes, brute_calls_run_events. reflexivity.
    + unfold calls. cbn [trace]. rewrite List.filter_app, Hes, calls_run_events.
      reflexivity.
Qed.

(** ** Terminal output *)

(** C7, as the code has it.  Every event of a call is one that
    [allowed_event] admits at the given verbosity: a stage report only
    from level 2, the final report only at a level other than 0, so at
    [verbose = 0] no [print] statement of the module runs; the two Powell
    minimizations are requested with [disp=True] at every verbosity, and
    the grid searches with [disp=False].  In a call at [verbose = 0] in
    which scipy returns, what reaches the terminal is the convergence
    report of each of the two minimizations. *)
Theorem fitBarrierModel_output
    (robustCost_shape : forall x thr m, length (robustCost x thr m) = length x)
    (pp0 xd yd : loc) (weights : pyval) (curvefit : bool) (dd : pyval) :
  (forall (verbose : Z) (w : world),
      exists es,
        trace (snd (fitBarrierModel pp0 xd yd weights verbose curvefit dd w)) = trace w ++ es
        /\ Forall (allowed_event verbose) es
        /\ (verbose = 0%Z -> Forall (fun e => ~ is_print e) es)
        /\ (forall x0 method disp, In (Called (CallMinimize x0 method disp)) es -> disp = true)
        /\ (forall lo hi Ns disp, In (Called (CallBrute lo hi Ns disp)) es -> disp = false))
  /\ (forall h t vp0 vx vy vw px pl pt rest rb rc r1 r2,
         returning_run h pp0 xd yd weights dd curvefit vp0 vx vy vw px pl pt rest rb rc r1 r2 ->
         terminal (snd (fitBarrierModel pp0 xd yd weights 0 curvefit dd (World h t)))
         = terminal (World h t)
           ++ [Displayed (CallMinimize (rc :: pl :: rb :: rest) "Powell" true);
               Displayed (CallMinimize (res_x r1) "Powell" true)]).
Proof.
  split.
  - intros verbose w.
    destruct (fitBarrierModel_emits pp0 xd yd weights verbose curvefit dd w) as (es & E & Hall).
    exists es. split; [exact E |]. split; [exact Hall |].
    rewrite List.Forall_forall in Hall. split; [| split].
    + intros ->. apply List.Forall_forall. intros e He Hp.
      specialize (Hall e He). destruct e as [c | c | [v s0 s1 | s0 s1]]; simpl in Hp, Hall;
        try contradiction; lia.
    + intros x0 method disp Hin. apply (Hall _ Hin).
    + intros lo hi Ns disp Hin. apply (Hall _ Hin).
  - intros h t vp0 vx vy vw px pl pt rest rb rc r1 r2 Hrun.
    destruct (returning_run_runs robustCost_shape h t pp0 xd yd weights 0 dd curvefit
                vp0 vx vy vw px pl pt rest rb rc r1 r2 Hrun)
      as (l & s0 & sb & sc & sf & E & _).
    rewrite E. unfold terminal. cbn [snd trace].
    rewrite List.filter_app, terminal_run_events_quiet. reflexivity.
Qed.

(** ** The caller's objects *)

(** C8, as the code has it.  [barrierScore] leaves every object of the
    caller as it is.  [fitBarrierModel] leaves every object of the caller
    other than the dictionary [dd] as it is: the vectors it writes to are
    copies.  When [dd] is supplied and the call returns, [dd] holds, under
    ["pp"], the vector of stage (a), a new object, and, under ["weights"],
    the caller's own weights; the vector returned is a new object too. *)
Theorem caller_objects_kept
    (robustCost_shape : forall x thr m, length (robustCost x thr m) = length x)
    (pp0 xd yd : loc) (weights : pyval) (verbose : Z) (curvefit : bool) (dd : pyval) :
  (forall (pp : loc) (thr : R) (w : world) (l : loc),
      (l < length (heap w))%nat ->
      heap (snd (barrierScore_obj xd yd pp weights thr w)) !! l = heap w !! l)
  /\ (forall (w : world) (l : loc),
         (l < length (heap w))%nat ->
         dd <> VRef l ->
         heap (snd (fitBarrierModel pp0 xd yd weights verbose curvefit dd w)) !! l
         = heap w !! l)
  /\ (forall h t vp0 vx vy vw px pl pt rest rb rc r1 r2,
         returning_run h pp0 xd yd weights dd curvefit vp0 vx vy vw px pl pt rest rb rc r1 r2 ->
         exists (ret : loc) (w' : world),
           fitBarrierModel pp0 xd yd weights verbose curvefit dd (World h t) = (Ok ret, w')
           /\ (length h <= ret)%nat
           /\ heap w' !! ret = Some (OArray (res_x r2))
           /\ heap w' !! length h = Some (OArray (px :: pl :: pt :: rest))
           /\ forall d m,
                dd = VRef d -> h !! d = Some (ODict m) ->
                heap w' !! d
                = Some (ODict (<["weights" := weights]> (<["pp" := VRef (length h)]> m)))).
Proof.
  split; [| split].
  - intros pp thr w l Hl.
    destruct (frame_barrierScore_obj (length (heap w)) (fun _ => True) xd yd pp weights thr w)
      as (_ & Hkeep & _); [lia |].
    apply Hkeep; [exact Hl | exact I].
  - intros w l Hl Hdd.
    destruct (frame_fitBarrierModel (length (heap w)) pp0 xd yd weights verbose curvefit dd w)
      as (_ & Hkeep & _); [lia |].
    apply Hkeep; assumption.
  - intros h t vp0 vx vy vw px pl pt rest rb rc r1 r2 Hrun.
    destruct (returning_run_runs robustCost_shape h t pp0 xd yd weights verbose dd curvefit
                vp0 vx vy vw px pl pt rest rb rc r1 r2 Hrun)
      as (l & s0 & sb & sc & sf & E & Hl0 & Hl7).
    eexists _, _. split; [exact E |]. cbn [heap].
    assert (Hlen := dd_written_length h dd (length h + 0)%nat weights).
    split; [lia |]. split; [| split].
    + rewrite lookup_app_r by lia.
      replace (length h + 7 - length (dd_written h dd (length h + 0) weights))%nat
        with 7%nat by lia.
      exact Hl7.
    + rewrite lookup_app_r by lia.
      replace (length h - length (dd_written h dd (length h + 0) weights))%nat
        with 0%nat by lia.
      exact Hl0.
    + intros d m -> Hd. rewrite lookup_app_l.
      * unfold dd_written. rewrite Hd, Nat.add_0_r.
        apply list_lookup_insert_eq. eapply lookup_lt_Some. exact Hd.
      * rewrite Hlen. eapply lookup_lt_Some. exact Hd.
Qed.


(** ** Arrays that do not fit, in the driver *)

Lemma barrierScore_mismatch_raises (xd yd pp : np.ndarray) (weights : option np.ndarray)
    (thr : R) :
  length xd <> length yd -> length xd <> 1%nat -> length yd <> 1%nat ->
  raises (barrierScore xd yd pp weights thr).
Proof.
  intros Hne Hx Hy. unfold barrierScore.
  destruct pp as [| a [| b [| c rest]]]; try (eexists; reflexivity).
  rewrite barrierModel_packed. cbn [rbind]. unfold np.subtract.
  rewrite broadcast_mismatch; rewrite ?line95_length; try assumption.
  eexists. reflexivity.
Qed.

Lemma initial_block_cases (h l : list pyobj) (tr : list event) (pp0 xd yd : loc)
    (curvefit : bool) (vp0 vx vy : np.ndarray) :
  h !! pp0 = Some (OArray vp0) ->
  h !! xd = Some (OArray vx) ->
  h !! yd = Some (OArray vy) ->
  (exists vp tr',
      (if curvefit
       then (do! x := read_array xd in
             do! y := read_array yd in
             do! p0 := read_array pp0 in
             do! popt := call_curve_fit x y p0 in
             alloc (OArray popt))%M
       else copy pp0) (World (h ++ l) tr)
      = (Ok (length h + length l)%nat, World (h ++ (l ++ [OArray vp])) tr'))
  \/ (exists e w',
         (if curvefit
          then (do! x := read_array xd in
                do! y := read_array yd in
                do! p0 := read_array pp0 in
                do! popt := call_curve_fit x y p0 in
                alloc (OArray popt))%M
          else copy pp0) (World (h ++ l) tr)
         = (Raise e, w')).
Proof.
  intros Hp Hx Hy.
  destruct (stage_a curvefit vx vy vp0) as [vp | e] eqn:Ea.
  - left. eexists _, _. eapply initial_block_run; eassumption.
  - right. unfold stage_a in Ea. destruct curvefit; [| discriminate].
    rewrite (mbind_Ok _ _ _ _ _ (read_caller h l tr xd vx Hx)).
    rewrite (mbind_Ok _ _ _ _ _ (read_caller h l tr yd vy Hy)).
    rewrite (mbind_Ok _ _ _ _ _ (read_caller h l tr pp0 vp0 Hp)).
    eexists _, _. erewrite mbind_Raise; [reflexivity |].
    unfold call_curve_fit. erewrite mbind_Ok by reflexivity.
    unfold lift. rewrite Ea. reflexivity.
Qed.

Lemma call_brute_cases ff (lo hi : npfloat) (Ns : nat) (hp : list pyobj) (tr : list event) :
  (exists r, call_brute ff lo hi Ns false (World hp tr)
             = (Ok r, World hp (tr ++ [Called (CallBrute lo hi Ns false)])))
  \/ (exists e w', call_brute ff lo hi Ns false (World hp tr) = (Raise e, w')).
Proof.
  destruct (brute (apply_in (World hp (tr ++ [Called (CallBrute lo hi Ns false)])) ff)
              (lo, hi) Ns false) as [r | e] eqn:E.
  - left. exists r. eapply call_brute_run; [reflexivity | exact E].
  - right. eexists _, _. unfold call_brute. erewrite mbind_Ok by reflexivity.
    erewrite mbind_Raise; [reflexivity |].
    cbv beta. simpl heap. simpl trace. rewrite E. reflexivity.
Qed.

Lemma fitBarrierModel_mismatch_raises
    (h : list pyobj) (t : list event) (pp0 xd yd : loc) (weights : pyval) (verbose : Z)
    (curvefit : bool) (dd : pyval) (vp0 vx vy : np.ndarray) (vw : option np.ndarray) :
  h !! pp0 = Some (OArray vp0) ->
  h !! xd = Some (OArray vx) ->
  h !! yd = Some (OArray vy) ->
  weights_at h weights vw ->
  length vx <> length vy -> length vx <> 1%nat -> length vy <> 1%nat ->
  exists e w',
    fitBarrierModel pp0 xd yd weights verbose curvefit dd (World h t) = (Raise e, w').
Proof.
  intros Hp Hx Hy Hw Hne Hlx Hly.
  replace (World h t) with (World (h ++ []) t) by (rewrite app_nil_r; reflexivity).
  unfold fitBarrierModel.
  destruct (initial_block_cases h [] t pp0 xd yd curvefit vp0 vx vy Hp Hx Hy)
    as [(vp & tr' & Ea) | (e & w' & Ea)].
  2:{ eexists _, _. erewrite mbind_Raise by exact Ea. reflexivity. }
  run_step ltac:(exact Ea).
  run_step ltac:(apply copy_local; reflexivity).
  match goal with
  | |- context [mbind (call_brute ?ff ?lo ?hi ?Ns false) _ ?w] =>
      destruct (call_brute_cases ff lo hi Ns (heap w) (trace w)) as [(rb & Eb) | (e & w' & Eb)]
  end.
  2:{ eexists _, _. erewrite mbind_Raise by exact Eb. reflexivity. }
  run_step ltac:(exact Eb).
  destruct (Nat.ltb_spec 2 (length vp)) as [Hlen | Hlen].
  - run_step ltac:(eapply setitem_local; [reflexivity | exact Hlen | cbn; reflexivity]).
    destruct (barrierScore_mismatch_raises vx vy vp vw thr_default Hne Hlx Hly) as [e He].
    eexists _, _. erewrite mbind_Raise; [reflexivity |].
    erewrite barrierScore_obj_local; [| eassumption | eassumption | eassumption | reflexivity].
    rewrite He. reflexivity.
  - eexists _, _. erewrite mbind_Raise; [reflexivity |].
    unfold setitem. cbn [heap]. rewrite (lookup_local h _ 1).
    cbn [lookup list_lookup].
    destruct (Nat.ltb_spec 2 (length vp)) as [Hlt | _]; [lia |]. reflexivity.
Qed.

(** *** Further results on the model and the scorer *)



Lemma ueV2Hz_pos : 0 < ueV2Hz.
Proof.
  unfold ueV2Hz, scipy_constants.e, scipy_constants.h. lra.
Qed.

Lemma line95_reals (x : list R) (x0 leverarm t : R) :
  line95 (np.of_reals x) (Fin x0) (Fin leverarm) (Fin t)
  = np.of_reals (map (fun xi => sqrt (((xi - x0) * leverarm) ^ 2 + 4 * t ^ 2) * ueV2Hz) x).
Proof.
  rewrite barrierModel_line95. unfold np.of_reals. now rewrite map_map.
Qed.

Lemma sqrt_4_sqr (t : R) : sqrt (4 * t ^ 2) = 2 * Rabs t.
Proof.
  replace (4 * t ^ 2) with ((2 * Rabs t) * (2 * Rabs t)).
  - apply sqrt_square. pose proof (Rabs_pos t). lra.
  - unfold Rabs. destruct (Rcase_abs t); ring.
Qed.

Lemma model_value_min (d leverarm t : R) :
  2 * Rabs t * ueV2Hz <= sqrt ((d * leverarm) ^ 2 + 4 * t ^ 2) * ueV2Hz.
Proof.
  apply Rmult_le_compat_r; [left; apply ueV2Hz_pos |].
  rewrite <- sqrt_4_sqr. apply sqrt_le_1_alt. nra.
Qed.

Lemma model_value_monotone (d1 d2 leverarm t : R) :
  Rabs d1 <= Rabs d2 ->
  sqrt ((d1 * leverarm) ^ 2 + 4 * t ^ 2) * ueV2Hz
  <= sqrt ((d2 * leverarm) ^ 2 + 4 * t ^ 2) * ueV2Hz.
Proof.
  intros H. apply Rmult_le_compat_r; [left; apply ueV2Hz_pos |].
  apply sqrt_le_1_alt.
  assert (d1 ^ 2 <= d2 ^ 2).
  { replace (d1 ^ 2) with (Rabs d1 * Rabs d1)
      by (unfold Rabs; destruct (Rcase_abs d1); ring).
    replace (d2 ^ 2) with (Rabs d2 * Rabs d2)
      by (unfold Rabs; destruct (Rcase_abs d2); ring).
    pose proof (Rabs_pos d1). nra. }
  nra.
Qed.

(** X1 (barrierModel, lines 90-94).  Parameters after the third are
    ignored, whether they are given positionally or in one sequence; a
    sequence of fewer than three parameters raises [IndexError], and so
    do zero or two positional parameters; one positional scalar raises
    as well. *)
Theorem barrierModel_parameter_count (x : np.ndarray) :
  (forall a b c more,
      barrierModel x (Sequence (a :: b :: c :: more)) = barrierModel x (Sequence [a; b; c])
      /\ barrierModel x (Positional (a :: b :: c :: more))
         = barrierModel x (Positional [a; b; c]))
  /\ (forall pp, (length pp < 3)%nat -> barrierModel x (Sequence pp) = Raise IndexError)
  /\ barrierModel x (Positional []) = Raise IndexError
  /\ (forall a b, barrierModel x (Positional [a; b]) = Raise IndexError)
  /\ (forall a, raises (barrierModel x (Positional [a]))).
Proof.
  repeat split.
  - intros pp H. destruct pp as [| a [| b [| c pp]]]; simpl in H; try lia; reflexivity.
  - intros a. eexists. reflexivity.
Qed.

(** X2 (barrierModel, line 95).  The model is a V with a rounded tip at
    [x0]: no value is below [2 |t| ueV2Hz], which is the value at
    [x = x0]; the values at [x0 + d] and [x0 - d] are equal; and the
    value grows with the distance from [x0]. *)
Theorem barrierModel_v_shape (x0 leverarm t : R) :
  let pp := Sequence (np.of_reals [x0; leverarm; t]) in
  0 < ueV2Hz
  /\ (forall x : list R, exists y : list R,
         barrierModel (np.of_reals x) pp = Ok (np.of_reals y)
         /\ length y = length x
         /\ Forall (fun yi => 2 * Rabs t * ueV2Hz <= yi) y)
  /\ barrierModel (np.of_reals [x0]) pp = Ok (np.of_reals [2 * Rabs t * ueV2Hz])
  /\ (forall ds : list R,
         barrierModel (np.of_reals (map (fun d => x0 + d) ds)) pp
         = barrierModel (np.of_reals (map (fun d => x0 - d) ds)) pp)
  /\ (forall d1 d2 : R, Rabs d1 <= Rabs d2 ->
         exists y1 y2,
           barrierModel (np.of_reals [x0 + d1]) pp = Ok (np.of_reals [y1])
           /\ barrierModel (np.of_reals [x0 + d2]) pp = Ok (np.of_reals [y2])
           /\ y1 <= y2).
Proof.
  intros pp. unfold pp. split; [apply ueV2Hz_pos |]. split; [| split; [| split]].
  - intros x. eexists. rewrite model_of_reals. split; [reflexivity |].
    split; [now rewrite length_map |].
    apply Forall_map, Forall_forall. intros xi _. apply model_value_min.
  - rewrite model_of_reals. cbn [map]. do 3 f_equal.
    replace (((x0 - x0) * leverarm) ^ 2 + 4 * t ^ 2) with (4 * t ^ 2) by ring.
    now rewrite sqrt_4_sqr.
  - intros ds. rewrite !model_of_reals, !map_map. do 2 f_equal.
    apply map_ext. intros d. do 2 f_equal. ring.
  - intros d1 d2 H. do 2 eexists. rewrite !model_of_reals. cbn [map].
    split; [reflexivity |]. split; [reflexivity |].
    replace (x0 + d1 - x0) with d1 by ring. replace (x0 + d2 - x0) with d2 by ring.
    now apply model_value_monotone.
Qed.

Lemma line95_sign (x : np.ndarray) (x0 : npfloat) (leverarm t : R) :
  line95 x x0 (Fin (- leverarm)) (Fin t) = line95 x x0 (Fin leverarm) (Fin t)
  /\ line95 x x0 (Fin leverarm) (Fin (- t)) = line95 x x0 (Fin leverarm) (Fin t).
Proof.
  unfold line95, np.scale, np.sqrt, np.add_scalar, np.power, np.mul_scalar, np.sub_scalar.
  rewrite !map_map. split.
  - apply map_ext. intros xi. do 2 f_equal.
    destruct (nf_sub xi x0) as [r |]; cbn; [| reflexivity].
    do 2 f_equal. ring.
  - apply map_ext. intros xi. do 2 f_equal.
    destruct (nf_sub xi x0) as [r |]; cbn; [| reflexivity].
    do 2 f_equal. ring.
Qed.

(** X3 (barrierModel, line 95).  The model does not see the sign of the
    lever arm or of the tunnel coupling: negating either gives the same
    values, also where these are nan. *)
Theorem barrierModel_sign_blind (x : np.ndarray) (x0 : npfloat) (leverarm t : R)
    (more : list npfloat) :
  barrierModel x (Sequence (x0 :: Fin (- leverarm) :: Fin t :: more))
  = barrierModel x (Sequence (x0 :: Fin leverarm :: Fin t :: more))
  /\ barrierModel x (Sequence (x0 :: Fin leverarm :: Fin (- t) :: more))
     = barrierModel x (Sequence (x0 :: Fin leverarm :: Fin t :: more))
  /\ barrierModel x (Positional [x0; Fin (- leverarm); Fin (- t)])
     = barrierModel x (Positional [x0; Fin leverarm; Fin t]).
Proof.
  destruct (line95_sign x x0 leverarm t) as [Hl Ht].
  destruct (line95_sign x x0 (- leverarm) t) as [_ Hlt].
  rewrite !barrierModel_packed. repeat split.
  - now rewrite Hl.
  - now rewrite Ht.
  - cbn. now rewrite Hlt, Hl.
Qed.

Lemma barrierModel_length (x : np.ndarray) (p : pargs) (y : np.ndarray) :
  barrierModel x p = Ok y -> length y = length x.
Proof.
  unfold barrierModel. intros H.
  destruct (match p with
            | Sequence pp => Ok pp
            | Positional [_] => Raise TypeError
            | Positional ps => Ok ps
            end) as [q | e]; cbn [rbind] in H; [| discriminate].
  destruct q as [| a [| b [| c q]]]; cbn in H; try discriminate.
  injection H as <-. apply line95_length.
Qed.

Lemma broadcast_length f (a b d : np.ndarray) :
  np.broadcast f a b = Ok d ->
  length d = length a \/ (length a = 1%nat /\ length d = length b).
Proof.
  unfold np.broadcast. destruct (length a =? length b)%nat eqn:E.
  - apply Nat.eqb_eq in E. intros [= <-]. left. now apply zip_with_length_same.
  - destruct a as [| a0 [| a1 a]].
    + destruct b as [| b0 [| b1 b]]; intros [= <-]; left; reflexivity.
    + intros [= <-]. right. split; [reflexivity | apply length_map].
    + destruct b as [| b0 [| b1 b]]; intros [= <-]. left.
      cbn [length]. now rewrite ?length_map.
Qed.

Lemma nf_mul_1_r (a : npfloat) : nf_mul a (Fin 1) = a.
Proof. destruct a; cbn; [f_equal; ring | reflexivity]. Qed.

Lemma multiply_ones (sc : np.ndarray) (n : nat) :
  length sc = n \/ n = 1%nat ->
  np.multiply sc (replicate n (Fin 1)) = Ok sc.
Proof.
  intros H.
  assert (Hmap : map (fun x => nf_mul x (Fin 1)) sc = sc).
  { erewrite map_ext; [apply map_id | intros; apply nf_mul_1_r]. }
  destruct (Nat.eq_dec (length sc) n) as [<- | Hne].
  - unfold np.multiply. rewrite broadcast_same by now rewrite length_replicate.
    f_equal. rewrite zip_with_swap, zip_with_replicate_l.
    erewrite map_ext; [apply map_id | intros; cbv beta; apply nf_mul_1_r].
  - destruct H as [H | ->]; [contradiction |].
    unfold np.multiply, np.broadcast. cbn [replicate length].
    destruct (length sc =? 1)%nat eqn:E; [apply Nat.eqb_eq in E; contradiction |].
    destruct sc as [| a0 [| a1 sc]]; [reflexivity | contradiction | now rewrite Hmap].
Qed.

Lemma zip_with_replicate_r {A B C : Type} (f : A -> B -> C) (a : list A) (y : B) :
  zip_with f a (replicate (length a) y) = map (fun x => f x y) a.
Proof. now rewrite zip_with_swap, zip_with_replicate_l. Qed.

Lemma broadcast_single_r f (a : np.ndarray) (y : npfloat) :
  np.broadcast f a [y] = np.broadcast f a (replicate (length a) y).
Proof.
  rewrite (broadcast_same f a (replicate (length a) y)) by now rewrite length_replicate.
  rewrite zip_with_replicate_r.
  unfold np.broadcast. cbn [length].
  destruct a as [| a0 [| a1 a]]; reflexivity.
Qed.

(** X4 (barrierScore, lines 132-135).  The score depends on the
    parameters only through the model curve, so it is the same for a
    lever arm or a tunnel coupling of either sign, whatever the data,
    the weights and the threshold, also when the call raises: a fit
    cannot tell the signs apart. *)
Theorem barrierScore_sign_blind (xd yd : np.ndarray) (x0 : npfloat) (leverarm t : R)
    (more : list npfloat) (weights : option np.ndarray) (thr : R) :
  barrierScore xd yd (x0 :: Fin (- leverarm) :: Fin t :: more) weights thr
  = barrierScore xd yd (x0 :: Fin leverarm :: Fin t :: more) weights thr
  /\ barrierScore xd yd (x0 :: Fin leverarm :: Fin (- t) :: more) weights thr
     = barrierScore xd yd (x0 :: Fin leverarm :: Fin t :: more) weights thr.
Proof.
  destruct (line95_sign xd x0 leverarm t) as [Hl Ht].
  unfold barrierScore. rewrite !barrierModel_packed, Hl, Ht. split; reflexivity.
Qed.

(** X5 (barrierScore, lines 139-140).  Leaving the weights out is the
    same as weighting every sample by one. *)
Theorem barrierScore_unit_weights
    (robustCost_shape : forall x thr m, length (robustCost x thr m) = length x)
    (xd yd pp : np.ndarray) (thr : R) :
  barrierScore xd yd pp (Some (replicate (length xd) (Fin 1))) thr
  = barrierScore xd yd pp None thr.
Proof.
  unfold barrierScore.
  destruct (barrierModel xd (Sequence pp)) as [model | e] eqn:Hm; [| reflexivity].
  apply barrierModel_length in Hm. cbn [rbind].
  destruct (np.subtract model yd) as [d | e] eqn:Hd; [| reflexivity].
  apply broadcast_length in Hd. cbn [rbind].
  destruct (py_truediv thr thr) as [thr1 | e]; [| reflexivity]. cbn [rbind].
  rewrite multiply_ones; [reflexivity |].
  unfold np.scale, np.sqrt, np.over, np.abs.
  rewrite length_map, length_map, robustCost_shape, !length_map.
  destruct Hd as [Hd | [H1 Hd]]; [left; congruence | right; congruence].
Qed.

(** X6 (barrierScore, line 135).  A response array of one element is
    not an error: it is broadcast against the model curve, and the
    score is that of the array repeating the element once per
    coordinate. *)
Theorem barrierScore_single_response (xd pp : np.ndarray) (y : npfloat)
    (weights : option np.ndarray) (thr : R) :
  barrierScore xd [y] pp weights thr
  = barrierScore xd (replicate (length xd) y) pp weights thr.
Proof.
  unfold barrierScore.
  destruct (barrierModel xd (Sequence pp)) as [model | e] eqn:Hm; [| reflexivity].
  apply barrierModel_length in Hm. cbn [rbind].
  unfold np.subtract. now rewrite broadcast_single_r, Hm.
Qed.

(** X7 (barrierScore, lines 139-140).  Weights whose length is neither
    that of the data nor one make the call raise numpy's broadcasting
    [ValueError]. *)
Theorem barrierScore_weights_mismatch
    (robustCost_shape : forall x thr m, length (robustCost x thr m) = length x)
    (xd yd pp w : np.ndarray) (thr : R) :
  length xd = length yd ->
  (3 <= length pp)%nat ->
  thr <> 0 ->
  length w <> length xd -> length w <> 1%nat -> length xd <> 1%nat ->
  barrierScore xd yd pp (Some w) thr = Raise ValueError.
Proof.
  intros Hxy Hpp Hthr Hw Hw1 Hx1.
  destruct (barrierModel_returns xd pp Hpp) as (model & Hm & Hlen).
  unfold barrierScore. rewrite Hm. cbn [rbind].
  unfold np.subtract. rewrite broadcast_same by congruence. cbn [rbind].
  rewrite py_truediv_self by exact Hthr. cbn [rbind].
  unfold np.multiply. rewrite broadcast_mismatch; [reflexivity | | | assumption];
    unfold np.scale, np.sqrt, np.over, np.abs;
    rewrite length_map, length_map, robustCost_shape, !length_map, zip_with_length_same
      by congruence; congruence.
Qed.

(** *** Runs that differ in prints only *)

Lemma stable_any : stable any_store.
Proof. split; intros; exact I. Qed.

Lemma stable_array_at (l : loc) : stable (array_at l).
Proof.
  split.
  - intros h o [a Ha]. exists a. now apply lookup_app_l_Some.
  - intros h l' a' [a Ha]. destruct (Nat.eq_dec l' l) as [-> | Hne].
    + exists a'. rewrite list_lookup_insert_eq; [reflexivity |].
      now apply lookup_lt_Some in Ha.
    + exists a. now rewrite list_lookup_insert_ne.
Qed.

Lemma same_but_prints_refl (w : world) : same_but_prints w w.
Proof. split; reflexivity. Qed.

Lemma sim_bind {A B : Type} (P Q T : list pyobj -> Prop) (m1 m2 : M A) (k1 k2 : A -> M B) :
  sim P Q m1 m2 -> (forall a, sim Q T (k1 a) (k2 a)) ->
  sim P T (mbind m1 k1) (mbind m2 k2).
Proof.
  intros Hm Hk w1 w2 Hw HP. destruct (Hm w1 w2 Hw HP) as (Hfst & Hw' & HQ).
  unfold mbind.
  destruct (m1 w1) as [[a | e] w1'], (m2 w2) as [[a' | e'] w2'];
    cbn [fst snd] in *; try discriminate.
  - injection Hfst as <-. apply (Hk a w1' w2' Hw' (HQ a eq_refl)).
  - injection Hfst as <-. split; [reflexivity |]. split; [exact Hw' | discriminate].
Qed.

Lemma sim_to_any {A : Type} (P Q : list pyobj -> Prop) (m1 m2 : M A) :
  sim P Q m1 m2 -> sim P any_store m1 m2.
Proof.
  intros H w1 w2 Hw HP. destruct (H w1 w2 Hw HP) as (Hfst & Hw' & _).
  split; [exact Hfst |]. split; [exact Hw' |]. intros; exact I.
Qed.

(** A computation that reads the store only, run on both sides. *)
Lemma sim_reader {A : Type} (P : list pyobj -> Prop) (f : list pyobj -> result A) :
  sim P P (fun w => (f (heap w), w)) (fun w => (f (heap w), w)).
Proof.
  intros [h1 t1] [h2 t2] [Hh Ht] HP. cbn in Hh. subst h2. cbv beta. cbn [fst snd heap] in *.
  split; [reflexivity |]. split; [split; [reflexivity | exact Ht] |]. intros; assumption.
Qed.

Lemma sim_mret {A : Type} (P : list pyobj -> Prop) (a : A) : sim P P (mret a) (mret a).
Proof. apply (sim_reader P (fun _ => Ok a)). Qed.

Lemma sim_lift {A : Type} (P : list pyobj -> Prop) (r : result A) : sim P P (lift r) (lift r).
Proof. apply (sim_reader P (fun _ => r)). Qed.

Lemma sim_read_array (P : list pyobj -> Prop) (l : loc) :
  sim P P (read_array l) (read_array l).
Proof.
  apply (sim_reader P (fun h => match h !! l with
                                 | Some (OArray a) => Ok a
                                 | _ => Raise TypeError
                                 end)) || idtac.
  intros [h1 t1] [h2 t2] [Hh Ht] HP. cbn in Hh. subst h2. unfold read_array.
  cbn [heap] in *.
  destruct (h1 !! l) as [[a | d] |]; cbn [fst snd heap];
    (split; [reflexivity |]; split; [split; [reflexivity | exact Ht] |]; intros; assumption).
Qed.

Lemma unprinted_snoc (h h' : list pyobj) (tr tr' : list event) (e : event) :
  unprinted (World h tr) = unprinted (World h' tr') ->
  unprinted (World h (tr ++ [e])) = unprinted (World h' (tr' ++ [e])).
Proof. unfold unprinted. cbn [trace]. rewrite !List.filter_app. now intros ->. Qed.

Lemma sim_emit (P : list pyobj -> Prop) (e : event) : sim P P (emit e) (emit e).
Proof.
  intros [h1 t1] [h2 t2] [Hh Ht] HP. cbn in Hh. subst h2. unfold emit. cbn [fst snd heap trace].
  split; [reflexivity |]. split; [| intros; assumption].
  split; [reflexivity | now apply unprinted_snoc].
Qed.

Lemma sim_alloc (P : list pyobj -> Prop) (o : pyobj) :
  stable P -> sim P P (alloc o) (alloc o).
Proof.
  intros [Happ _] [h1 t1] [h2 t2] [Hh Ht] HP. cbn in Hh. subst h2.
  unfold alloc. cbn [fst snd heap trace] in *.
  split; [reflexivity |]. split; [split; [reflexivity | exact Ht] |].
  intros _ _. now apply Happ.
Qed.

Lemma sim_setitem (P : list pyobj -> Prop) (l : loc) (i : nat) (v : npfloat) :
  sim P (array_at l) (setitem l i v) (setitem l i v).
Proof.
  intros [h1 t1] [h2 t2] [Hh Ht] HP. cbn in Hh. subst h2.
  unfold setitem. cbn [fst snd heap trace] in *.
  destruct (h1 !! l) as [[a | d] |] eqn:E; cbn [fst snd heap];
    try (split; [reflexivity |]; split; [split; [reflexivity | exact Ht] |]; discriminate).
  destruct (i <? length a)%nat; cbn [fst snd heap];
    (split; [reflexivity |]; split; [split; [reflexivity | exact Ht] |]);
    [| discriminate].
  intros _ _. eexists. rewrite list_lookup_insert_eq; [reflexivity |].
  now apply lookup_lt_Some in E.
Qed.

Lemma sim_setitem_dict (P : list pyobj -> Prop) (d : loc) (k : string) (v : pyval) :
  sim P any_store (setitem_dict d k v) (setitem_dict d k v).
Proof.
  intros [h1 t1] [h2 t2] [Hh Ht] HP. cbn in Hh. subst h2.
  unfold setitem_dict. cbn [fst snd heap trace] in *.
  destruct (h1 !! d) as [[a | m] |]; cbn [fst snd heap];
    (split; [reflexivity |]; split; [split; [reflexivity | exact Ht] |]; intros; exact I).
Qed.

(** A routine of scipy that is handed a callable of the module. *)
Lemma sim_oracle {A B C : Type} (P : list pyobj -> Prop) (f : A -> M B)
    (o : (A -> result B) -> result C) :
  (forall a, sim any_store any_store (f a) (f a)) ->
  sim P P (fun w => (o (apply_in w f), w)) (fun w => (o (apply_in w f), w)).
Proof.
  intros Hf w1 w2 Hw HP. cbv beta. cbn [fst snd].
  assert (E : apply_in w1 f = apply_in w2 f).
  { apply functional_extensionality. intros a. unfold apply_in.
    apply (Hf a w1 w2 Hw I). }
  rewrite E. split; [reflexivity |]. split; [exact Hw |]. intros; assumption.
Qed.

Ltac sim_stable := first [apply stable_any | apply stable_array_at | assumption].

Ltac sim_prim :=
  first [ apply sim_mret | apply sim_lift | apply sim_emit | apply sim_read_array
        | apply sim_alloc; sim_stable | apply sim_setitem | apply sim_setitem_dict ].

Ltac sim_steps_with prims :=
  repeat first
    [ match goal with
      | |- sim _ _ (mbind _ _) (mbind _ _) => eapply sim_bind; [| intros ?]
      end
    | sim_prim
    | prims
    | eapply sim_to_any; first [sim_prim | prims] ].

Ltac sim_steps := sim_steps_with fail.

Lemma sim_copy (P : list pyobj -> Prop) (l : loc) : stable P -> sim P P (copy l) (copy l).
Proof. intros HP. unfold copy. sim_steps. Qed.

Lemma sim_read_optional (P : list pyobj -> Prop) (v : pyval) :
  sim P P (read_optional v) (read_optional v).
Proof. destruct v; unfold read_optional; sim_steps. Qed.

Lemma sim_barrierScore_obj (P : list pyobj -> Prop) (xd yd pp : loc) (weights : pyval)
    (thr : R) :
  stable P ->
  sim P P (barrierScore_obj xd yd pp weights thr) (barrierScore_obj xd yd pp weights thr).
Proof.
  intros HP. unfold barrierScore_obj.
  sim_steps_with ltac:(first [apply sim_copy; exact HP | apply sim_read_optional]).
Qed.

Lemma sim_call_curve_fit (P : list pyobj -> Prop) (x y p0 : np.ndarray) :
  sim P P (call_curve_fit x y p0) (call_curve_fit x y p0).
Proof. unfold call_curve_fit. sim_steps. Qed.

Lemma sim_call_brute (P : list pyobj -> Prop) ff lo hi Ns disp :
  (forall x, sim any_store any_store (ff x) (ff x)) ->
  sim P P (call_brute ff lo hi Ns disp) (call_brute ff lo hi Ns disp).
Proof.
  intros Hff. unfold call_brute.
  eapply sim_bind; [apply sim_emit | intros u0].
  eapply sim_bind; [apply (sim_oracle P ff (fun F => brute F (lo, hi) Ns disp)); exact Hff | intros r].
  eapply sim_bind; [destruct disp; sim_steps | intros u]. sim_steps.
Qed.

Lemma sim_call_minimize (P : list pyobj -> Prop) ff x0 method disp :
  (forall x, sim any_store any_store (ff x) (ff x)) ->
  sim P P (call_minimize ff x0 method disp) (call_minimize ff x0 method disp).
Proof.
  intros Hff. unfold call_minimize.
  eapply sim_bind; [apply sim_read_array | intros v0].
  eapply sim_bind; [apply sim_emit | intros u0].
  eapply sim_bind.
  { apply (sim_oracle P (fun v => (do! x := alloc (OArray v) in ff x)%M)
             (fun F => minimize F v0 method disp)).
    intros v. eapply sim_bind; [apply sim_alloc, stable_any | intros x; apply Hff]. }
  intros r. eapply sim_bind; [destruct disp; sim_steps | intros u]. sim_steps.
Qed.

Lemma sim_ff_tunnel (xd yd : loc) (weights : pyval) (pp : loc) (x : npfloat) :
  sim any_store any_store (ff_tunnel xd yd weights pp x) (ff_tunnel xd yd weights pp x).
Proof. unfold ff_tunnel. sim_steps_with ltac:(apply sim_barrierScore_obj, stable_any). Qed.

Lemma sim_ff_offset (xd yd : loc) (weights : pyval) (pp ppx : loc) (x : npfloat) :
  sim any_store any_store (ff_offset xd yd weights pp ppx x)
    (ff_offset xd yd weights pp ppx x).
Proof. unfold ff_offset. sim_steps_with ltac:(apply sim_barrierScore_obj, stable_any). Qed.

Lemma sim_ff_full (xd yd : loc) (weights : pyval) (x : loc) :
  sim any_store any_store (ff_full xd yd weights x) (ff_full xd yd weights x).
Proof. apply sim_barrierScore_obj, stable_any. Qed.

(** The stage report prints or not, and changes nothing else: by
    line 218 [ppx] is an array. *)
Lemma sim_stage_report (v1 v2 : Z) (ppx : loc) (sc0 sc : npfloat) :
  sim (array_at ppx) (array_at ppx)
    (stage_report v1 ppx sc0 sc) (stage_report v2 ppx sc0 sc).
Proof.
  intros [h1 t1] [h2 t2] [Hh Ht] [a Ha]. cbn in Hh. subst h2. cbn [heap] in Ha.
  assert (Hrun : forall v t,
             exists t', stage_report v ppx sc0 sc (World h1 t) = (Ok tt, World h1 t')
                        /\ unprinted (World h1 t') = unprinted (World h1 t)).
  { intros v t. unfold stage_report. destruct (2 <=? v)%Z.
    - unfold mbind, read_array, emit. cbn [heap trace]. rewrite Ha.
      eexists. split; [reflexivity |].
      unfold unprinted. cbn [trace]. rewrite List.filter_app. cbn. apply app_nil_r.
    - eexists. split; reflexivity. }
  destruct (Hrun v1 t1) as (t1' & -> & E1). destruct (Hrun v2 t2) as (t2' & -> & E2).
  cbn [fst snd heap]. split; [reflexivity |]. split.
  - split; [reflexivity |]. rewrite E1, E2. exact Ht.
  - intros _ _. now exists a.
Qed.

Lemma sim_final_report (P : list pyobj -> Prop) (v1 v2 : Z) (sc0 sc : npfloat) :
  sim P P
    (if (v1 =? 0)%Z then mret tt else emit (Printed (FinalReport sc0 sc)))
    (if (v2 =? 0)%Z then mret tt else emit (Printed (FinalReport sc0 sc))).
Proof.
  intros [h1 t1] [h2 t2] [Hh Ht] HP. cbn in Hh. subst h2.
  assert (Hrun : forall (v : Z) t,
             exists t', (if (v =? 0)%Z then mret tt else emit (Printed (FinalReport sc0 sc)))
                          (World h1 t) = (Ok tt, World h1 t')
                        /\ unprinted (World h1 t') = unprinted (World h1 t)).
  { intros v t. destruct (v =? 0)%Z.
    - eexists. split; reflexivity.
    - eexists. split; [reflexivity |].
      unfold unprinted. cbn [trace]. rewrite List.filter_app. cbn. apply app_nil_r. }
  destruct (Hrun v1 t1) as (t1' & -> & E1). destruct (Hrun v2 t2) as (t2' & -> & E2).
  cbn [fst snd heap]. split; [reflexivity |]. split.
  - split; [reflexivity |]. rewrite E1, E2. exact Ht.
  - intros _ _. exact HP.
Qed.

Lemma sim_fitBarrierModel (pp0 xd yd : loc) (weights : pyval) (v1 v2 : Z)
    (curvefit : bool) (dd : pyval) :
  sim any_store any_store
    (fitBarrierModel pp0 xd yd weights v1 curvefit dd)
    (fitBarrierModel pp0 xd yd weights v2 curvefit dd).
Proof.
  unfold fitBarrierModel.
  eapply sim_bind.
  { destruct curvefit.
    - sim_steps_with ltac:(apply sim_call_curve_fit).
    - apply sim_copy, stable_any. }
  intros pp. eapply sim_bind; [apply sim_copy, stable_any | intros ppx].
  eapply sim_bind; [apply sim_call_brute; intros x; apply sim_ff_tunnel | intros r].
  eapply sim_bind; [apply sim_setitem | intros u].
  eapply sim_bind; [apply sim_barrierScore_obj, stable_array_at | intros sc0].
  eapply sim_bind; [apply sim_barrierScore_obj, stable_array_at | intros sc].
  eapply sim_bind; [apply sim_stage_report | intros u1].
  eapply sim_bind; [apply sim_read_array | intros p].
  eapply sim_bind; [apply sim_lift | intros p0].
  eapply sim_bind; [apply sim_call_brute; intros x; apply sim_ff_offset | intros r'].
  eapply sim_bind; [apply sim_setitem | intros u2].
  eapply sim_bind; [apply sim_barrierScore_obj, stable_array_at | intros sc0'].
  eapply sim_bind; [apply sim_barrierScore_obj, stable_array_at | intros sc'].
  eapply sim_bind; [apply sim_stage_report | intros u3].
  eapply sim_bind; [apply sim_call_minimize; intros x; apply sim_ff_full | intros r1].
  eapply sim_bind; [apply sim_alloc, stable_array_at | intros ppx1].
  eapply sim_bind; [apply sim_call_minimize; intros x; apply sim_ff_full | intros r2].
  eapply sim_bind; [apply sim_alloc, stable_array_at | intros ppx2].
  eapply sim_bind; [apply sim_barrierScore_obj, stable_array_at | intros sc0''].
  eapply sim_bind; [apply sim_barrierScore_obj, stable_array_at | intros sc''].
  eapply sim_bind; [apply sim_final_report | intros u4].
  eapply sim_bind; [| intros u5; eapply sim_to_any; apply sim_mret].
  destruct dd as [| d]; [eapply sim_to_any; apply sim_mret |].
  sim_steps.
Qed.

(** X8 (fitBarrierModel, lines 217-218, 227-228, 251-252).  The
    verbosity changes nothing but the print statements of the module:
    two calls that differ in [verbose] only have the same outcome (the
    same returned object or the same exception), leave the same store
    and make the same calls into scipy, in every run. *)
Theorem verbose_only_prints (pp0 xd yd : loc) (weights : pyval) (v1 v2 : Z)
    (curvefit : bool) (dd : pyval) (w : world) :
  let run1 := fitBarrierModel pp0 xd yd weights v1 curvefit dd w in
  let run2 := fitBarrierModel pp0 xd yd weights v2 curvefit dd w in
  fst run1 = fst run2
  /\ heap (snd run1) = heap (snd run2)
  /\ unprinted (snd run1) = unprinted (snd run2)
  /\ calls (snd run1) = calls (snd run2).
Proof.
  intros run1 run2.
  destruct (sim_fitBarrierModel pp0 xd yd weights v1 v2 curvefit dd w w
              (same_but_prints_refl w) I) as (Hfst & [Hh Ht] & _).
  fold run1 run2 in Hfst, Hh, Ht.
  split; [exact Hfst |]. split; [exact Hh |]. split; [exact Ht |].
  unfold calls. unfold unprinted in Ht.
  assert (E : forall tr, List.filter is_call tr
                         = List.filter is_call (List.filter (fun e => negb (is_printed e)) tr)).
  { induction tr as [| [c | c | r] tr IH]; cbn; [reflexivity | | | exact IH]; now rewrite IH. }
  rewrite (E (trace (snd run1))), (E (trace (snd run2))). now rewrite Ht.
Qed.

(** *** Further results on returning and raising runs *)

Lemma filter_stage_events_output verbose v s0 s1 :
  List.filter is_output (stage_events verbose v s0 s1) = stage_events verbose v s0 s1.
Proof. unfold stage_events. destruct (2 <=? verbose)%Z; reflexivity. Qed.

Lemma filter_final_events_output verbose s0 s1 :
  List.filter is_output (final_events verbose s0 s1) = final_events verbose s0 s1.
Proof. unfold final_events. destruct (verbose =? 0)%Z; reflexivity. Qed.

Lemma terminal_run_events verbose curvefit vx vy vp0 px pl pt rest rb rc r1 s0 sb sc sf :
  List.filter is_output
    (run_events verbose curvefit vx vy vp0 px pl pt rest rb rc r1 s0 sb sc sf)
  = stage_events verbose (px :: pl :: rb :: rest) s0 sb
    ++ stage_events verbose (rc :: pl :: rb :: rest) s0 sc
    ++ [Displayed (CallMinimize (rc :: pl :: rb :: rest) "Powell" true);
        Displayed (CallMinimize (res_x r1) "Powell" true)]
    ++ final_events verbose s0 sf.
Proof.
  unfold run_events.
  rewrite !List.filter_app, filter_stage_a_events_output, !filter_stage_events_output,
    filter_final_events_output.
  reflexivity.
Qed.

(** X9 (fitBarrierModel, lines 215-218, 225-228, 249-252).  In a run in
    which scipy returns, what reaches the terminal is, in this order:
    from verbosity 2 the two stage reports, then the two convergence
    reports of the minimizer, then (unless the verbosity is 0) the final
    report.  The first score of every report is the score of the vector
    of stage (a), not of the previous stage; the second is the score of
    the vector after the stage, and in the final report that of the
    returned vector. *)
Theorem reports_of_a_run
    (robustCost_shape : forall x thr m, length (robustCost x thr m) = length x)
    (h : list pyobj) (t : list event) (pp0 xd yd : loc) (weights : pyval) (verbose : Z)
    (dd : pyval) (curvefit : bool) (vp0 vx vy : np.ndarray) (vw : option np.ndarray)
    (px pl pt : npfloat) (rest : list npfloat) (rb rc : npfloat) (r1 r2 : OptimizeResult) :
  returning_run h pp0 xd yd weights dd curvefit vp0 vx vy vw px pl pt rest rb rc r1 r2 ->
  exists s0 sb sc sf : npfloat,
    objective vx vy vw (px :: pl :: pt :: rest) = Ok s0
    /\ objective vx vy vw (px :: pl :: rb :: rest) = Ok sb
    /\ objective vx vy vw (rc :: pl :: rb :: rest) = Ok sc
    /\ objective vx vy vw (res_x r2) = Ok sf
    /\ let out :=
         terminal (snd (fitBarrierModel pp0 xd yd weights verbose curvefit dd (World h t))) in
       let shown :=
         [Displayed (CallMinimize (rc :: pl :: rb :: rest) "Powell" true);
          Displayed (CallMinimize (res_x r1) "Powell" true)] in
       ((2 <= verbose)%Z ->
        out = terminal (World h t)
              ++ [Printed (StageReport (px :: pl :: rb :: rest) s0 sb);
                  Printed (StageReport (rc :: pl :: rb :: rest) s0 sc)]
              ++ shown ++ [Printed (FinalReport s0 sf)])
       /\ (verbose = 1%Z -> out = terminal (World h t) ++ shown ++ [Printed (FinalReport s0 sf)])
       /\ (verbose = 0%Z -> out = terminal (World h t) ++ shown).
Proof.
  intros (Hp & Hx & Hy & Hw & Hd & Hxy & Hwf & Ha & Hb & Hc & H1 & Hl1 & H2 & Hl2).
  destruct (fitBarrierModel_run robustCost_shape h t pp0 xd yd weights verbose curvefit dd
              vp0 vx vy vw px pl pt rest rb rc r1 r2
              Hp Hx Hy Hw Hd Hxy Hwf Ha Hb Hc H1 Hl1 H2 Hl2)
    as (l & es & s0 & sb & sc & sf & Hrun & Hes & _ & _ & Hs0 & Hsb & Hsc & Hsf).
  exists s0, sb, sc, sf. repeat (split; [assumption |]).
  cbv zeta. rewrite Hrun. unfold terminal. cbn [snd trace].
  rewrite List.filter_app, Hes, terminal_run_events. unfold stage_events, final_events.
  split; [| split].
  - intros Hv. apply Z.leb_le in Hv. rewrite Hv.
    destruct (verbose =? 0)%Z eqn:E; [apply Z.eqb_eq in E; apply Z.leb_le in Hv; lia |].
    reflexivity.
  - intros ->. reflexivity.
  - intros ->. cbn. now rewrite ?app_nil_r.
Qed.

Lemma returning_run_at (h h' : list pyobj) (pp0 xd yd : loc) (weights dd : pyval)
    (vx vy : np.ndarray) (vw : option np.ndarray) (px pl pt pt' : npfloat)
    (rest : list npfloat) (rb rc : npfloat) (r1 r2 : OptimizeResult) :
  returning_run h pp0 xd yd weights dd false (px :: pl :: pt :: rest) vx vy vw
    px pl pt rest rb rc r1 r2 ->
  xd <> pp0 -> yd <> pp0 -> weights <> VRef pp0 -> dd <> VRef pp0 ->
  h' = <[pp0 := OArray (px :: pl :: pt' :: rest)]> h ->
  returning_run h' pp0 xd yd weights dd false (px :: pl :: pt' :: rest) vx vy vw
    px pl pt' rest rb rc r1 r2.
Proof.
  intros (Hp & Hx & Hy & Hw & Hd & Hxy & Hwf & Ha & Hb & Hc & H1 & Hl1 & H2 & Hl2)
    Nx Ny Nw Nd ->.
  unfold returning_run.
  split; [apply list_lookup_insert_eq; now apply lookup_lt_Some in Hp |].
  split; [now rewrite list_lookup_insert_ne by congruence |].
  split; [now rewrite list_lookup_insert_ne by congruence |].
  split.
  { destruct weights as [| lw]; [exact Hw |]. destruct Hw as (a & Ha' & ->).
    exists a. split; [| reflexivity]. rewrite list_lookup_insert_ne; [exact Ha' | congruence]. }
  split.
  { destruct dd as [| d]; [exact I |]. destruct Hd as [m Hm].
    exists m. rewrite list_lookup_insert_ne; [exact Hm | congruence]. }
  repeat (split; [assumption || reflexivity |]). assumption.
Qed.

(** X10 (fitBarrierModel, lines 206-214).  Without the curve fit, the
    initial guess of the tunnel coupling, [pp0[2]], has no influence on
    the fit: stage (b) overwrites it before any routine of scipy sees
    it.  Two calls whose initial guesses differ in that element only
    make the same calls into scipy and return vectors with the same
    contents. *)
Theorem initial_tunnel_coupling_ignored
    (robustCost_shape : forall x thr m, length (robustCost x thr m) = length x)
    (h : list pyobj) (t : list event) (pp0 xd yd : loc) (weights : pyval) (verbose : Z)
    (dd : pyval) (vx vy : np.ndarray) (vw : option np.ndarray)
    (px pl pt pt' : npfloat) (rest : list npfloat) (rb rc : npfloat)
    (r1 r2 : OptimizeResult) :
  returning_run h pp0 xd yd weights dd false (px :: pl :: pt :: rest) vx vy vw
    px pl pt rest rb rc r1 r2 ->
  xd <> pp0 -> yd <> pp0 -> weights <> VRef pp0 -> dd <> VRef pp0 ->
  exists (ret : loc) (w1 w2 : world),
    fitBarrierModel pp0 xd yd weights verbose false dd (World h t) = (Ok ret, w1)
    /\ fitBarrierModel pp0 xd yd weights verbose false dd
         (World (<[pp0 := OArray (px :: pl :: pt' :: rest)]> h) t) = (Ok ret, w2)
    /\ heap w1 !! ret = Some (OArray (res_x r2))
    /\ heap w2 !! ret = Some (OArray (res_x r2))
    /\ calls w1 = calls w2.
Proof.
  intros Hrun Nx Ny Nw Nd.
  pose proof (returning_run_at h _ pp0 xd yd weights dd vx vy vw px pl pt pt' rest rb rc r1 r2
                Hrun Nx Ny Nw Nd eq_refl) as Hrun'.
  destruct Hrun as (Hp & Hx & Hy & Hw & Hd & Hxy & Hwf & Ha & Hb & Hc & H1 & Hl1 & H2 & Hl2).
  destruct Hrun' as (Hp' & Hx' & Hy' & Hw' & Hd' & _ & _ & Ha' & _).
  destruct (fitBarrierModel_run robustCost_shape h t pp0 xd yd weights verbose false dd
              _ vx vy vw px pl pt rest rb rc r1 r2
              Hp Hx Hy Hw Hd Hxy Hwf Ha Hb Hc H1 Hl1 H2 Hl2)
    as (l & es & s0 & sb & sc & sf & Hr & Hes & _ & Hl & _).
  destruct (fitBarrierModel_run robustCost_shape _ t pp0 xd yd weights verbose false dd
              _ vx vy vw px pl pt' rest rb rc r1 r2
              Hp' Hx' Hy' Hw' Hd' Hxy Hwf Ha' Hb Hc H1 Hl1 H2 Hl2)
    as (l' & es' & s0' & sb' & sc' & sf' & Hr' & Hes' & _ & Hl' & _).
  rewrite length_insert in Hr'.
  eexists _, _, _. split; [exact Hr |]. split; [exact Hr' |].
  cbn [heap]. split; [| split].
  - rewrite lookup_app_r by (rewrite dd_written_length; lia).
    rewrite dd_written_length. replace (length h + 7 - length h)%nat with 7%nat by lia.
    exact Hl.
  - rewrite lookup_app_r by (rewrite dd_written_length, length_insert; lia).
    rewrite dd_written_length, length_insert.
    replace (length h + 7 - length h)%nat with 7%nat by lia. exact Hl'.
  - unfold calls. cbn [trace]. rewrite !List.filter_app, Hes, Hes', !calls_run_events.
    reflexivity.
Qed.

(** X11 (fitBarrierModel, lines 206-214).  An initial guess of fewer
    than three elements is not rejected at entry: without the curve fit
    the call always raises, and for a guess of two elements it raises
    [IndexError] at [ppx[2] = r], after the grid search over the tunnel
    coupling has run on the two elements; nothing is printed and the
    caller's objects are as before. *)
Theorem short_initial_guess
    (h : list pyobj) (t : list event) (pp0 xd yd : loc) (weights : pyval) (verbose : Z)
    (dd : pyval) (vp0 vx vy : np.ndarray) (vw : option np.ndarray) :
  h !! pp0 = Some (OArray vp0) ->
  h !! xd = Some (OArray vx) ->
  h !! yd = Some (OArray vy) ->
  weights_at h weights vw ->
  (length vp0 < 3)%nat ->
  (exists e w',
      fitBarrierModel pp0 xd yd weights verbose false dd (World h t) = (Raise e, w'))
  /\ (forall a b rb,
         vp0 = [a; b] ->
         brute (fun x => objective vx vy vw [a; b; x]) (Fin 0, Fin 100) 20 false = Ok rb ->
         fitBarrierModel pp0 xd yd weights verbose false dd (World h t)
         = (Raise IndexError,
            World (h ++ [OArray [a; b]; OArray [a; b]])
              (t ++ [Called (CallBrute (Fin 0) (Fin 100) 20 false)]))).
Proof.
  intros Hp Hx Hy Hw Hlen.
  replace (World h t) with (World (h ++ []) t) by (rewrite app_nil_r; reflexivity).
  unfold fitBarrierModel. split.
  - run_step ltac:(apply copy_caller; exact Hp).
    run_step ltac:(apply copy_local; reflexivity).
    match goal with
    | |- context [mbind (call_brute ?ff ?lo ?hi ?Ns false) _ ?w] =>
        destruct (call_brute_cases ff lo hi Ns (heap w) (trace w))
          as [(rb & Eb) | (e & w' & Eb)]
    end.
    2:{ eexists _, _. erewrite mbind_Raise by exact Eb. reflexivity. }
    run_step ltac:(exact Eb).
    eexists _, _. erewrite mbind_Raise; [reflexivity |].
    unfold setitem. cbn [heap]. rewrite (lookup_local h _ 1).
    cbn [lookup list_lookup].
    destruct (Nat.ltb_spec 2 (length vp0)) as [Hlt | _]; [lia |]. reflexivity.
  - intros a b rb -> Hb.
    run_step ltac:(apply copy_caller; exact Hp).
    run_step ltac:(apply copy_local; reflexivity).
    run_step ltac:(eapply call_brute_run;
                   [eapply apply_in_ff_tunnel;
                    [eassumption | eassumption | eassumption | reflexivity]
                   | eassumption]).
    erewrite mbind_Raise; [reflexivity |].
    unfold setitem. cbn [heap]. rewrite (lookup_local h _ 1). reflexivity.
Qed.

(** X12 (fitBarrierModel, lines 203-213).  The module catches nothing:
    when the curve fit raises, the call raises the same exception
    before anything is copied or searched; when the first grid search
    raises, the call raises the same exception with the two copies of
    the initial guess made and no further routine called.  In both
    cases nothing is printed and the caller's objects are as before. *)
Theorem scipy_failures_propagate
    (h : list pyobj) (t : list event) (pp0 xd yd : loc) (weights : pyval) (verbose : Z)
    (dd : pyval) (vp0 vx vy : np.ndarray) (vw : option np.ndarray) (e : exn) :
  h !! pp0 = Some (OArray vp0) ->
  h !! xd = Some (OArray vx) ->
  h !! yd = Some (OArray vy) ->
  weights_at h weights vw ->
  (curve_fit (fun x ps => barrierModel x (Positional ps)) vx vy vp0 = Raise e ->
   fitBarrierModel pp0 xd yd weights verbose true dd (World h t)
   = (Raise e, World h (t ++ [Called (CallCurveFit vx vy vp0)])))
  /\ (forall p0 p1 rest,
         vp0 = p0 :: p1 :: rest ->
         brute (fun x => objective vx vy vw [p0; p1; x]) (Fin 0, Fin 100) 20 false = Raise e ->
         fitBarrierModel pp0 xd yd weights verbose false dd (World h t)
         = (Raise e,
            World (h ++ [OArray vp0; OArray vp0])
              (t ++ [Called (CallBrute (Fin 0) (Fin 100) 20 false)]))).
Proof.
  intros Hp Hx Hy Hw.
  replace (World h t) with (World (h ++ []) t) by (rewrite app_nil_r; reflexivity).
  unfold fitBarrierModel. split.
  - intros He.
    transitivity (@Raise loc e, World (h ++ []) (t ++ [Called (CallCurveFit vx vy vp0)]));
      [| now rewrite app_nil_r].
    erewrite mbind_Raise; [reflexivity |].
    rewrite (mbind_Ok _ _ _ _ _ (read_caller h [] t xd vx Hx)).
    rewrite (mbind_Ok _ _ _ _ _ (read_caller h [] t yd vy Hy)).
    rewrite (mbind_Ok _ _ _ _ _ (read_caller h [] t pp0 vp0 Hp)).
    erewrite mbind_Raise; [reflexivity |].
    unfold call_curve_fit. erewrite mbind_Ok by reflexivity.
    unfold lift. rewrite He. reflexivity.
  - intros p0 p1 rest -> Hb.
    run_step ltac:(apply copy_caller; exact Hp).
    run_step ltac:(apply copy_local; reflexivity).
    erewrite mbind_Raise; [reflexivity |].
    eapply call_brute_raise; [| exact Hb].
    eapply apply_in_ff_tunnel; [eassumption | eassumption | eassumption | reflexivity].
Qed.

End Pipeline.

(** ** The Blake-Zisserman instance of the robust transform *)

Lemma exp_neg_square_le_1 (x : R) : exp (- (x * x)) <= 1.
Proof.
  destruct (Req_dec x 0) as [-> | Hx].
  - replace (- (0 * 0)) with 0 by ring. rewrite exp_0. lra.
  - left. rewrite <- exp_0. apply exp_increasing. nra.
Qed.

Lemma bz0_nonneg (thr x : R) : 0 <= bz0 thr x.
Proof.
  unfold bz0. pose proof (exp_pos (- (x * x))) as Hx. pose proof (exp_pos (- (thr * thr))) as Ht.
  pose proof (exp_neg_square_le_1 x) as Hle.
  destruct Hle as [Hlt | Heq].
  - assert (ln (exp (- (x * x)) + exp (- (thr * thr))) < ln (1 + exp (- (thr * thr))))
      by (apply ln_increasing; lra).
    lra.
  - rewrite Heq. lra.
Qed.

Lemma bz0_pos (thr x : R) : x <> 0 -> 0 < bz0 thr x.
Proof.
  intros Hx. unfold bz0.
  pose proof (exp_pos (- (x * x))) as Hp. pose proof (exp_pos (- (thr * thr))) as Ht.
  assert (Hlt : exp (- (x * x)) < 1) by (rewrite <- exp_0; apply exp_increasing; nra).
  assert (ln (exp (- (x * x)) + exp (- (thr * thr))) < ln (1 + exp (- (thr * thr))))
    by (apply ln_increasing; lra).
  lra.
Qed.

Lemma bz0_zero (thr : R) : bz0 thr 0 = 0.
Proof.
  unfold bz0. replace (- (0 * 0)) with 0 by ring. rewrite exp_0. ring.
Qed.

Lemma robustCost_BZ0_shape (x : np.ndarray) (thr : R) (m : string) :
  length (robustCost_BZ0 x thr m) = length x.
Proof. apply length_map. Qed.

Lemma robustCost_BZ0_nonneg (x : np.ndarray) (thr : R) (m : string) :
  Forall nf_finite x -> Forall nf_nonneg (robustCost_BZ0 x thr m).
Proof.
  unfold robustCost_BZ0. induction 1 as [| a l [r ->] _ IH]; simpl; constructor.
  - apply bz0_nonneg.
  - exact IH.
Qed.

Lemma robustCost_BZ0_zero (n : nat) :
  robustCost_BZ0 (replicate n (Fin 0)) 1 "BZ0" = replicate n (Fin 0).
Proof.
  unfold robustCost_BZ0. induction n as [| n IH]; simpl; [reflexivity |].
  rewrite IH, bz0_zero. reflexivity.
Qed.

(** ** Exceptions *)

Lemma mbind_cong {A B : Type} (m : M A) (k k' : A -> M B) (w : world) :
  (forall a w', k a w' = k' a w') -> mbind m k w = mbind m k' w.
Proof.
  intros H. unfold mbind. destruct (m w) as [[a | e] w']; [apply H | reflexivity].
Qed.

Lemma call_minimize_blind {B : Type}
    (minimize minimize' :
       (np.ndarray -> result npfloat) -> np.ndarray -> string -> bool -> result OptimizeResult)
    (ff : loc -> M npfloat) (x0 : loc) (method : string) (disp : bool)
    (k k' : OptimizeResult -> M B) (w : world) :
  (forall f x m d, rmap res_x (minimize f x m d) = rmap res_x (minimize' f x m d)) ->
  (forall r r' w', res_x r = res_x r' -> k r w' = k' r' w') ->
  mbind (call_minimize minimize ff x0 method disp) k w
  = mbind (call_minimize minimize' ff x0 method disp) k' w.
Proof.
  intros Hagree Hk. unfold call_minimize, mbind.
  destruct (read_array x0 w) as [[v0 | e] w1]; [| reflexivity].
  cbn [emit].
  set (w2 := {| heap := heap w1; trace := trace w1 ++ [Called (CallMinimize v0 method disp)] |}).
  set (F := apply_in w2 _).
  specialize (Hagree F v0 method disp).
  destruct (minimize F v0 method disp) as [r | e], (minimize' F v0 method disp) as [r' | e'];
    simpl in Hagree; try discriminate.
  - injection Hagree as Hr. destruct disp; cbn; apply Hk; exact Hr.
  - injection Hagree as ->. reflexivity.
Qed.

(** The driver reads nothing of what the minimizer returns but [x]. *)
Lemma fitBarrierModel_status_blind
    (robustCost : np.ndarray -> R -> string -> np.ndarray)
    (curve_fit :
       (np.ndarray -> list npfloat -> result np.ndarray) ->
       np.ndarray -> np.ndarray -> np.ndarray -> result np.ndarray)
    (brute :
       (npfloat -> result npfloat) -> npfloat * npfloat -> nat -> bool -> result npfloat)
    (minimize minimize' :
       (np.ndarray -> result npfloat) -> np.ndarray -> string -> bool -> result OptimizeResult)
    (pp0 xd yd : loc) (weights : pyval) (verbose : Z) (curvefit : bool) (dd : pyval)
    (w : world) :
  (forall f x m d, rmap res_x (minimize f x m d) = rmap res_x (minimize' f x m d)) ->
  fitBarrierModel robustCost curve_fit brute minimize pp0 xd yd weights verbose curvefit dd w
  = fitBarrierModel robustCost curve_fit brute minimize' pp0 xd yd weights verbose curvefit dd w.
Proof.
  intros Hagree. unfold fitBarrierModel. revert w.
  repeat lazymatch goal with
         | |- forall _ : world, mbind (call_minimize _ _ _ _ _) _ _ = _ =>
             let w1 := fresh "w" in
             let r := fresh "r" in
             let r' := fresh "r" in
             let Hr := fresh "Hr" in
             intros w1; apply call_minimize_blind; [exact Hagree |];
             intros r r' ? Hr; cbv beta; rewrite Hr; clear Hr
         | |- forall _ : world, mbind _ _ _ = mbind _ _ _ =>
             let w1 := fresh "w" in
             intros w1; apply mbind_cong; intros ?; cbv beta
         | |- mbind (call_minimize _ _ _ _ _) _ _ = _ =>
             let r := fresh "r" in
             let r' := fresh "r" in
             let Hr := fresh "Hr" in
             apply call_minimize_blind; [exact Hagree |];
             intros r r' ? Hr; cbv beta; rewrite Hr; clear Hr
         | |- mbind _ _ _ = mbind _ _ _ =>
             apply mbind_cong; intros ?; cbv beta
         end.
  intros; reflexivity.
Qed.

Lemma barrierScore_mismatch
    (robustCost : np.ndarray -> R -> string -> np.ndarray)
    (xd yd pp : np.ndarray) (weights : option np.ndarray) (thr : R) :
  (3 <= length pp)%nat ->
  length xd <> length yd -> length xd <> 1%nat -> length yd <> 1%nat ->
  barrierScore robustCost xd yd pp weights thr = Raise ValueError.
Proof.
  intros Hpp Hne Hx Hy.
  destruct (barrierModel_returns xd pp Hpp) as (model & Hm & Hlen).
  unfold barrierScore. rewrite Hm. cbn [rbind]. unfold np.subtract.
  rewrite broadcast_mismatch by congruence. reflexivity.
Qed.

Lemma barrierScore_thr_zero
    (robustCost : np.ndarray -> R -> string -> np.ndarray)
    (xd yd pp : np.ndarray) (weights : option np.ndarray) :
  (3 <= length pp)%nat ->
  length xd = length yd ->
  barrierScore robustCost xd yd pp weights 0 = Raise ZeroDivisionError.
Proof.
  intros Hpp Hxy.
  destruct (barrierModel_returns xd pp Hpp) as (model & Hm & Hlen).
  unfold barrierScore. rewrite Hm. cbn [rbind]. unfold np.subtract.
  rewrite broadcast_same by congruence. cbn [rbind]. rewrite py_truediv_zero. reflexivity.
Qed.

(** C9, as the code has it.  With a tunnel coupling whose square is in
    the range of binary64 (on a Python float [t**2] raises beyond it):
    [barrierModel] returns for every array and every three parameters,
    nan included; [barrierScore] returns on arrays of equal length,
    three parameters, weights of that length and a threshold other than
    zero; it raises the broadcasting [ValueError] of numpy when the
    coordinate and response arrays differ in length (neither of length
    one), and [ZeroDivisionError] when the threshold is zero.
    [fitBarrierModel] returns when the routines of scipy do, on data of
    fitting lengths; it raises when the arrays differ in length; and it
    reads nothing of the minimizer's result but [x]: with two
    minimizers that differ only in the convergence status they report,
    the call has the same outcome, leaves the same store, makes the
    same calls into scipy and prints the same reports.  What scipy
    itself displays under [disp=True] is not compared: the events of
    the embedding do not carry that text. *)
Theorem pipeline_exceptions
    (robustCost : np.ndarray -> R -> string -> np.ndarray)
    (robustCost_shape : forall x thr m, length (robustCost x thr m) = length x) :
  (forall x a b c,
      square_fits c ->
      returns (barrierModel x (Positional [a; b; c]))
      /\ returns (barrierModel x (Sequence [a; b; c])))
  /\ (forall xd yd pp weights thr,
         length xd = length yd -> length pp = 3%nat -> coupling_fits pp ->
         weights_fit (length xd) weights -> thr <> 0 ->
         returns (barrierScore robustCost xd yd pp weights thr))
  /\ (forall xd yd pp weights thr,
         length pp = 3%nat -> coupling_fits pp ->
         length xd <> length yd -> length xd <> 1%nat -> length yd <> 1%nat ->
         barrierScore robustCost xd yd pp weights thr = Raise ValueError)
  /\ (forall xd yd pp weights,
         length pp = 3%nat -> coupling_fits pp -> length xd = length yd ->
         barrierScore robustCost xd yd pp weights 0 = Raise ZeroDivisionError)
  /\ (forall curve_fit brute minimize h t pp0 xd yd weights verbose dd curvefit
             vp0 vx vy vw px pl pt rest rb rc r1 r2,
         returning_run robustCost curve_fit brute minimize
           h pp0 xd yd weights dd curvefit vp0 vx vy vw px pl pt rest rb rc r1 r2 ->
         exists ret w',
           fitBarrierModel robustCost curve_fit brute minimize
             pp0 xd yd weights verbose curvefit dd (World h t) = (Ok ret, w'))
  /\ (forall curve_fit brute minimize h t pp0 xd yd weights verbose curvefit dd
             vp0 vx vy vw,
         h !! pp0 = Some (OArray vp0) ->
         h !! xd = Some (OArray vx) ->
         h !! yd = Some (OArray vy) ->
         weights_at h weights vw ->
         length vx <> length vy -> length vx <> 1%nat -> length vy <> 1%nat ->
         exists e w',
           fitBarrierModel robustCost curve_fit brute minimize
             pp0 xd yd weights verbose curvefit dd (World h t) = (Raise e, w'))
  /\ (forall curve_fit brute minimize minimize' pp0 xd yd weights verbose curvefit dd w,
         (forall f x m d, rmap res_x (minimize f x m d) = rmap res_x (minimize' f x m d)) ->
         let run :=
           fitBarrierModel robustCost curve_fit brute minimize
             pp0 xd yd weights verbose curvefit dd w in
         let run' :=
           fitBarrierModel robustCost curve_fit brute minimize'
             pp0 xd yd weights verbose curvefit dd w in
         fst run = fst run'
         /\ heap (snd run) = heap (snd run')
         /\ calls (snd run) = calls (snd run')
         /\ List.filter is_printed (trace (snd run))
            = List.filter is_printed (trace (snd run'))).
Proof.
  split; [| split; [| split; [| split; [| split; [| split]]]]].
  - intros x a b c _. split; eexists; reflexivity.
  - intros xd yd pp weights thr Hxy Hpp _ Hw Hthr.
    apply (barrierScore_returns robustCost robustCost_shape); [exact Hxy | lia | exact Hw | exact Hthr].
  - intros xd yd pp weights thr Hpp _ Hne Hx Hy.
    apply barrierScore_mismatch; [lia | assumption..].
  - intros xd yd pp weights Hpp _ Hxy. apply barrierScore_thr_zero; [lia | exact Hxy].
  - intros curve_fit brute minimize h t pp0 xd yd weights verbose dd curvefit
      vp0 vx vy vw px pl pt rest rb rc r1 r2 Hrun.
    destruct (returning_run_runs robustCost curve_fit brute minimize robustCost_shape
                h t pp0 xd yd weights verbose dd curvefit
                vp0 vx vy vw px pl pt rest rb rc r1 r2 Hrun)
      as (l & s0 & sb & sc & sf & E & _).
    eexists _, _. exact E.
  - intros. eapply fitBarrierModel_mismatch_raises; eassumption.
  - intros curve_fit brute minimize minimize' pp0 xd yd weights verbose curvefit dd w H
      run run'.
    assert (E : run = run') by (apply fitBarrierModel_status_blind; exact H).
    rewrite E. repeat split.
Qed.

(** ** The Keysight M3202A stub *)

(** C10. Whatever [awg] is, [KeysightM3202A_AWG(awg)] raises: the call of
    [super] with keyword arguments is a [TypeError]; and the rest of the
    constructor, from any state of [self], raises as well, ending in
    [update_settings] and its [NotImplementedError] when the name check
    passes.  No instance, hence no settings dictionary, is returned. *)
Theorem KeysightM3202A_never_constructed :
  forall (is_ : string -> string -> bool) (awg : KeysightM3202A.awg_object),
    (forall fresh, KeysightM3202A.KeysightM3202A_AWG is_ awg fresh = Raise TypeError)
    /\ (forall self, exists e self',
           KeysightM3202A.init_from_line11 is_ awg self = (Raise e, self'))
    /\ (forall self name,
           KeysightM3202A._awg_name self = Some name ->
           is_ (KeysightM3202A.type_name awg) name = true ->
           exists self',
             KeysightM3202A.init_from_line11 is_ awg self = (Raise NotImplementedError, self'))
    /\ (forall self, exists self',
           KeysightM3202A.update_settings self = (Raise NotImplementedError, self')).
Proof.
  intros is_ awg. repeat split.
  - intros self. unfold KeysightM3202A.init_from_line11.
    destruct (KeysightM3202A._awg_name self) as [name |]; [| eauto].
    destruct (is_ (KeysightM3202A.type_name awg) name); simpl; eauto.
  - intros self name Hname His. unfold KeysightM3202A.init_from_line11.
    rewrite Hname, His. simpl. eauto.
  - intros self. eexists. reflexivity.
Qed.

(** ** The results at the sample call *)

Abbreviation sample_fit minimize verbose curvefit dd :=
  (fitBarrierModel robustCost_BZ0 Sample.curve_fit Sample.brute minimize
     0%nat 1%nat 2%nat (VRef 3%nat) verbose curvefit dd Sample.start).

Lemma sample_curve_fit_arity f x y p0 r :
  Sample.curve_fit f x y p0 = Ok r -> length r = length p0.
Proof. intros H. injection H as <-. apply length_insert. Qed.

Lemma sample_minimize_arity f x0 m d r :
  Sample.minimize f x0 m d = Ok r -> length (res_x r) = length x0.
Proof. intros H. injection H as <-. reflexivity. Qed.

Lemma sample_returning_run (curvefit : bool) (dd : pyval) :
  dd = VNone \/ dd = VRef 4%nat ->
  returning_run robustCost_BZ0 Sample.curve_fit Sample.brute Sample.minimize
    Sample.store 0%nat 1%nat 2%nat (VRef 3%nat) dd curvefit
    Sample.pp0 Sample.xd Sample.yd (Some Sample.weights)
    (Sample.x_offset_a curvefit) (Fin 40) (Fin 400) [] (Fin 0) (Sample.x_offset_a curvefit - Fin 2)%nf
    (Sample.optimum curvefit) (Sample.optimum curvefit).
Proof.
  intros Hdd. unfold returning_run.
  split; [reflexivity |]. split; [reflexivity |]. split; [reflexivity |].
  split; [eexists; split; reflexivity |].
  split; [destruct Hdd as [-> | ->]; [exact I | eexists; reflexivity] |].
  split; [reflexivity |]. split; [reflexivity |].
  split; [destruct curvefit; reflexivity |].
  split; [reflexivity |]. split; [reflexivity |]. split; [reflexivity |].
  split; [simpl; lia |]. split; [reflexivity |]. simpl; lia.
Qed.

Lemma barrierScore_formula_witness :
  exists model,
    barrierModel Sample.xd (Sequence Sample.pp0) = Ok model
    /\ length model = length Sample.xd
    /\ barrierScore robustCost_BZ0 Sample.xd Sample.yd Sample.pp0 (Some Sample.weights)
         thr_default
       = Ok (np.div_size
               (np.linalg_norm4
                  (score_terms robustCost_BZ0 model Sample.yd (Some Sample.weights) thr_default))
               (length Sample.xd)).
Proof.
  apply (barrierScore_formula robustCost_BZ0 robustCost_BZ0_shape);
    [reflexivity | reflexivity | reflexivity | apply thr_default_nonzero].
Defined.

Lemma barrierScore_weights_scaled_witness :
  barrierScore robustCost_BZ0 Sample.xd Sample.yd Sample.pp0
    (Some (times 2 Sample.weights)) thr_default
  = rmap (nf_scale 2)
      (barrierScore robustCost_BZ0 Sample.xd Sample.yd Sample.pp0 (Some Sample.weights)
         thr_default).
Proof.
  apply (proj2 (barrierScore_weights_scaled robustCost_BZ0 2 Sample.xd Sample.yd Sample.pp0
                  Sample.weights thr_default)).
  lra.
Defined.

Lemma fitBarrierModel_stages_witness :
  exists (l : loc) (w' : world),
    sample_fit Sample.minimize 1%Z true (VRef 4%nat) = (Ok l, w')
    /\ heap w' !! l = Some (OArray [(Fin 1 - Fin 2)%nf; Fin 40; Fin 0]).
Proof.
  destruct (fitBarrierModel_stages robustCost_BZ0 Sample.curve_fit Sample.brute Sample.minimize
              robustCost_BZ0_shape sample_curve_fit_arity sample_minimize_arity
              Sample.store [] 0%nat 1%nat 2%nat (VRef 3%nat) 1%Z true (VRef 4%nat)
              Sample.pp0 Sample.xd Sample.yd (Some Sample.weights)
              [(Fin 1 - Fin 2)%nf; Fin 40; Fin 0])
    as (va & vb & vc & r1 & r2 & x0 & _ & _ & _ & _ & _ & _ & _ & l & w' & Hrun & Hl & _).
  - reflexivity.
  - reflexivity.
  - reflexivity.
  - eexists. split; reflexivity.
  - eexists. reflexivity.
  - reflexivity.
  - reflexivity.
  - simpl. lia.
  - reflexivity.
  - exists l, w'. split; assumption.
Defined.

Lemma x_offset_search_range_witness :
  brute_calls (trace (snd (sample_fit Sample.minimize 0%Z true VNone)))
  = [(Fin 0, Fin 100, 20%nat, false); ((Fin 1 - Fin 2)%nf, (Fin 1 + Fin 2)%nf, 20%nat, false)]
  /\ calls (snd (sample_fit Sample.minimize 0%Z true VNone))
     = [Called (CallCurveFit Sample.xd Sample.yd Sample.pp0);
        Called (CallBrute (Fin 0) (Fin 100) 20 false);
        Called (CallBrute (Fin 1 - Fin 2)%nf (Fin 1 + Fin 2)%nf 20 false);
        Called (CallMinimize [(Fin 1 - Fin 2)%nf; Fin 40; Fin 0] "Powell" true);
        Called (CallMinimize [(Fin 1 - Fin 2)%nf; Fin 40; Fin 0] "Powell" true)].
Proof.
  destruct (proj2 (x_offset_search_range robustCost_BZ0 Sample.curve_fit Sample.brute
                     Sample.minimize robustCost_BZ0_shape
                     Sample.store [] 0%nat 1%nat 2%nat (VRef 3%nat) 0%Z VNone true
                     Sample.pp0 Sample.xd Sample.yd (Some Sample.weights)
                     (Fin 1) (Fin 40) (Fin 400) [] (Fin 0)
                     eq_refl eq_refl eq_refl
                     (ex_intro _ Sample.weights (conj eq_refl eq_refl))
                     I eq_refl eq_refl eq_refl eq_refl)
              (Fin 1 - Fin 2)%nf (Sample.optimum true) (Sample.optimum true)
              eq_refl eq_refl ltac:(cbn; lia) eq_refl ltac:(cbn; lia))
    as (_ & Hb & Hc).
  split; [exact Hb | exact Hc].
Defined.

Lemma robustCost_BZ0_moderate (x : np.ndarray) (m : string) :
  Forall nf_finite x -> Forall nf_moderate (robustCost_BZ0 x 1 m).
Proof.
  intros H. unfold robustCost_BZ0.
  induction H as [| a x [r ->] _ IH]; cbn [map]; constructor; [| exact IH].
  cbn [nf_lift1 nf_moderate]. unfold moderate, moderate_bound.
  pose proof (bz0_nonneg 1 r) as Hpos. rewrite Rabs_pos_eq by exact Hpos.
  unfold bz0 in *.
  assert (Hb : 0 < exp (- (1 * 1))) by apply exp_pos.
  assert (Ha : 0 < exp (- (r * r))) by apply exp_pos.
  assert (H1 : - (1 * 1) <= ln (exp (- (r * r)) + exp (- (1 * 1)))).
  { rewrite <- (ln_exp (- (1 * 1))) at 1. left. apply ln_increasing; lra. }
  assert (H2 : ln (1 + exp (- (1 * 1))) <= 1).
  { apply Rle_trans with (ln (exp 1)); [| rewrite ln_exp; lra].
    left. apply ln_increasing; [lra |].
    pose proof (exp_neg_square_le_1 1). pose proof (exp_ineq1 1 ltac:(lra)). lra. }
  lra.
Qed.

Lemma sample_moderate_inputs :
  moderate_inputs [1; 2; 3] Sample.exact_yd 0 40 400 (Some [1; 1; 1]) thr_default.
Proof.
  assert (Hm : forall v, 0 <= v <= 1e25 -> moderate v).
  { intros v Hv. unfold moderate, moderate_bound. rewrite Rabs_pos_eq; lra. }
  assert (Hy : forall xi, 0 <= xi <= 3 ->
                 moderate (sqrt (((xi - 0) * 40) ^ 2 + 4 * 400 ^ 2) * ueV2Hz)).
  { intros xi Hxi. apply Hm.
    assert (Hs : sqrt (((xi - 0) * 40) ^ 2 + 4 * 400 ^ 2) <= 1000).
    { rewrite <- (sqrt_square 1000) by lra. apply sqrt_le_1_alt. nra. }
    pose proof (sqrt_pos (((xi - 0) * 40) ^ 2 + 4 * 400 ^ 2)) as Hs0.
    pose proof ueV2Hz_pos as Hk.
    assert (Hk' : ueV2Hz <= 3e8)
      by (unfold ueV2Hz, scipy_constants.e, scipy_constants.h; lra).
    nra. }
  unfold moderate_inputs, Sample.exact_yd. cbn [map].
  repeat split.
  - repeat (first [apply Forall_nil_2 | apply Forall_cons_2; [apply Hm; lra |]]).
  - repeat (first [apply Forall_nil_2 | apply Forall_cons_2; [apply Hy; lra |]]).
  - apply Hm; lra.
  - apply Hm; lra.
  - apply Hm; lra.
  - repeat (first [apply Forall_nil_2 | apply Forall_cons_2; [apply Hm; lra |]]).
  - unfold moderate_bound, thr_default. rewrite Rabs_pos_eq by lra. lra.
  - unfold moderate_bound, thr_default. rewrite Rabs_pos_eq by lra. lra.
  - cbn [length INR]. lra.
Qed.

Lemma barrierScore_nonneg_zero_witness :
  barrierScore robustCost_BZ0 (np.of_reals [1; 2; 3]) (np.of_reals Sample.exact_yd)
    (np.of_reals [0; 40; 400]) (Some (np.of_reals [1; 1; 1])) thr_default
  = Ok (Fin 0).
Proof.
  apply (proj2 (barrierScore_nonneg_zero robustCost_BZ0 robustCost_BZ0_shape
                  robustCost_BZ0_nonneg robustCost_BZ0_moderate
                  [1; 2; 3] Sample.exact_yd 0 40 400 (Some [1; 1; 1])
                  thr_default eq_refl ltac:(discriminate) eq_refl sample_moderate_inputs)).
  - apply robustCost_BZ0_zero.
  - apply model_of_reals.
Defined.

Lemma fitBarrierModel_output_witness :
  terminal (snd (sample_fit Sample.minimize 0%Z false VNone))
  = [Displayed (CallMinimize [(Fin 0 - Fin 2)%nf; Fin 40; Fin 0] "Powell" true);
     Displayed (CallMinimize [(Fin 0 - Fin 2)%nf; Fin 40; Fin 0] "Powell" true)].
Proof.
  exact (proj2 (fitBarrierModel_output robustCost_BZ0 Sample.curve_fit Sample.brute
                  Sample.minimize robustCost_BZ0_shape
                  0%nat 1%nat 2%nat (VRef 3%nat) false VNone)
           Sample.store [] Sample.pp0 Sample.xd Sample.yd (Some Sample.weights)
           (Fin 0) (Fin 40) (Fin 400) [] (Fin 0) (Fin 0 - Fin 2)%nf
           (Sample.optimum false) (Sample.optimum false)
           (sample_returning_run false VNone (or_introl eq_refl))).
Defined.

Lemma caller_objects_kept_witness :
  exists (ret : loc) (w' : world),
    sample_fit Sample.minimize 0%Z false (VRef 4%nat) = (Ok ret, w')
    /\ (5 <= ret)%nat
    /\ heap w' !! 4%nat
       = Some (ODict (<["weights" := VRef 3%nat]> (<["pp" := VRef 5%nat]> ∅))).
Proof.
  destruct (proj2 (proj2 (caller_objects_kept robustCost_BZ0 Sample.curve_fit Sample.brute
                            Sample.minimize robustCost_BZ0_shape
                            0%nat 1%nat 2%nat (VRef 3%nat) 0%Z false (VRef 4%nat)))
              Sample.store [] Sample.pp0 Sample.xd Sample.yd (Some Sample.weights)
              (Fin 0) (Fin 40) (Fin 400) [] (Fin 0) (Fin 0 - Fin 2)%nf
              (Sample.optimum false) (Sample.optimum false)
              (sample_returning_run false (VRef 4%nat) (or_intror eq_refl)))
    as (ret & w' & Hrun & Hret & _ & _ & Hdd).
  exists ret, w'. split; [exact Hrun |]. split; [exact Hret |].
  apply (Hdd 4%nat ∅ eq_refl eq_refl).
Defined.

Lemma pipeline_exceptions_witness :
  returns (barrierModel Sample.xd (Positional [Fin 0; Fin 40; Fin 400]))
  /\ returns (barrierScore robustCost_BZ0 Sample.xd Sample.yd Sample.pp0 (Some Sample.weights)
                thr_default)
  /\ fst (sample_fit Sample.minimize 0%Z false VNone)
     = fst (sample_fit Sample.minimize_failing 0%Z false VNone).
Proof.
  destruct (pipeline_exceptions robustCost_BZ0 robustCost_BZ0_shape)
    as (Hmodel & Hscore & _ & _ & _ & _ & Hblind).
  split; [| split].
  - apply (Hmodel Sample.xd (Fin 0) (Fin 40) (Fin 400)).
    cbn [square_fits]. rewrite Rabs_pos_eq by lra. lra.
  - apply Hscore; [reflexivity | reflexivity | | reflexivity | apply thr_default_nonzero].
    change (Rabs 400 <= 1e150). rewrite Rabs_pos_eq by lra. lra.
  - apply (Hblind Sample.curve_fit Sample.brute Sample.minimize Sample.minimize_failing).
    intros f x m d. reflexivity.
Defined.

Lemma KeysightM3202A_never_constructed_witness :
  exists self',
    KeysightM3202A.init_from_line11 String.eqb
      {| KeysightM3202A.type_name := "M3202A" |}
      {| KeysightM3202A._awg_name := Some "M3202A";
         KeysightM3202A.__settings := None;
         KeysightM3202A.__awg := None |}
    = (Raise NotImplementedError, self').
Proof.
  apply (proj1 (proj2 (proj2 (KeysightM3202A_never_constructed String.eqb
                                {| KeysightM3202A.type_name := "M3202A" |})))
           {| KeysightM3202A._awg_name := Some "M3202A";
              KeysightM3202A.__settings := None;
              KeysightM3202A.__awg := None |}
           "M3202A" eq_refl eq_refl).
Defined.

(** ** Where the code departs from the claims *)

(** C2 fails at a zero threshold: [thr / scalefac] is [0.0 / 0.0], the
    call raises and returns no value. *)
Lemma score_formula_at_zero_threshold :
  barrierScore robustCost_BZ0 Sample.xd Sample.yd Sample.pp0 (Some Sample.weights) 0
  = Raise ZeroDivisionError
  /\ forall v,
       barrierScore robustCost_BZ0 Sample.xd Sample.yd Sample.pp0 (Some Sample.weights) 0
       <> Ok v.
Proof.
  assert (E : barrierScore robustCost_BZ0 Sample.xd Sample.yd Sample.pp0
                (Some Sample.weights) 0 = Raise ZeroDivisionError)
    by (apply barrierScore_thr_zero; [simpl; lia | reflexivity]).
  split; [exact E |]. intros v H. rewrite E in H. discriminate H.
Qed.

(** C4 fails with the curve fit enabled: the initial guess has
    [x_offset = 0], the curve fit moves it to 1, and the grid search over
    [x_offset] runs on [[1 - 2, 1 + 2]], not on [[0 - 2, 0 + 2]]. *)
Lemma x_offset_range_after_curve_fit :
  getitem Sample.pp0 0 = Ok (Fin 0)
  /\ brute_calls (trace (snd (sample_fit Sample.minimize 0%Z true VNone)))
     = [(Fin 0, Fin 100, 20%nat, false); (Fin (1 - 2), Fin (1 + 2), 20%nat, false)]
  /\ (Fin (1 - 2), Fin (1 + 2)) <> (Fin (0 - 2), Fin (0 + 2)).
Proof.
  split; [reflexivity |]. split.
  - destruct (returning_run_runs robustCost_BZ0 Sample.curve_fit Sample.brute Sample.minimize
                robustCost_BZ0_shape Sample.store [] 0%nat 1%nat 2%nat (VRef 3%nat) 0%Z VNone true
                Sample.pp0 Sample.xd Sample.yd (Some Sample.weights)
                (Fin 1) (Fin 40) (Fin 400) [] (Fin 0) (Fin 1 - Fin 2)%nf
                (Sample.optimum true) (Sample.optimum true)
                (sample_returning_run true VNone (or_introl eq_refl)))
      as (l & s0 & sb & sc & sf & E & _).
    unfold Sample.start. rewrite E. cbn [snd trace app].
    rewrite brute_calls_run_events. reflexivity.
  - intros H. injection H as H1 H2. lra.
Qed.

(** C5 fails at a zero threshold, where the call raises, and on empty
    arrays, where the score is nan. *)
Lemma score_at_zero_threshold_and_no_samples :
  barrierScore robustCost_BZ0 Sample.xd Sample.yd Sample.pp0 None 0
  = Raise ZeroDivisionError
  /\ barrierScore robustCost_BZ0 [] [] Sample.pp0 None thr_default = Ok NaN.
Proof.
  split.
  - apply barrierScore_thr_zero; [simpl; lia | reflexivity].
  - unfold barrierScore, Sample.pp0. rewrite barrierModel_packed. cbn [rbind].
    change (np.subtract (line95 [] (Fin 0) (Fin 40) (Fin 400)) []) with (Ok (@nil npfloat)).
    cbn [rbind]. rewrite py_truediv_self by apply thr_default_nonzero. reflexivity.
Qed.

(** C6 fails for a negative factor: with one sample, residual 1, threshold
    1 and weight 1, the score is positive, and it is the same, not its
    opposite, for the weight -1. *)
Lemma negated_weights_keep_the_score :
  barrierScore robustCost_BZ0 [Fin 0] [Fin 1] [Fin 0; Fin 1; Fin 0]
    (Some (times (-1) [Fin 1])) 1
  <> rmap (nf_scale (-1))
       (barrierScore robustCost_BZ0 [Fin 0] [Fin 1] [Fin 0; Fin 1; Fin 0] (Some [Fin 1]) 1).
Proof.
  rewrite barrierScore_weights_abs.
  assert (Hs : exists v, barrierScore robustCost_BZ0 [Fin 0] [Fin 1] [Fin 0; Fin 1; Fin 0]
                           (Some [Fin 1]) 1 = Ok (Fin v) /\ 0 < v).
  { destruct (barrierScore_unfold robustCost_BZ0 robustCost_BZ0_shape
                [Fin 0] [Fin 1] [Fin 0; Fin 1; Fin 0] (Some [Fin 1]) 1)
      as (model & Hm & _ & E); [reflexivity | simpl; lia | reflexivity | lra |].
    set (m0 := sqrt (((0 - 0) * 1) ^ 2 + 4 * 0 ^ 2) * ueV2Hz).
    assert (Hmodel : model = [Fin m0]).
    { assert (Hm' : barrierModel (np.of_reals [0]) (Sequence (np.of_reals [0; 1; 0])) = Ok model)
        by exact Hm.
      rewrite model_of_reals in Hm'. injection Hm' as <-. reflexivity. }
    rewrite E, Hmodel. clear E Hm Hmodel model.
    assert (Hm0 : m0 = 0).
    { unfold m0. replace (((0 - 0) * 1) ^ 2 + 4 * 0 ^ 2) with 0 by ring.
      rewrite sqrt_0. ring. }
    set (beta := bz0 1 (Rabs (m0 - 1) / 1)).
    assert (Hbeta : 0 < beta).
    { unfold beta. apply bz0_pos. rewrite Hm0.
      replace (0 - 1) with (- (1)) by ring. rewrite Rabs_Ropp, Rabs_R1. lra. }
    assert (Hterms : score_terms robustCost_BZ0 [Fin m0] [Fin 1] (Some [Fin 1]) 1
                     = [Fin (1 * (sqrt beta * 1))]).
    { unfold score_terms, scaled_residuals, robustCost_BZ0. cbn [np.of_reals map zip_with
        weights_or_ones nf_sub nf_abs nf_over nf_lift1 nf_lift2 nf_mul nf_scale].
      fold beta. rewrite nf_sqrt_Fin by lra. reflexivity. }
    rewrite Hterms.
    set (s := 1 * (sqrt beta * 1)).
    assert (Hspos : 0 < s).
    { unfold s. pose proof (sqrt_lt_R0 beta Hbeta). lra. }
    exists (np.root4 (0 + Rabs s ^ 4) / INR 1). split; [reflexivity |].
    assert (Habs : 0 < Rabs s) by (apply Rabs_pos_lt; lra).
    assert (H4 : 0 < 0 + Rabs s ^ 4).
    { rewrite Rplus_0_l. apply pow_lt. exact Habs. }
    unfold np.root4. pose proof (sqrt_lt_R0 _ (sqrt_lt_R0 _ H4)) as Hroot.
    simpl INR. lra. }
  destruct Hs as (v & Hs & Hv).
  match goal with
  | |- rmap _ ?a <> rmap _ ?b =>
      replace a with (Ok (Fin v)) by (symmetry; exact Hs);
      replace b with (Ok (Fin v)) by (symmetry; exact Hs)
  end.
  cbn [rmap nf_scale nf_lift1].
  intros H. injection H as H.
  assert (Habs : Rabs (-1) = 1) by (unfold Rabs; destruct (Rcase_abs (-1)); lra).
  rewrite Habs in H. lra.
Qed.

(** C7 fails: at [verbose = 0] a call in which scipy returns leaves the
    convergence reports of the two Powell minimizations on the terminal. *)
Lemma silent_call_shows_minimizer_reports :
  terminal Sample.start = []
  /\ terminal (snd (sample_fit Sample.minimize 0%Z false VNone))
     = [Displayed (CallMinimize [(Fin 0 - Fin 2)%nf; Fin 40; Fin 0] "Powell" true);
        Displayed (CallMinimize [(Fin 0 - Fin 2)%nf; Fin 40; Fin 0] "Powell" true)].
Proof.
  split; [reflexivity |].
  destruct (returning_run_runs robustCost_BZ0 Sample.curve_fit Sample.brute Sample.minimize
              robustCost_BZ0_shape Sample.store [] 0%nat 1%nat 2%nat (VRef 3%nat) 0%Z VNone false
              Sample.pp0 Sample.xd Sample.yd (Some Sample.weights)
              (Fin 0) (Fin 40) (Fin 400) [] (Fin 0) (Fin 0 - Fin 2)%nf
              (Sample.optimum false) (Sample.optimum false)
              (sample_returning_run false VNone (or_introl eq_refl)))
    as (l & s0 & sb & sc & sf & E & _).
  unfold Sample.start, terminal. rewrite E. cbn [snd trace app].
  rewrite terminal_run_events_quiet. reflexivity.
Qed.

(** C8 fails for the argument [dd]: an empty dictionary passed as [dd]
    holds two entries after the call, one of them the caller's own
    weights. *)
Lemma supplied_dict_is_written :
  heap Sample.start !! 4%nat = Some (ODict ∅)
  /\ heap (snd (sample_fit Sample.minimize 0%Z false (VRef 4%nat))) !! 4%nat
     = Some (ODict (<["weights" := VRef 3%nat]> (<["pp" := VRef 5%nat]> ∅)))
  /\ (<["weights" := VRef 3%nat]> (<["pp" := VRef 5%nat]> ∅) : gmap string pyval) <> ∅.
Proof.
  split; [reflexivity |]. split; [| apply insert_non_empty].
  destruct (returning_run_runs robustCost_BZ0 Sample.curve_fit Sample.brute Sample.minimize
              robustCost_BZ0_shape Sample.store [] 0%nat 1%nat 2%nat (VRef 3%nat) 0%Z
              (VRef 4%nat) false
              Sample.pp0 Sample.xd Sample.yd (Some Sample.weights)
              (Fin 0) (Fin 40) (Fin 400) [] (Fin 0) (Fin 0 - Fin 2)%nf
              (Sample.optimum false) (Sample.optimum false)
              (sample_returning_run false (VRef 4%nat) (or_intror eq_refl)))
    as (l & s0 & sb & sc & sf & E & _).
  unfold Sample.start. rewrite E. reflexivity.
Qed.

(** C9 fails on arrays of different lengths: three coordinates against
    two responses raise the broadcasting error of numpy. *)
Lemma score_raises_on_length_mismatch :
  barrierScore robustCost_BZ0 (np.of_reals [1; 2; 3]) (np.of_reals [1; 2]) Sample.pp0 None
    thr_default
  = Raise ValueError.
Proof.
  apply barrierScore_mismatch; simpl; lia.
Qed.

(** * The plotting helpers and the module body *)

(** ** [extent2fullextent] *)

Lemma IZR_pred_of_nat (n : nat) : IZR (Z.of_nat n - 1) = INR n - 1.
Proof. now rewrite minus_IZR, <- INR_IZR_INZ. Qed.

Lemma pred_of_nat_zero (n : nat) : IZR (Z.of_nat n - 1) = 0 <-> n = 1%nat.
Proof.
  split.
  - intros H. apply eq_IZR_R0 in H. lia.
  - intros ->. reflexivity.
Qed.

Lemma py_truediv_nonzero (a b : R) : b <> 0 -> py_truediv a b = Ok (a / b).
Proof. intros H. unfold py_truediv. now destruct (Req_dec_T b 0). Qed.

Lemma extent2fullextent_value (left right bottom top : R) (more : list R) (ny nx : nat)
    (dims : list nat) (pixels : list npfloat) :
  nx <> 1%nat -> ny <> 1%nat ->
  extent2fullextent (left :: right :: bottom :: top :: more)
    {| im_shape := ny :: nx :: dims; im_pixels := pixels |}
  = Ok (left - (right - left) / (INR nx - 1) / 2
        :: right + (right - left) / (INR nx - 1) / 2
        :: bottom - (top - bottom) / (INR ny - 1) / 2
        :: top + (top - bottom) / (INR ny - 1) / 2
        :: more).
Proof.
  intros Hx Hy. unfold extent2fullextent. cbn [im_shape getitem lookup list_lookup rbind].
  rewrite !py_truediv_nonzero by (rewrite pred_of_nat_zero; assumption).
  cbn [rbind]. now rewrite !IZR_pred_of_nat.
Qed.

(** X13 (extent2fullextent, lines 52-61).  For an image of [ny] rows and
    [nx] columns, neither equal to one, the extent grows by half a pixel
    on each side, where a pixel is [dx = (right - left) / (nx - 1)] wide
    and [dy = (top - bottom) / (ny - 1)] high: the result spans exactly
    [nx] by [ny] pixels, its first and last pixel are centred on the old
    bounds, and elements after the fourth are kept. *)
Theorem extent2fullextent_half_pixel (left right bottom top : R) (more : list R)
    (ny nx : nat) (dims : list nat) (pixels : list npfloat) :
  nx <> 1%nat -> ny <> 1%nat ->
  let dx := (right - left) / (INR nx - 1) in
  let dy := (top - bottom) / (INR ny - 1) in
  exists l r b t : R,
    extent2fullextent (left :: right :: bottom :: top :: more)
      {| im_shape := ny :: nx :: dims; im_pixels := pixels |}
    = Ok (l :: r :: b :: t :: more)
    /\ l = left - dx / 2 /\ r = right + dx / 2
    /\ b = bottom - dy / 2 /\ t = top + dy / 2
    /\ r - l = INR nx * dx /\ t - b = INR ny * dy
    /\ l + dx / 2 = left /\ l + (INR nx - 1) * dx + dx / 2 = right
    /\ b + dy / 2 = bottom /\ b + (INR ny - 1) * dy + dy / 2 = top.
Proof.
  intros Hx Hy dx dy.
  assert (Hnx : INR nx - 1 <> 0).
  { rewrite <- IZR_pred_of_nat. now rewrite pred_of_nat_zero. }
  assert (Hny : INR ny - 1 <> 0).
  { rewrite <- IZR_pred_of_nat. now rewrite pred_of_nat_zero. }
  do 4 eexists. split; [now apply extent2fullextent_value |].
  repeat split; unfold dx, dy; field; assumption.
Qed.

(** X14 (extent2fullextent, lines 52-55).  The function validates
    nothing: an image of a single column or a single row makes the
    division by [nx - 1] or [ny - 1] raise [ZeroDivisionError], an image
    of fewer than two dimensions raises [IndexError], and an extent of
    fewer than four elements never gives a result. *)
Theorem extent2fullextent_errors :
  (forall e0 e1 more ny dims pixels,
      extent2fullextent (e0 :: e1 :: more)
        {| im_shape := ny :: 1%nat :: dims; im_pixels := pixels |}
      = Raise ZeroDivisionError)
  /\ (forall e0 e1 e2 e3 more nx dims pixels,
         nx <> 1%nat ->
         extent2fullextent (e0 :: e1 :: e2 :: e3 :: more)
           {| im_shape := 1%nat :: nx :: dims; im_pixels := pixels |}
         = Raise ZeroDivisionError)
  /\ (forall extent0 im,
         (length (im_shape im) < 2)%nat ->
         extent2fullextent extent0 im = Raise IndexError)
  /\ (forall extent0 im,
         (length extent0 < 4)%nat -> raises (extent2fullextent extent0 im)).
Proof.
  split; [| split; [| split]].
  - intros. unfold extent2fullextent. cbn [im_shape getitem lookup list_lookup rbind].
    now rewrite py_truediv_zero.
  - intros e0 e1 e2 e3 more nx dims pixels Hx. unfold extent2fullextent.
    cbn [im_shape getitem lookup list_lookup rbind].
    rewrite py_truediv_nonzero by (rewrite pred_of_nat_zero; assumption).
    cbn [rbind]. now rewrite py_truediv_zero.
  - intros extent0 [sh px] H. cbn in H. unfold extent2fullextent. cbn [im_shape].
    destruct sh as [| ny [| nx sh]]; cbn in H; try lia; reflexivity.
  - intros extent0 [sh px] H. unfold extent2fullextent. cbn [im_shape].
    destruct sh as [| ny [| nx sh]]; [eexists; reflexivity | eexists; reflexivity |].
    cbn [getitem lookup list_lookup rbind].
    destruct extent0 as [| e0 [| e1 [| e2 [| e3 more]]]]; cbn in H; try lia;
      cbn [getitem lookup list_lookup rbind];
      try (eexists; reflexivity);
      destruct (py_truediv (e1 - e0) (IZR (Z.of_nat nx - 1))); cbn [rbind];
      eexists; reflexivity.
Qed.

(** ** [plotBarrierFit] *)

Lemma gbind_draw {B : Type} (c : plot_cmd) (k : unit -> G B) (cs : list plot_cmd) :
  gbind (draw c) k cs = k tt (cs ++ [c]).
Proof. reflexivity. Qed.

Lemma gbind_lift_Ok {A B : Type} (r : result A) (a : A) (k : A -> G B) (cs : list plot_cmd) :
  r = Ok a -> gbind (glift r) k cs = k a cs.
Proof. intros ->. reflexivity. Qed.

Lemma gbind_lift_Raise {A B : Type} (r : result A) (e : exn) (k : A -> G B)
    (cs : list plot_cmd) :
  r = Raise e -> gbind (glift r) k cs = (Raise e, cs).
Proof. intros ->. reflexivity. Qed.

Lemma linspace_reals (start stop : R) (num : nat) :
  linspace start stop num
  = np.of_reals (map (fun i => INR i * ((stop - start) / INR (num - 1)) + start) (seq 0 num)).
Proof. unfold linspace, np.of_reals. now rewrite map_map. Qed.

Lemma linspace_ends (start stop : R) (num : nat) :
  (2 <= num)%nat ->
  let xs := map (fun i => INR i * ((stop - start) / INR (num - 1)) + start) (seq 0 num) in
  length xs = num /\ xs !! 0%nat = Some start /\ xs !! (num - 1)%nat = Some stop.
Proof.
  intros H xs. unfold xs. split; [now rewrite length_map, length_seq |].
  rewrite !list_lookup_fmap, !lookup_seq_lt by lia. cbn [fmap option_fmap option_map Nat.add].
  assert (INR (num - 1) <> 0) by (apply not_0_INR; lia).
  split; f_equal; [cbn [INR]; ring | field; assumption].
Qed.

Lemma asymptote_value (d leverarm : R) :
  sqrt ((d * leverarm) ^ 2 + 4 * 0 ^ 2) * ueV2Hz = Rabs d * Rabs leverarm * ueV2Hz.
Proof.
  f_equal. rewrite <- Rabs_mult.
  replace ((d * leverarm) ^ 2 + 4 * 0 ^ 2) with (Rsqr (d * leverarm)) by (unfold Rsqr; ring).
  apply sqrt_Rsqr_abs.
Qed.

(** X15 (plotBarrierFit, lines 104-120).  On an image whose extent can
    be enlarged, the function issues its ten drawing commands in the
    order of the source and draws two curves over the same 1000
    abscissae, which run from [imextent[0]] to [imextent[1]]: the model
    at the fitted parameters, solid, and the model with the tunnel
    coupling set to zero, dashed, which is the pair of straight lines
    [|x - x0| |leverarm| ueV2Hz] and nowhere above the solid curve. *)
Theorem plotBarrierFit_curves (imq : image) (left right : R) (rest : list R)
    (x0 leverarm t : R) (more : list npfloat) (fig : Z) (title : string)
    (extent : list R) (cs : list plot_cmd) :
  extent2fullextent (left :: right :: rest) imq = Ok extent ->
  exists xs : list R,
    linspace left right 1000 = np.of_reals xs
    /\ length xs = 1000%nat
    /\ xs !! 0%nat = Some left
    /\ xs !! 999%nat = Some right
    /\ plotBarrierFit imq (left :: right :: rest) (Fin x0 :: Fin leverarm :: Fin t :: more)
         fig title cs
       = (Ok tt,
          cs ++ [ Cfigure fig; Clf; Imshow imq extent "nearest"; Axis "tight"; Title title;
                  Ylabel "Frequency"; Ylabel "Frequency / [mV]"; Axis "tight";
                  Plot (np.of_reals xs)
                    (np.of_reals
                       (map (fun x => sqrt (((x - x0) * leverarm) ^ 2 + 4 * t ^ 2) * ueV2Hz) xs))
                    "-g" (Some "Model");
                  Plot (np.of_reals xs)
                    (np.of_reals (map (fun x => Rabs (x - x0) * Rabs leverarm * ueV2Hz) xs))
                    "--g" None ])
    /\ forall x,
         Rabs (x - x0) * Rabs leverarm * ueV2Hz
         <= sqrt (((x - x0) * leverarm) ^ 2 + 4 * t ^ 2) * ueV2Hz.
Proof.
  intros Hext.
  destruct (linspace_ends left right 1000 ltac:(lia)) as (Hlen & Hfirst & Hlast).
  cbv zeta in Hlen, Hfirst, Hlast.
  change (1000 - 1)%nat with 999%nat in *.
  remember (map (fun i => INR i * ((right - left) / INR 999) + left) (seq 0 1000)) as xs
    eqn:Hxs.
  assert (Hlin : linspace left right 1000 = np.of_reals xs).
  { rewrite linspace_reals. change (1000 - 1)%nat with 999%nat. now rewrite Hxs. }
  exists xs. split; [exact Hlin |]. split; [exact Hlen |].
  split; [exact Hfirst |]. split; [exact Hlast |]. split.
  - unfold plotBarrierFit. rewrite !gbind_draw.
    rewrite (gbind_lift_Ok _ extent) by exact Hext. rewrite !gbind_draw.
    rewrite (gbind_lift_Ok _ left) by reflexivity.
    rewrite (gbind_lift_Ok _ right) by reflexivity. cbv zeta.
    rewrite Hlin.
    rewrite (gbind_lift_Ok _ (line95 (np.of_reals xs) (Fin x0) (Fin leverarm) (Fin t)))
      by apply barrierModel_packed.
    rewrite gbind_draw.
    rewrite (gbind_lift_Ok _ (Fin x0 :: Fin leverarm :: Fin 0 :: more)) by reflexivity.
    rewrite (gbind_lift_Ok _ (line95 (np.of_reals xs) (Fin x0) (Fin leverarm) (Fin 0)))
      by apply barrierModel_packed.
    unfold draw. rewrite !line95_reals. rewrite <- !app_assoc. cbn [app].
    erewrite (map_ext (fun xi => sqrt (((xi - x0) * leverarm) ^ 2 + 4 * 0 ^ 2) * ueV2Hz));
      [reflexivity | intros x; apply asymptote_value].
  - intros x. rewrite <- asymptote_value.
    apply Rmult_le_compat_r; [left; apply ueV2Hz_pos |].
    apply sqrt_le_1_alt. nra.
Qed.

(** X16 (plotBarrierFit, lines 104-106).  On an image of a single
    column the call raises [ZeroDivisionError] out of
    [extent2fullextent]: the figure has been selected and cleared by
    then, and nothing is drawn. *)
Theorem plotBarrierFit_single_column (left right : R) (rest : list R) (ny : nat)
    (dims : list nat) (pixels : list npfloat) (pp : list npfloat) (fig : Z)
    (title : string) (cs : list plot_cmd) :
  plotBarrierFit {| im_shape := ny :: 1%nat :: dims; im_pixels := pixels |}
    (left :: right :: rest) pp fig title cs
  = (Raise ZeroDivisionError, cs ++ [Cfigure fig; Clf]).
Proof.
  unfold plotBarrierFit. rewrite !gbind_draw.
  rewrite (gbind_lift_Raise _ ZeroDivisionError).
  - now rewrite <- app_assoc.
  - unfold extent2fullextent. cbn [im_shape getitem lookup list_lookup rbind].
    now rewrite py_truediv_zero.
Qed.

(** X17 (plotBarrierFit, lines 104-114).  A parameter sequence of fewer
    than three elements is found out late: the image has been drawn,
    titled and labelled when [barrierModel] raises [IndexError], and no
    curve is drawn. *)
Theorem plotBarrierFit_short_parameters (imq : image) (left right : R) (rest : list R)
    (pp : list npfloat) (fig : Z) (title : string) (extent : list R)
    (cs : list plot_cmd) :
  extent2fullextent (left :: right :: rest) imq = Ok extent ->
  (length pp < 3)%nat ->
  plotBarrierFit imq (left :: right :: rest) pp fig title cs
  = (Raise IndexError,
     cs ++ [ Cfigure fig; Clf; Imshow imq extent "nearest"; Axis "tight"; Title title;
             Ylabel "Frequency"; Ylabel "Frequency / [mV]"; Axis "tight" ]).
Proof.
  intros Hext Hpp. unfold plotBarrierFit. rewrite !gbind_draw.
  rewrite (gbind_lift_Ok _ extent) by exact Hext. rewrite !gbind_draw.
  rewrite (gbind_lift_Ok _ left) by reflexivity.
  rewrite (gbind_lift_Ok _ right) by reflexivity. cbv zeta.
  rewrite (gbind_lift_Raise _ IndexError).
  - rewrite <- !app_assoc. reflexivity.
  - destruct pp as [| a [| b [| c pp]]]; cbn in Hpp; try lia; reflexivity.
Qed.

(** ** [preprocessPAT] *)

(** X18 (preprocessPAT, lines 148-150).  The call never returns: when
    [smoothImage] returns, line 150 asks numpy for an array of shape
    [(1, 15.)], whose second dimension is a float, and raises
    [TypeError]; when [smoothImage] raises, so does the call.  Nothing
    of lines 151-189 is ever reached. *)
Theorem preprocessPAT_never_returns
    (smoothImage : image -> result image)
    (lines_151_189 :
       image -> list R -> image -> image -> option Z -> result (image * image * image))
    (imextent : list R) (im0 im : image) (fig : option Z) :
  ~ returns (preprocessPAT smoothImage lines_151_189 imextent im0 im fig)
  /\ (returns (smoothImage im0) ->
      preprocessPAT smoothImage lines_151_189 imextent im0 im fig = Raise TypeError)
  /\ (forall e, smoothImage im0 = Raise e ->
      preprocessPAT smoothImage lines_151_189 imextent im0 im fig = Raise e)
  /\ np_ones [PyInt 1; PyFloat 15] = Raise TypeError
  /\ returns (np_ones [PyInt 1; PyInt 15]).
Proof.
  unfold preprocessPAT. repeat split.
  - intros [v Hv]. destruct (smoothImage im0); discriminate.
  - intros [v ->]. reflexivity.
  - intros e ->. reflexivity.
  - eexists. reflexivity.
Qed.

(** ** The module body *)

Lemma exec_block_raise (importable : string -> bool) (pre post : list module_body.stmt)
    (msg : string) (ns ns' : module_body.namespace) :
  module_body.exec_block importable pre ns = (None, ns') ->
  module_body.exec_block importable (pre ++ module_body.RaiseException msg :: post) ns
  = (Some (module_body.Exception msg), ns').
Proof.
  revert ns. induction pre as [| s pre IH]; intros ns H.
  - injection H as <-. reflexivity.
  - cbn [app module_body.exec_block] in *.
    destruct (module_body.exec importable s ns) as [[e |] ns1]; [discriminate |].
    now apply IH.
Qed.

(** X19 (tunnelbarrier.py, lines 10-14).  Importing the module always
    fails: its body raises [Exception('no not use this module any
    more!')] at line 14, whatever can be imported and whatever follows
    in the file.  Only the three [__future__] names are bound by then,
    so none of the functions and constants of the module is ever
    defined by the import. *)
Theorem tunnelbarrier_import_raises (importable : string -> bool)
    (ns : module_body.namespace) :
  exists ns' : module_body.namespace,
    module_body.exec_block importable module_body.tunnelbarrier ns
    = (Some (module_body.Exception "no not use this module any more!"), ns')
    /\ (forall rest,
           module_body.exec_block importable (module_body.lines_10_14 ++ rest) ns
           = (Some (module_body.Exception "no not use this module any more!"), ns'))
    /\ (forall n,
           n ∈ ns' <-> n ∈ ns \/ n ∈ ["division"; "print_function"; "unicode_literals"])
    /\ Forall (fun n => n ∈ ns' <-> n ∈ ns) module_body.defined_names.
Proof.
  exists (module_body.bind "unicode_literals"
            (module_body.bind "print_function" (module_body.bind "division" ns))).
  assert (Hpre : forall rest,
             module_body.exec_block importable (module_body.lines_10_14 ++ rest) ns
             = (Some (module_body.Exception "no not use this module any more!"),
                module_body.bind "unicode_literals"
                  (module_body.bind "print_function" (module_body.bind "division" ns)))).
  { intros rest.
    apply (exec_block_raise importable
             [module_body.FromFutureImport "division";
              module_body.FromFutureImport "print_function";
              module_body.FromFutureImport "unicode_literals"]).
    reflexivity. }
  split; [apply Hpre |]. split; [exact Hpre |].
  unfold module_body.bind. split.
  - intros n. rewrite !elem_of_union, !elem_of_singleton, !elem_of_cons, elem_of_nil. tauto.
  - unfold module_body.defined_names.
    repeat (apply Forall_cons; split;
            [rewrite !elem_of_union, !elem_of_singleton;
             split; [intros [H | [H | [H | H]]]; [discriminate.. | exact H] | tauto] |]).
    apply Forall_nil_2.
Qed.

(** ** The further results at the sample call *)

Lemma barrierScore_unit_weights_witness :
  barrierScore robustCost_BZ0 Sample.xd Sample.yd Sample.pp0
    (Some (replicate 3 (Fin 1))) thr_default
  = barrierScore robustCost_BZ0 Sample.xd Sample.yd Sample.pp0 None thr_default.
Proof.
  exact (barrierScore_unit_weights robustCost_BZ0 robustCost_BZ0_shape
           Sample.xd Sample.yd Sample.pp0 thr_default).
Defined.

Lemma barrierScore_weights_mismatch_witness :
  barrierScore robustCost_BZ0 Sample.xd Sample.yd Sample.pp0
    (Some (np.of_reals [1; 1])) thr_default
  = Raise ValueError.
Proof.
  apply (barrierScore_weights_mismatch robustCost_BZ0 robustCost_BZ0_shape).
  - reflexivity.
  - change (3 <= 3)%nat. lia.
  - apply thr_default_nonzero.
  - change (2 <> 3)%nat. lia.
  - change (2 <> 1)%nat. lia.
  - change (3 <> 1)%nat. lia.
Defined.

Lemma extent2fullextent_half_pixel_witness :
  exists l r b t : R,
    extent2fullextent [0; 2; 0; 1] {| im_shape := [2; 3]%nat; im_pixels := [] |}
    = Ok [l; r; b; t]
    /\ r - l = INR 3 * ((2 - 0) / (INR 3 - 1)).
Proof.
  destruct (extent2fullextent_half_pixel 0 2 0 1 [] 2 3 [] [])
    as (l & r & b & t & H & _ & _ & _ & _ & Hw & _); [lia | lia |].
  exists l, r, b, t. split; [exact H | exact Hw].
Defined.

Lemma plotBarrierFit_curves_witness :
  exists xs : list R,
    linspace 0 2 1000 = np.of_reals xs
    /\ length xs = 1000%nat
    /\ xs !! 0%nat = Some 0
    /\ xs !! 999%nat = Some 2.
Proof.
  destruct (plotBarrierFit_curves {| im_shape := [2; 3]%nat; im_pixels := [] |}
              0 2 [0; 1] 0 40 400 [] 400 "Fitted model" _ []
              (extent2fullextent_value 0 2 0 1 [] 2 3 [] []
                 ltac:(lia) ltac:(lia)))
    as (xs & Hlin & Hlen & Hfirst & Hlast & _).
  exists xs. repeat split; assumption.
Defined.

Lemma reports_of_a_run_witness :
  exists s0 sf : npfloat,
    terminal (snd (sample_fit Sample.minimize 1%Z false VNone))
    = [Displayed (CallMinimize [(Fin 0 - Fin 2)%nf; Fin 40; Fin 0] "Powell" true);
       Displayed (CallMinimize [(Fin 0 - Fin 2)%nf; Fin 40; Fin 0] "Powell" true);
       Printed (FinalReport s0 sf)].
Proof.
  destruct (reports_of_a_run robustCost_BZ0 Sample.curve_fit Sample.brute Sample.minimize
              robustCost_BZ0_shape
              Sample.store [] 0%nat 1%nat 2%nat (VRef 3%nat) 1%Z VNone false
              Sample.pp0 Sample.xd Sample.yd (Some Sample.weights)
              (Fin 0) (Fin 40) (Fin 400) [] (Fin 0) (Fin 0 - Fin 2)%nf
              (Sample.optimum false) (Sample.optimum false)
              (sample_returning_run false VNone (or_introl eq_refl)))
    as (s0 & sb & sc & sf & _ & _ & _ & _ & _ & H1 & _).
  exists s0, sf. exact (H1 eq_refl).
Defined.

Lemma initial_tunnel_coupling_ignored_witness :
  exists (ret : loc) (w1 w2 : world),
    sample_fit Sample.minimize 0%Z false VNone = (Ok ret, w1)
    /\ fitBarrierModel robustCost_BZ0 Sample.curve_fit Sample.brute Sample.minimize
         0%nat 1%nat 2%nat (VRef 3%nat) 0%Z false VNone
         (World (<[0%nat := OArray [Fin 0; Fin 40; Fin 7]]> Sample.store) [])
       = (Ok ret, w2)
    /\ heap w1 !! ret = Some (OArray [(Fin 0 - Fin 2)%nf; Fin 40; Fin 0])
    /\ heap w2 !! ret = Some (OArray [(Fin 0 - Fin 2)%nf; Fin 40; Fin 0]).
Proof.
  destruct (initial_tunnel_coupling_ignored robustCost_BZ0 Sample.curve_fit Sample.brute
              Sample.minimize robustCost_BZ0_shape
              Sample.store [] 0%nat 1%nat 2%nat (VRef 3%nat) 0%Z VNone
              Sample.xd Sample.yd (Some Sample.weights)
              (Fin 0) (Fin 40) (Fin 400) (Fin 7) [] (Fin 0) (Fin 0 - Fin 2)%nf
              (Sample.optimum false) (Sample.optimum false)
              (sample_returning_run false VNone (or_introl eq_refl))
              ltac:(lia) ltac:(lia) ltac:(discriminate) ltac:(discriminate))
    as (ret & w1 & w2 & H1 & H2 & H3 & H4 & _).
  exists ret, w1, w2. repeat split; assumption.
Defined.

Lemma short_initial_guess_witness :
  fitBarrierModel robustCost_BZ0 Sample.curve_fit Sample.brute Sample.minimize
    0%nat 1%nat 2%nat (VRef 3%nat) 0%Z false VNone
    (World [OArray [Fin 0; Fin 40]; OArray Sample.xd; OArray Sample.yd; OArray Sample.weights]
       [])
  = (Raise IndexError,
     World ([OArray [Fin 0; Fin 40]; OArray Sample.xd; OArray Sample.yd;
             OArray Sample.weights]
              ++ [OArray [Fin 0; Fin 40]; OArray [Fin 0; Fin 40]])
       ([] ++ [Called (CallBrute (Fin 0) (Fin 100) 20 false)])).
Proof.
  apply (proj2 (short_initial_guess robustCost_BZ0 Sample.curve_fit Sample.brute
                  Sample.minimize
                  [OArray [Fin 0; Fin 40]; OArray Sample.xd; OArray Sample.yd;
                   OArray Sample.weights]
                  [] 0%nat 1%nat 2%nat (VRef 3%nat) 0%Z VNone
                  [Fin 0; Fin 40] Sample.xd Sample.yd (Some Sample.weights)
                  eq_refl eq_refl eq_refl
                  (ex_intro _ Sample.weights (conj eq_refl eq_refl))
                  ltac:(cbn; lia))
           (Fin 0) (Fin 40) (Fin 0) eq_refl eq_refl).
Defined.

Lemma scipy_failures_propagate_witness :
  fitBarrierModel robustCost_BZ0 (fun _ _ _ _ => Raise RuntimeError) Sample.brute
    Sample.minimize 0%nat 1%nat 2%nat (VRef 3%nat) 0%Z true VNone Sample.start
  = (Raise RuntimeError,
     World Sample.store ([] ++ [Called (CallCurveFit Sample.xd Sample.yd Sample.pp0)])).
Proof.
  apply (proj1 (scipy_failures_propagate robustCost_BZ0 (fun _ _ _ _ => Raise RuntimeError)
                  Sample.brute Sample.minimize
                  Sample.store [] 0%nat 1%nat 2%nat (VRef 3%nat) 0%Z VNone
                  Sample.pp0 Sample.xd Sample.yd (Some Sample.weights) RuntimeError
                  eq_refl eq_refl eq_refl
                  (ex_intro _ Sample.weights (conj eq_refl eq_refl)))).
  reflexivity.
Defined.

Lemma plotBarrierFit_short_parameters_witness :
  exists extent : list R,
    plotBarrierFit {| im_shape := [2; 3]%nat; im_pixels := [] |} [0; 2; 0; 1]
      [Fin 0; Fin 40] 400 "Fitted model" []
    = (Raise IndexError,
       [] ++ [ Cfigure 400; Clf;
               Imshow {| im_shape := [2; 3]%nat; im_pixels := [] |} extent "nearest";
               Axis "tight"; Title "Fitted model"; Ylabel "Frequency";
               Ylabel "Frequency / [mV]"; Axis "tight" ]).
Proof.
  eexists.
  apply (plotBarrierFit_short_parameters {| im_shape := [2; 3]%nat; im_pixels := [] |}
           0 2 [0; 1] [Fin 0; Fin 40] 400 "Fitted model" _ []
           (extent2fullextent_value 0 2 0 1 [] 2 3 [] [] ltac:(lia) ltac:(lia))).
  cbn. lia.
Defined.

(** ** [get_version] of docs/conf.py *)

Lemma append_nil_l (b : string) : "" +:+ b = b.
Proof. reflexivity. Qed.

Lemma append_cons (c : Ascii.ascii) (a b : string) : String c a +:+ b = String c (a +:+ b).
Proof. reflexivity. Qed.

Lemma append_nil_r (a : string) : a +:+ "" = a.
Proof. induction a as [| c a IH]; [reflexivity | now rewrite append_cons, IH]. Qed.

Lemma star_any_nil {T : Type} (k : @conf.cont T) (gs : list string) :
  conf.star (conf.rmatch conf.Any) k (String.length "") "" gs = k "" gs.
Proof. reflexivity. Qed.

Lemma star_any_cons {T : Type} (k : @conf.cont T) (c : Ascii.ascii) (s : string)
    (gs : list string) :
  conf.star (conf.rmatch conf.Any) k (String.length (String c s)) (String c s) gs
  = if Ascii.eqb c conf.newline then k (String c s) gs
    else match conf.star (conf.rmatch conf.Any) k (String.length s) s gs with
         | Some x => Some x
         | None => k (String c s) gs
         end.
Proof.
  cbn [String.length conf.star conf.rmatch].
  destruct (Ascii.eqb c conf.newline); [reflexivity |].
  now rewrite (proj2 (Nat.ltb_lt _ _) (Nat.lt_succ_diag_r (String.length s))).
Qed.

(** The part of the pattern after the first [.*]: a space, then the
    group. *)
Lemma after_space_none {T : Type} (k : @conf.cont T) (s : string) (gs : list string) :
  match s with
  | String c _ => Ascii.eqb c conf.space = false
  | EmptyString => True
  end ->
  conf.rmatch (conf.Cat (conf.Chr conf.space) (conf.Group (conf.Star conf.Any))) s gs k = None.
Proof.
  destruct s as [| c s]; [reflexivity |]. intros H. cbn [conf.rmatch]. now rewrite H.
Qed.

Lemma star_any_no_space {T : Type} (k : @conf.cont T) (s : string) (gs : list string) :
  conf.occurs conf.space s = false ->
  conf.star (conf.rmatch conf.Any)
    (fun s' gs' =>
       conf.rmatch (conf.Cat (conf.Chr conf.space) (conf.Group (conf.Star conf.Any))) s' gs' k)
    (String.length s) s gs
  = None.
Proof.
  induction s as [| c s IH]; intros H.
  - reflexivity.
  - cbn [conf.occurs] in H. apply orb_false_iff in H as [Hc Hs].
    rewrite star_any_cons, (IH Hs), after_space_none by exact Hc.
    now destruct (Ascii.eqb c conf.newline).
Qed.

Lemma star_any_greedy {T : Type} (k : @conf.cont T) (tok nl : string) (gs : list string)
    (x : T) :
  conf.occurs conf.newline tok = false ->
  nl = "" \/ nl = String conf.newline "" ->
  k nl gs = Some x ->
  conf.star (conf.rmatch conf.Any) k (String.length (tok +:+ nl)) (tok +:+ nl) gs = Some x.
Proof.
  intros Htok Hnl Hk. induction tok as [| c tok IH].
  - rewrite append_nil_l. destruct Hnl as [-> | ->]; [exact Hk |].
    rewrite star_any_cons. cbn. exact Hk.
  - cbn [conf.occurs] in Htok. apply orb_false_iff in Htok as [Hc Htok].
    rewrite append_cons, star_any_cons, Hc, (IH Htok). reflexivity.
Qed.

Lemma length_append (a b : string) :
  String.length (a +:+ b) = (String.length a + String.length b)%nat.
Proof.
  induction a as [| c a IH]; [reflexivity |].
  rewrite append_cons. cbn [String.length Nat.add]. now rewrite IH.
Qed.

Lemma substring_prefix (a b : string) :
  String.substring 0 (String.length a) (a +:+ b) = a.
Proof.
  induction a as [| c a IH].
  - rewrite append_nil_l. destruct b; reflexivity.
  - rewrite append_cons. cbn [String.length String.substring]. now rewrite IH.
Qed.

Lemma occurs_append (c : Ascii.ascii) (a b : string) :
  conf.occurs c (a +:+ b) = conf.occurs c a || conf.occurs c b.
Proof.
  induction a as [| c' a IH]; [reflexivity |].
  rewrite append_cons. cbn [conf.occurs]. now rewrite IH, orb_assoc.
Qed.

Lemma rmatch_pattern {T : Type} (s : string) (k : @conf.cont T) :
  conf.rmatch conf.pattern s [] k
  = conf.star (conf.rmatch conf.Any)
      (fun s' gs' =>
         conf.rmatch (conf.Cat (conf.Chr conf.space) (conf.Group (conf.Star conf.Any)))
           s' gs' k)
      (String.length s) s [].
Proof. reflexivity. Qed.

Lemma rmatch_after_space {T : Type} (rest : string) (gs : list string) (k : @conf.cont T) :
  conf.rmatch (conf.Cat (conf.Chr conf.space) (conf.Group (conf.Star conf.Any)))
    (String conf.space rest) gs k
  = conf.star (conf.rmatch conf.Any)
      (fun s' gs' =>
         k s' (gs' ++ [String.substring 0 (String.length rest - String.length s') rest]))
      (String.length rest) rest gs.
Proof. reflexivity. Qed.

Lemma pattern_at_last_space (pre tok nl : string) :
  conf.occurs conf.newline pre = false ->
  conf.occurs conf.space tok = false ->
  conf.occurs conf.newline tok = false ->
  nl = "" \/ nl = String conf.newline "" ->
  conf.rmatch conf.pattern (pre +:+ String conf.space (tok +:+ nl)) []
    (fun _ gs => Some gs)
  = Some [tok].
Proof.
  intros Hpre Hsp Hnl Hend. rewrite rmatch_pattern.
  induction pre as [| c pre IH].
  - rewrite append_nil_l, star_any_cons.
    change (Ascii.eqb conf.space conf.newline) with false. cbv iota.
    rewrite star_any_no_space.
    2:{ rewrite occurs_append, Hsp. destruct Hend as [-> | ->]; reflexivity. }
    rewrite rmatch_after_space.
    apply star_any_greedy; [exact Hnl | exact Hend |].
    cbn [app]. do 2 f_equal.
    rewrite length_append, Nat.add_sub. apply substring_prefix.
  - cbn [conf.occurs] in Hpre. apply orb_false_iff in Hpre as [Hc Hpre].
    rewrite append_cons, star_any_cons, Hc, (IH Hpre). reflexivity.
Qed.

Lemma search_no_space (s : string) :
  conf.occurs conf.space s = false -> conf.search conf.pattern s = None.
Proof.
  induction s as [| c s IH]; intros H.
  - reflexivity.
  - cbn [conf.search]. rewrite rmatch_pattern.
    rewrite star_any_no_space by exact H.
    cbn [conf.occurs] in H. apply orb_false_iff in H as [_ Hs]. now apply IH.
Qed.

Lemma readline_line (line rest : string) :
  conf.occurs conf.newline line = false ->
  conf.readline (line +:+ String conf.newline rest) = line +:+ String conf.newline ""
  /\ conf.readline line = line.
Proof.
  intros H. induction line as [| c line IH].
  - split; reflexivity.
  - cbn [conf.occurs] in H. apply orb_false_iff in H as [Hc Hl].
    destruct (IH Hl) as [IH1 IH2]. rewrite !append_cons. cbn [conf.readline].
    rewrite Hc, IH1, IH2. split; reflexivity.
Qed.

(** The text of a file whose first line is [line]: the line alone, or
    the line, a newline and further text. *)
Lemma readline_first (line : string) (later : option string) :
  conf.occurs conf.newline line = false ->
  conf.readline (line +:+ match later with
                          | Some rest => String conf.newline rest
                          | None => ""
                          end)
  = line +:+ match later with
             | Some _ => String conf.newline ""
             | None => ""
             end.
Proof.
  intros H. destruct later as [rest |].
  - apply (readline_line line rest H).
  - rewrite !append_nil_r. apply (readline_line line "" H).
Qed.

Lemma append_assoc (a b c : string) : (a +:+ b) +:+ c = a +:+ (b +:+ c).
Proof.
  induction a as [| x a IH]; [reflexivity | now rewrite !append_cons, IH].
Qed.

(** X20 (get_version, lines 105-111).  When the first line of the file
    consists of some text, a space and a token without spaces, the
    function returns the token, the single quotes at its two ends
    stripped: the greedy pattern keeps what follows the last space of
    the line.  The lines after the first are not looked at, and the
    version is printed unless [verbose] is 0. *)
Theorem get_version_last_token (fs : gmap string string) (verbose : Z)
    (filename pre tok : string) (later : option string) :
  fs !! filename
  = Some ((pre +:+ String conf.space tok)
            +:+ match later with
                | Some rest => String conf.newline rest
                | None => ""
                end) ->
  conf.occurs conf.newline pre = false ->
  conf.occurs conf.space tok = false ->
  conf.occurs conf.newline tok = false ->
  conf.get_version fs verbose filename
  = (inr (conf.strip conf.quote tok),
     if (verbose =? 0)%Z then []
     else ["get_version: " +:+ conf.strip conf.quote tok]).
Proof.
  intros Hfile Hpre Hsp Hnl. unfold conf.get_version. rewrite Hfile. cbv zeta.
  rewrite readline_first.
  2:{ rewrite occurs_append. cbn [conf.occurs]. now rewrite Hpre, Hnl. }
  assert (Hs : conf.search conf.pattern
                 ((pre +:+ String conf.space tok)
                    +:+ match later with
                        | Some _ => String conf.newline ""
                        | None => ""
                        end)
               = Some [tok]).
  { rewrite append_assoc, append_cons.
    assert (Hm := pattern_at_last_space pre tok
                    (match later with
                     | Some _ => String conf.newline ""
                     | None => ""
                     end) Hpre Hsp Hnl
                    ltac:(destruct later; [right | left]; reflexivity)).
    destruct (pre +:+ String conf.space
                        (tok +:+ match later with
                                 | Some _ => String conf.newline ""
                                 | None => ""
                                 end));
      cbn [conf.search]; now rewrite Hm. }
  rewrite Hs. reflexivity.
Qed.

(** X21 (get_version, lines 105-108).  Nothing is checked: a missing
    file raises [FileNotFoundError] out of [open], and a first line
    without a space (an empty file included) makes the pattern fail, so
    that [m] is [None] and [m.group(1)] raises [AttributeError]; nothing
    is printed in either case. *)
Theorem get_version_errors (fs : gmap string string) (verbose : Z) (filename : string) :
  (fs !! filename = None ->
   conf.get_version fs verbose filename = (inl conf.FileNotFoundError, []))
  /\ (forall text,
         fs !! filename = Some text ->
         conf.occurs conf.space (conf.readline text) = false ->
         conf.get_version fs verbose filename = (inl conf.AttributeError, [])).
Proof.
  unfold conf.get_version. split.
  - intros ->. reflexivity.
  - intros text -> H. cbv zeta. now rewrite search_no_space.
Qed.

Lemma get_version_last_token_witness :
  conf.get_version
    {[ "../qtt/version.py" := "__version__ = '1.2.3'" +:+ String conf.newline "" ]}
    1 "../qtt/version.py"
  = (inr "1.2.3", ["get_version: 1.2.3"]).
Proof.
  exact (get_version_last_token
           {[ "../qtt/version.py" := "__version__ = '1.2.3'" +:+ String conf.newline "" ]}
           1 "../qtt/version.py" "__version__ =" "'1.2.3'" (Some "")
           (lookup_singleton_eq _ _) eq_refl eq_refl eq_refl).
Defined.
